(** * AutoSpotting replacement engine: a shallow embedding and its properties

    The development follows the Go sources of the [autospotting] package:
    - [instance.go]            (compatibility filter, legacy launch path),
    - [instance_actions.go]    (swap of a spot instance with a group member),
    - [instance_conversion.go] (projection of a configuration into a launch
                                template, bid price, tags),
    - [spot_termination.go]    (reaction to interruption and rebalance events).

    Conventions of the embedding.
    - A Go pointer that the code tests against [nil] is an [option]; a pointer
      that the code dereferences is an [option] too, and the dereference of
      [None] is the outcome [Panics].
    - [float64] is the kernel's binary64 type [PrimFloat.float], every
      operation rounded on its own; a [float32] quantity that is only compared
      is carried by the same type, which contains all its values.
    - [int] and [int64] are [Z]; where the code adds, the wrap-around to 64
      bits is written out.
    - Calls to the cloud services are explicit: their answers are inputs and
      the requests that were sent are recorded in a log.
    - Log output ([log.Printf], [debug.Println]) has no bearing on any result
      and is left out. *)

From Stdlib Require Import Floats.
From Stdlib Require Import ZArith String Ascii List Bool Lia.
From stdpp Require Import base option list gmap strings sorting.

Set Warnings "-inexact-float,-clear-no-such-hyp".
Open Scope Z_scope.

Abbreviation float64 := PrimFloat.float.

(** ** Go prelude *)

Module Go.

(** A Go [error] value is represented by its message. *)
Definition error := string.

(** What a call does: it returns a value or the goroutine panics. *)
Inductive outcome (A : Type) : Type :=
| Returns (a : A)
| Panics (msg : string).
Arguments Returns {A} a.
Arguments Panics {A} msg.

Definition bind {A B} (m : outcome A) (k : A → outcome B) : outcome B :=
  match m with
  | Returns a => k a
  | Panics msg => Panics msg
  end.

(** [*p] for a pointer [p]. *)
Definition deref {A} (p : option A) : outcome A :=
  match p with
  | Some a => Returns a
  | None => Panics "invalid memory address or nil pointer dereference"
  end.

(** [strings.HasPrefix s prefix]. *)
Definition strings_HasPrefix (s prefix : string) : bool := String.prefix prefix s.

(** [strings.Contains s substr]: [substr] starts at some position of [s]. *)
Fixpoint strings_Contains (s substr : string) : bool :=
  String.prefix substr s ||
  match s with
  | EmptyString => false
  | String _ s' => strings_Contains s' substr
  end.

(** Two's complement wrap-around of [int64] arithmetic. *)
Definition int64_min : Z := - 2 ^ 63.
Definition int64_max : Z := 2 ^ 63 - 1.
Definition wrap64 (z : Z) : Z := (z + 2 ^ 63) mod 2 ^ 64 - 2 ^ 63.
Definition int64_add (x y : Z) : Z := wrap64 (x + y).

(** [math.Min], with the special cases the Go library documents:
    [Min(x, -Inf) = Min(-Inf, x) = -Inf], [Min(x, NaN) = Min(NaN, x) = NaN],
    [Min(-0, ±0) = Min(±0, -0) = -0]. *)
Definition is_nan (x : float64) : bool := negb (PrimFloat.eqb x x).
Definition signbit (x : float64) : bool :=
  match PrimFloat.classify x with
  | FloatClass.NNormal | FloatClass.NSubn | FloatClass.NZero | FloatClass.NInf => true
  | _ => false
  end.
Definition math_Min (x y : float64) : float64 :=
  if PrimFloat.eqb x PrimFloat.neg_infinity || PrimFloat.eqb y PrimFloat.neg_infinity
  then PrimFloat.neg_infinity
  else if is_nan x || is_nan y then PrimFloat.nan
  else if PrimFloat.eqb x PrimFloat.zero && PrimFloat.eqb x y
       then (if signbit x then x else y)
  else if PrimFloat.ltb x y then x else y.

End Go.

Import Go.

(** ** Data shared by the source files *)

(** [ec2.Tag]. Keys are dereferenced everywhere without a test, and EC2
    returns no tag without one: the key is a plain string. *)
Record Tag : Type := mkTag { Key : string; Value : option string }.

(** The EBS part of a block device mapping. [autoscaling.Ebs],
    [ec2.LaunchTemplateEbsBlockDevice] and [ec2.EbsBlockDevice] agree on the
    fields the conversion reads, so one record stands for the three. *)
Record Ebs : Type := mkEbs {
  DeleteOnTermination : option bool;
  Encrypted : option bool;
  Iops : option Z;
  SnapshotId : option string;
  VolumeSize : option Z;
  VolumeType : option string
}.

(** A block device mapping; [NoDevice] is a [*bool] in a launch configuration
    and a [*string] in a launch template or an image. *)
Record BlockDeviceMapping (N : Type) : Type := mkBDM {
  DeviceName : option string;
  VirtualName : option string;
  bdmEbs : option Ebs;
  NoDevice : option N
}.
Arguments mkBDM {N}.
Arguments DeviceName {N}.
Arguments VirtualName {N}.
Arguments bdmEbs {N}.
Arguments NoDevice {N}.

(** [ec2.LaunchTemplateEbsBlockDeviceRequest] and
    [ec2.LaunchTemplateBlockDeviceMappingRequest], the fields the code sets. *)
Record LaunchTemplateEbsBlockDeviceRequest : Type := mkEbsRequest {
  reqDeleteOnTermination : option bool;
  reqEncrypted : option bool;
  reqIops : option Z;
  reqSnapshotId : option string;
  reqVolumeSize : option Z;
  reqVolumeType : option string
}.

Record LaunchTemplateBlockDeviceMappingRequest : Type := mkBDMRequest {
  reqDeviceName : option string;
  reqVirtualName : option string;
  reqEbs : option LaunchTemplateEbsBlockDeviceRequest
}.

(** [autoscaling.LaunchTemplateSpecification], as the group refers to it. *)
Record LaunchTemplateSpecification : Type := mkLTSpec {
  LaunchTemplateId : option string;
  Version : option string
}.

(** [config.go]: the default of [ebs_gp2_conversion_threshold]. *)
Definition DefaultGP2ConversionThreshold : Z := 170.

(** The part of [autoScalingGroup] the conversion and the tags read:
    [a.name], [a.region.name], [a.config.GP2ConversionThreshold],
    [a.LaunchTemplate] and [a.LaunchConfigurationName]. *)
Record autoScalingGroup : Type := mkASG {
  name : string;
  regionName : string;
  GP2ConversionThreshold : Z;
  LaunchTemplate : option LaunchTemplateSpecification;
  LaunchConfigurationName : option string
}.

(** [prices]: [spot] maps an availability zone to the spot price there. *)
Record prices : Type := mkPrices {
  onDemand : float64;
  spot : gmap string float64;
  ebsSurcharge : float64
}.

(** [instanceTypeInformation]; [memory], [instanceStoreDeviceSize] and
    [EBSThroughput] are [float32] in the source. *)
Record instanceTypeInformation : Type := mkTypeInfo {
  instanceType : string;
  vCPU : Z;
  PhysicalProcessor : string;
  GPU : Z;
  pricing : prices;
  memory : float64;
  virtualizationTypes : list string;
  hasInstanceStore : bool;
  instanceStoreDeviceSize : float64;
  instanceStoreDeviceCount : Z;
  instanceStoreIsSSD : bool;
  hasEBSOptimization : bool;
  EBSThroughput : float64
}.

(** The configuration the bid reads: [conf.BiddingPolicy] and
    [conf.SpotPriceBufferPercentage]. *)
Record Config : Type := mkConfig {
  BiddingPolicy : string;
  SpotPriceBufferPercentage : float64
}.

(** [region]: its configuration and its catalogue of instance types, keyed by
    type name (the field [instanceTypeInformation], a
    [map[string]instanceTypeInformation]; the record of that name takes the
    plain identifier here). *)
Record region : Type := mkRegion {
  conf : Config;
  instanceTypeInformationMap : gmap string instanceTypeInformation
}.

(** [instance]: the fields of the embedded [ec2.Instance] that the code reads
    (the identifier, the tags, [State.Name], [Placement.AvailabilityZone],
    [EbsOptimized], [VirtualizationType], [InstanceLifecycle]) and the
    package's own fields. The identifier, the state name, the zone and the
    virtualization type are dereferenced without a test and are plain
    strings. *)
Record instance : Type := mkInstance {
  InstanceId : string;
  Tags : list Tag;
  StateName : string;
  AvailabilityZone : string;
  EbsOptimized : option bool;
  VirtualizationType : string;
  InstanceLifecycle : option string;
  typeInfo : instanceTypeInformation;
  price : float64;
  instRegion : region;
  asg : autoScalingGroup
}.

(** ** instance_conversion.go: EBS volume types *)

Module InstanceConversion.

Definition unsupportedIO2Regions : list string :=
  [ "us-gov-west-1"; "us-gov-east-1"; "sa-east-1"; "cn-north-1";
    "cn-northwest-1"; "eu-south-1"; "af-south-1"; "eu-west-3";
    "ap-northeast-3" ].

(** [supportedIO2region]: the loop returns [false] at the first entry equal
    to the region and [true] when it runs out of entries. *)
Definition supportedIO2region (region : string) : bool :=
  (fix loop (rs : list string) : bool :=
     match rs with
     | [] => true
     | r :: rs' => if String.eqb region r then false else loop rs'
     end) unsupportedIO2Regions.

(** The body shared by the three conversions once the volume type is known
    to be [vt]: the size is dereferenced only when the type is ["gp2"] (Go's
    [&&] does not evaluate its right operand otherwise). *)
Definition convertKnownVolumeType (vt : string) (ebs : Ebs) (a : autoScalingGroup)
  : outcome (option string) :=
  if String.eqb vt "io1" && supportedIO2region (regionName a) then Returns (Some "io2")
  else if String.eqb vt "gp2" then
    bind (deref (VolumeSize ebs)) (λ size,
      if size <=? GP2ConversionThreshold a then Returns (Some "gp3")
      else Returns (VolumeType ebs))
  else Returns (VolumeType ebs).

(** [convertLaunchConfigurationEBSVolumeType]: tests the volume type against
    [nil] before anything else. *)
Definition convertLaunchConfigurationEBSVolumeType (ebs : Ebs) (a : autoScalingGroup)
  : outcome (option string) :=
  match VolumeType ebs with
  | None => Returns None
  | Some vt => convertKnownVolumeType vt ebs a
  end.

(** [convertLaunchTemplateEBSVolumeType]: dereferences the volume type at
    once. *)
Definition convertLaunchTemplateEBSVolumeType (ebs : Ebs) (a : autoScalingGroup)
  : outcome (option string) :=
  bind (deref (VolumeType ebs)) (λ vt, convertKnownVolumeType vt ebs a).

(** [convertImageEBSVolumeType]: the same body over [ec2.EbsBlockDevice]. *)
Definition convertImageEBSVolumeType (ebs : Ebs) (a : autoScalingGroup)
  : outcome (option string) :=
  bind (deref (VolumeType ebs)) (λ vt, convertKnownVolumeType vt ebs a).

(** The loop of the three [convert...BlockDeviceMappings] methods: the
    request is built (and the volume type converted) before the [NoDevice]
    test, entries marked [NoDevice] are skipped, and an empty result is
    [nil]. [skip] is the test on [NoDevice], [conv] the conversion. *)
Section BlockDeviceMappings.
Context {N : Type}.
Variable skip : option N → bool.
Variable conv : Ebs → autoScalingGroup → outcome (option string).

Definition convertOne (a : autoScalingGroup) (BDM : BlockDeviceMapping N)
  : outcome LaunchTemplateBlockDeviceMappingRequest :=
  match bdmEbs BDM with
  | None => Returns (mkBDMRequest (DeviceName BDM) (VirtualName BDM) None)
  | Some ebs =>
      bind (conv ebs a) (λ vt,
        Returns (mkBDMRequest (DeviceName BDM) (VirtualName BDM)
                   (Some (mkEbsRequest (DeleteOnTermination ebs) (Encrypted ebs)
                            (Iops ebs) (SnapshotId ebs) (VolumeSize ebs) vt))))
  end.

Fixpoint convertLoop (a : autoScalingGroup) (BDMs : list (BlockDeviceMapping N))
  (bds : list LaunchTemplateBlockDeviceMappingRequest)
  : outcome (list LaunchTemplateBlockDeviceMappingRequest) :=
  match BDMs with
  | [] => Returns bds
  | BDM :: rest =>
      bind (convertOne a BDM) (λ ec2BDM,
        if skip (NoDevice BDM) then convertLoop a rest bds
        else convertLoop a rest (bds ++ [ec2BDM]))
  end.

Definition convertBlockDeviceMappings (a : autoScalingGroup)
  (BDMs : list (BlockDeviceMapping N))
  : outcome (option (list LaunchTemplateBlockDeviceMappingRequest)) :=
  bind (convertLoop a BDMs []) (λ bds,
    match bds with
    | [] => Returns None
    | _ => Returns (Some bds)
    end).
End BlockDeviceMappings.

(** [BDM.NoDevice != nil && *BDM.NoDevice] *)
Definition noDeviceBool (nd : option bool) : bool :=
  match nd with Some b => b | None => false end.

(** [BDM.NoDevice != nil && *BDM.NoDevice == "true"] *)
Definition noDeviceString (nd : option string) : bool :=
  match nd with Some s => String.eqb s "true" | None => false end.

Definition convertLaunchConfigurationBlockDeviceMappings :=
  convertBlockDeviceMappings noDeviceBool convertLaunchConfigurationEBSVolumeType.

Definition convertLaunchTemplateBlockDeviceMappings :=
  convertBlockDeviceMappings noDeviceString convertLaunchTemplateEBSVolumeType.

Definition convertImageBlockDeviceMappings :=
  convertBlockDeviceMappings noDeviceString convertImageEBSVolumeType.

(** *** Bid price *)

(** Modelled from the spec: the constant [DefaultBiddingPolicy] is declared
    in a file that is not part of these sources; the specification gives its
    value, "normal". *)
Definition DefaultBiddingPolicy : string := "normal".

(** [getPriceToBid]. *)
Definition getPriceToBid (i : instance)
  (baseOnDemandPrice currentSpotPrice spotPremium : float64) : float64 :=
  if String.eqb (BiddingPolicy (conf (instRegion i))) DefaultBiddingPolicy
  then baseOnDemandPrice
  else
    math_Min baseOnDemandPrice
      (PrimFloat.add
         (PrimFloat.mul
            (PrimFloat.sub currentSpotPrice spotPremium)
            (PrimFloat.add 1.0%float
               (PrimFloat.div (SpotPriceBufferPercentage (conf (instRegion i)))
                  100.0%float)))
         spotPremium).

(** *** Tags of the launched instance *)

(** [ec2.LaunchTemplateTagSpecificationRequest]. *)
Record LaunchTemplateTagSpecificationRequest : Type := mkTagSpec {
  ResourceType : option string;
  specTags : list Tag
}.

(** Modelled from the spec: the helper [itemInSlice] is defined in a file
    that is not part of these sources; the specification reads its use as
    "equals any of the six reserved keys", that is membership in the slice. *)
Definition itemInSlice (search : string) (items : list string) : bool :=
  existsb (String.eqb search) items.

Definition tagsToSkip : list string :=
  [ "launched-by-autospotting"; "launched-for-asg";
    "launched-for-replacing-instance"; "LaunchTemplateID";
    "LaunchTemplateVersion"; "LaunchConfigurationName" ].

(** [filterTags]: the loop appends, in order, the tags that pass the test. *)
Fixpoint filterTags (tags : list Tag) : list Tag :=
  match tags with
  | [] => []
  | tag :: rest =>
      if negb (strings_HasPrefix (Key tag) "aws:") && negb (itemInSlice (Key tag) tagsToSkip)
      then tag :: filterTags rest
      else filterTags rest
  end.

(** [generateTagsList]. *)
Definition generateTagsList (i : instance) : list LaunchTemplateTagSpecificationRequest :=
  let tags0 :=
    [ mkTag "launched-by-autospotting" (Some "true");
      mkTag "launched-for-asg" (Some (name (asg i)));
      mkTag "launched-for-replacing-instance" (Some (InstanceId i)) ] in
  let tags1 :=
    match LaunchTemplate (asg i) with
    | Some lt =>
        (tags0 ++ [ mkTag "LaunchTemplateID" (LaunchTemplateId lt) ])
          ++ [ mkTag "LaunchTemplateVersion" (Version lt) ]
    | None =>
        match LaunchConfigurationName (asg i) with
        | Some lcn => tags0 ++ [ mkTag "LaunchConfigurationName" (Some lcn) ]
        | None => tags0
        end
    end in
  [ mkTagSpec (Some "instance") (tags1 ++ filterTags (Tags i)) ].

(** An EBS specification with its volume type replaced, the other fields
    kept: the volume a converted entry describes. *)
Definition withVolumeType (ebs : Ebs) (vt : option string) : Ebs :=
  mkEbs (DeleteOnTermination ebs) (Encrypted ebs) (Iops ebs) (SnapshotId ebs)
    (VolumeSize ebs) vt.

End InstanceConversion.

(** ** instance.go: the compatibility filter and the legacy tag list *)

Module Instance.

(** [acceptableInstance]. *)
Record acceptableInstance : Type := mkAcceptable {
  instanceTI : instanceTypeInformation;
  acceptablePrice : float64
}.

(** The zero value of [instanceTypeInformation], which indexing the catalogue
    with an absent key yields. *)
Definition zeroTypeInfo : instanceTypeInformation :=
  mkTypeInfo "" 0 "" 0 (mkPrices 0%float ∅ 0%float) 0%float [] false 0%float 0 false
    false 0%float.

(** [calculatePrice]: a zone without a price reads as [0]. *)
Definition calculatePrice (i : instance) (spotCandidate : instanceTypeInformation) : float64 :=
  let spotPrice := default 0%float (spot (pricing spotCandidate) !! AvailabilityZone i) in
  match EbsOptimized i with
  | Some true => PrimFloat.add spotPrice (ebsSurcharge (pricing spotCandidate))
  | _ => spotPrice
  end.

(** [isPriceCompatible]. *)
Definition isPriceCompatible (i : instance) (spotPrice : float64) : bool :=
  if PrimFloat.eqb spotPrice 0%float then false
  else if PrimFloat.leb spotPrice (price i) then true
  else false.

Definition isIntel (cpuName : string) : bool :=
  strings_Contains cpuName "Intel" || strings_Contains cpuName "Variable".

Definition isAMD (cpuName : string) : bool := strings_Contains cpuName "AMD".

Definition isIntelCompatible (cpuName : string) : bool := isIntel cpuName || isAMD cpuName.

Definition isARM (cpuName : string) : bool := strings_Contains cpuName "AWS".

(** [isSameArch]. *)
Definition isSameArch (i : instance) (other : instanceTypeInformation) : bool :=
  let thisCPU := PhysicalProcessor (typeInfo i) in
  let otherCPU := PhysicalProcessor other in
  (isIntelCompatible thisCPU && isIntelCompatible otherCPU)
  || (isARM thisCPU && isARM otherCPU).

(** [isClassCompatible]; [x >= y] on floating-point numbers is [y <= x]. *)
Definition isClassCompatible (i : instance) (spotCandidate : instanceTypeInformation) : bool :=
  let current := typeInfo i in
  if isSameArch i spotCandidate
     && (vCPU spotCandidate >=? vCPU current)
     && PrimFloat.leb (memory current) (memory spotCandidate)
     && (GPU spotCandidate >=? GPU current)
  then true
  else false.

(** [isEBSCompatible]. *)
Definition isEBSCompatible (i : instance) (spotCandidate : instanceTypeInformation) : bool :=
  if PrimFloat.ltb (EBSThroughput spotCandidate) (EBSThroughput (typeInfo i)) then false
  else true.

(** [isStorageCompatible]. *)
Definition isStorageCompatible (i : instance) (spotCandidate : instanceTypeInformation)
  (attachedVolumes : Z) : bool :=
  let existing := typeInfo i in
  if (attachedVolumes =? 0)
     || ((instanceStoreDeviceCount spotCandidate >=? attachedVolumes)
         && PrimFloat.leb (instanceStoreDeviceSize existing)
              (instanceStoreDeviceSize spotCandidate)
         && (instanceStoreIsSSD spotCandidate
             || Bool.eqb (instanceStoreIsSSD spotCandidate) (instanceStoreIsSSD existing)))
  then true
  else false.

(** [isVirtualizationCompatible]. *)
Definition isVirtualizationCompatible (i : instance) (spotVirtualizationTypes : list string)
  : bool :=
  let current := VirtualizationType i in
  let types :=
    match spotVirtualizationTypes with
    | [] => [ "HVM" ]
    | _ => spotVirtualizationTypes
    end in
  existsb (λ avt,
      (String.eqb avt "PV" && String.eqb current "paravirtual")
      || (String.eqb avt "HVM" && String.eqb current "hvm")) types.

(** [min]. *)
Definition min (x y : Z) : Z := if x <? y then x else y.

(** [sort.Strings] over the keys of a map. The keys are pairwise different, so
    every sorting procedure returns the same list: the keys in ascending
    byte-wise lexicographic order. *)
Definition string_le (s1 s2 : string) : Prop := String.leb s1 s2 = true.

#[global] Instance string_le_dec (s1 s2 : string) : Decision (string_le s1 s2) :=
  decide (String.leb s1 s2 = true).

Definition sort_Strings (keys : list string) : list string := merge_sort string_le keys.

Section Filter.

(** [filepath.Match pattern name], its error dropped as the code drops it. *)
Variable filepath_Match : string → string → bool.

(** [sort.Slice], applied to the elements and a comparison of two of them. *)
Variable sort_Slice : ∀ A : Type, (A → A → bool) → list A → list A.

(** [i.asg.launchConfiguration.countLaunchConfigEphemeralVolumes()]: the
    method belongs to a file that is not part of these sources. *)
Variable countLaunchConfigEphemeralVolumes : autoScalingGroup → Z.

(** [isAllowed]. *)
Definition isAllowed (instanceType : string) (allowedList disallowedList : list string)
  : bool :=
  match allowedList with
  | _ :: _ => existsb (λ a, filepath_Match a instanceType) allowedList
  | [] =>
      match disallowedList with
      | _ :: _ => negb (existsb (λ a, filepath_Match a instanceType) disallowedList)
      | [] => true
      end
  end.

(** The test of the loop body, for one candidate and its price. *)
Definition isCompatible (i : instance) (allowedList disallowedList : list string)
  (attachedVolumesNumber : Z) (candidate : instanceTypeInformation)
  (candidatePrice : float64) : bool :=
  isAllowed (instanceType candidate) allowedList disallowedList
  && isPriceCompatible i candidatePrice
  && isEBSCompatible i candidate
  && isClassCompatible i candidate
  && isStorageCompatible i candidate attachedVolumesNumber
  && isVirtualizationCompatible i (virtualizationTypes candidate).

(** The loop over the sorted keys, appending the compatible candidates. *)
Fixpoint findCompatible (i : instance) (allowedList disallowedList : list string)
  (attachedVolumesNumber : Z) (keys : list string)
  (acceptableInstanceTypes : list acceptableInstance) : list acceptableInstance :=
  match keys with
  | [] => acceptableInstanceTypes
  | k :: rest =>
      let candidate :=
        default zeroTypeInfo (instanceTypeInformationMap (instRegion i) !! k) in
      let candidatePrice := calculatePrice i candidate in
      if isCompatible i allowedList disallowedList attachedVolumesNumber candidate
           candidatePrice
      then findCompatible i allowedList disallowedList attachedVolumesNumber rest
             (acceptableInstanceTypes ++ [ mkAcceptable candidate candidatePrice ])
      else findCompatible i allowedList disallowedList attachedVolumesNumber rest
             acceptableInstanceTypes
  end.

(** What the loop appends for one key: the candidate under the key with its
    price when it passes the test, nothing otherwise. *)
Definition acceptableAt (i : instance) (allowedList disallowedList : list string)
  (attachedVolumesNumber : Z) (k : string) : option acceptableInstance :=
  let candidate :=
    default zeroTypeInfo (instanceTypeInformationMap (instRegion i) !! k) in
  if isCompatible i allowedList disallowedList attachedVolumesNumber candidate
       (calculatePrice i candidate)
  then Some (mkAcceptable candidate (calculatePrice i candidate))
  else None.

(** The compatible candidates in the order of the keys, before they are
    sorted by price. *)
Definition acceptableOf (i : instance) (allowedList disallowedList : list string)
  : list acceptableInstance :=
  omap (acceptableAt i allowedList disallowedList
          (min (countLaunchConfigEphemeralVolumes (asg i))
             (instanceStoreDeviceCount (typeInfo i))))
    (sort_Strings (map fst (map_to_list (instanceTypeInformationMap (instRegion i))))).

(** The comparison handed to [sort.Slice]. *)
Definition lessByPrice (a b : acceptableInstance) : bool :=
  PrimFloat.ltb (acceptablePrice a) (acceptablePrice b).

(** [getCompatibleSpotInstanceTypesListSortedAscendingByPrice]. *)
Definition getCompatibleSpotInstanceTypesListSortedAscendingByPrice (i : instance)
  (allowedList disallowedList : list string)
  : list instanceTypeInformation * option error :=
  let current := typeInfo i in
  let usedMappings := countLaunchConfigEphemeralVolumes (asg i) in
  let attachedVolumesNumber := min usedMappings (instanceStoreDeviceCount current) in
  let keys := sort_Strings (map fst (map_to_list (instanceTypeInformationMap (instRegion i)))) in
  let acceptableInstanceTypes :=
    findCompatible i allowedList disallowedList attachedVolumesNumber keys [] in
  match acceptableInstanceTypes with
  | _ :: _ =>
      (map instanceTI (sort_Slice acceptableInstance lessByPrice acceptableInstanceTypes),
       None)
  | [] => ([], Some "No cheaper spot instance types could be found")
  end.

End Filter.

(** [ec2.TagSpecification]. *)
Record TagSpecification : Type := mkTagSpecification {
  ResourceType : option string;
  specTags : list Tag
}.

(** The test of the loop of the legacy [generateTagsList], the strings as the
    source spells them. *)
Definition keepTag (tag : Tag) : bool :=
  negb (strings_HasPrefix (Key tag) "aws:")
  && negb (String.eqb (Key tag) "launched-by-autospotting")
  && negb (String.eqb (Key tag) "launched-for-asg")
  && negb (String.eqb (Key tag) "launched-for-replacing-instance")
  && negb (String.eqb (Key tag) "LaunchTemplateID")
  && negb (String.eqb (Key tag) "LaunchTemplateVersion")
  && negb (String.eqb (Key tag) "LaunchConfiguationName").

(** [generateTagsList] of [instance.go]. *)
Definition generateTagsList (i : instance) : list TagSpecification :=
  let tags0 :=
    [ mkTag "launched-by-autospotting" (Some "true");
      mkTag "launched-for-asg" (Some (name (asg i)));
      mkTag "launched-for-replacing-instance" (Some (InstanceId i)) ] in
  let tags1 :=
    match LaunchTemplate (asg i) with
    | Some lt =>
        (tags0 ++ [ mkTag "LaunchTemplateID" (LaunchTemplateId lt) ])
          ++ [ mkTag "LaunchTemplateVersion" (Version lt) ]
    | None =>
        match LaunchConfigurationName (asg i) with
        | Some lcn => tags0 ++ [ mkTag "LaunchConfigurationName" (Some lcn) ]
        | None => tags0
        end
    end in
  [ mkTagSpecification (Some "instance")
      (fold_left (λ tags tag, if keepTag tag then tags ++ [ tag ] else tags) (Tags i) tags1) ].

(** [canTerminate]. *)
Definition canTerminate (i : instance) : bool :=
  negb (String.eqb (StateName i) "terminated")
  && negb (String.eqb (StateName i) "shutting-down").

(** [getReplacementTargetInstanceID]: the value of the first tag with the
    key, a pointer that may itself be [nil]. *)
Fixpoint getReplacementTargetInstanceID_loop (tags : list Tag) : option string :=
  match tags with
  | [] => None
  | tag :: rest =>
      if String.eqb (Key tag) "launched-for-replacing-instance" then Value tag
      else getReplacementTargetInstanceID_loop rest
  end.

Definition getReplacementTargetInstanceID (i : instance) : option string :=
  getReplacementTargetInstanceID_loop (Tags i).

(** [getReplacementTargetASGName]: the value of the first tag with the key
    ["launched-for-asg"]. *)
Fixpoint getReplacementTargetASGName_loop (tags : list Tag) : option string :=
  match tags with
  | [] => None
  | tag :: rest =>
      if String.eqb (Key tag) "launched-for-asg" then Value tag
      else getReplacementTargetASGName_loop rest
  end.

Definition getReplacementTargetASGName (i : instance) : option string :=
  getReplacementTargetASGName_loop (Tags i).

(** [getPricetoBid] of [instance.go], the bid of the legacy launch path: no
    premium is taken off the spot price. *)
Definition getPricetoBid (i : instance) (baseOnDemandPrice currentSpotPrice : float64)
  : float64 :=
  if String.eqb (BiddingPolicy (conf (instRegion i))) InstanceConversion.DefaultBiddingPolicy
  then baseOnDemandPrice
  else
    math_Min baseOnDemandPrice
      (PrimFloat.mul currentSpotPrice
         (PrimFloat.add 1.0%float
            (PrimFloat.div (SpotPriceBufferPercentage (conf (instRegion i))) 100.0%float))).

End Instance.

(** ** instance.go: the index of instances of a region

    [instanceManager] guards its map with a lock; every method takes the lock
    for its whole body, so the methods are the operations on the map. A
    method that changes the manager returns the manager after it. *)

Module InstanceManager.

(** [instanceManager]; [catalog] is an [instanceMap], from instance
    identifiers to instances. *)
Record instanceManager : Type := mkInstanceManager {
  catalog : gmap string instance
}.

(** [makeInstances] and [makeInstancesWithCatalog]. *)
Definition makeInstances : instanceManager := mkInstanceManager ∅.

Definition makeInstancesWithCatalog (catalog : gmap string instance) : instanceManager :=
  mkInstanceManager catalog.

(** [make]: the map is replaced by an empty one. *)
Definition make (manager : instanceManager) : instanceManager := mkInstanceManager ∅.

(** [add]: a [nil] instance is ignored, any other is stored under its
    identifier. *)
Definition add (inst : option instance) (manager : instanceManager) : instanceManager :=
  match inst with
  | None => manager
  | Some inst => mkInstanceManager (<[ InstanceId inst := inst ]> (catalog manager))
  end.

(** [get]: the instance under the identifier, [nil] when there is none. *)
Definition get (id : string) (manager : instanceManager) : option instance := catalog manager !! id.

(** [count] and [count64]. *)
Definition count (manager : instanceManager) : Z := Z.of_nat (size (catalog manager)).

Definition count64 (manager : instanceManager) : Z := count manager.

End InstanceManager.

(** ** Sequencing of effects

    A method that talks to the cloud is a function from the state before the
    call to its result and the state after it. *)

Module Eff.

Definition M (S A : Type) : Type := S → A * S.

Definition ret {S A} (a : A) : M S A := λ s, (a, s).

Definition bind {S A B} (m : M S A) (k : A → M S B) : M S B :=
  λ s, let '(a, s') := m s in k a s'.

Definition get {S} : M S S := λ s, (s, s).

Definition modify {S} (f : S → S) : M S unit := λ s, (tt, f s).

(** [defer d; rest]: [rest] runs to its [return], then [d] runs, and the
    value of [rest] is the result. A [defer] registered later sits deeper in
    the nesting and so runs earlier, which is Go's last-in-first-out order. *)
Definition defer {S A} (d : M S unit) (rest : M S A) : M S A :=
  bind rest (λ r, bind d (λ _, ret r)).

End Eff.

Notation "x <- m ;; k" := (Eff.bind m (λ x, k))
  (at level 100, m at next level, right associativity, only parsing).
Notation "m ;; k" := (Eff.bind m (λ _, k))
  (at level 100, right associativity, only parsing).

(** ** instance_actions.go: swapping a spot instance with a group member *)

Module InstanceActions.

(** The requests a swap sends, in the order of sending. *)
Inductive call : Type :=
| SuspendProcesses
| ResumeProcesses
| SetAutoScalingMaxSize (maxSize : Z)
| AttachSpotInstance (instanceID : string) (wait : bool)
| TerminateInstanceInAutoScalingGroup (instanceID : string) (wait decreaseCapacity : bool)
| TerminateInstances (instanceID : string).

(** Modelled from the spec: the methods of [autoScalingGroup] that the swap
    calls ([suspendProcesses], [resumeProcesses], [setAutoScalingMaxSize],
    [attachSpotInstance], [terminateInstanceInAutoScalingGroup]) are defined
    in a file that is not part of these sources. The specification lists
    them as the GroupView facade over a group's processes, capacity bounds
    and members; here they are the operations of an interface over a type
    [G] of group states, read through [MaxSize], [DesiredCapacity] and
    [processesSuspended] (whether the reconciliation processes Launch,
    Terminate, ReplaceUnhealthy and AZRebalance are suspended). *)
Class GroupView (G : Type) : Type := {
  MaxSize : G → Z;
  DesiredCapacity : G → Z;
  processesSuspended : G → bool;
  suspendProcesses : G → G;
  resumeProcesses : G → G;
  setAutoScalingMaxSize : Z → G → G;
  attachSpotInstance : string → bool → G → option error * G;
  terminateInstanceInAutoScalingGroup : string → bool → bool → G → option error * G
}.

(** Modelled from the spec: what the specification says the GroupView
    operations do. [setMaxSize(n)] sets the bound and nothing else that is
    observed here; suspending and resuming switch the processes and leave the
    bounds; attaching and terminating a member leave the upper bound and the
    processes as they are (they act on the members and the desired
    capacity). *)
Record GroupViewSpec {G : Type} (gv : GroupView G) : Prop := {
  suspend_suspended : ∀ g, processesSuspended (suspendProcesses g) = true;
  suspend_MaxSize : ∀ g, MaxSize (suspendProcesses g) = MaxSize g;
  suspend_DesiredCapacity : ∀ g, DesiredCapacity (suspendProcesses g) = DesiredCapacity g;
  resume_suspended : ∀ g, processesSuspended (resumeProcesses g) = false;
  resume_MaxSize : ∀ g, MaxSize (resumeProcesses g) = MaxSize g;
  setMax_MaxSize : ∀ n g, MaxSize (setAutoScalingMaxSize n g) = n;
  setMax_suspended : ∀ n g,
    processesSuspended (setAutoScalingMaxSize n g) = processesSuspended g;
  attach_MaxSize : ∀ id w g, MaxSize (attachSpotInstance id w g).2 = MaxSize g;
  attach_suspended : ∀ id w g,
    processesSuspended (attachSpotInstance id w g).2 = processesSuspended g;
  terminate_MaxSize : ∀ id w d g,
    MaxSize (terminateInstanceInAutoScalingGroup id w d g).2 = MaxSize g;
  terminate_suspended : ∀ id w d g,
    processesSuspended (terminateInstanceInAutoScalingGroup id w d g).2
    = processesSuspended g
}.

(** The state a swap runs in: the group, the region's index of instances
    ([region.instances]) and the requests sent so far. *)
Record world (G : Type) : Type := mkWorld {
  group : G;
  instances : gmap string instance;
  calls : list call
}.
Arguments mkWorld {G}.
Arguments group {G}.
Arguments instances {G}.
Arguments calls {G}.

Section Swap.

Context {G : Type} {gv : GroupView G}.

(** [region.scanInstance]: describes the instance again and records what it
    finds in the region's index, or fails. It is defined in a file that is
    not part of these sources and is taken as it comes. *)
Variable scanInstance : string → gmap string instance → option error * gmap string instance.

(** The answer of [shouldBeReplacedWithSpot] for an instance of the index. Its
    body ([instance.go]) reads the cloud through methods that are not part of
    these sources; the swap only branches on the answer. *)
Variable shouldBeReplacedWithSpot : instance → bool.

(** The answer of the EC2 service to [TerminateInstances]. *)
Variable ec2_TerminateInstances : string → option error.

Definition send (c : call) : Eff.M (world G) unit :=
  Eff.modify (λ w, mkWorld (group w) (instances w) (calls w ++ [ c ])).

(** A method of the group: it acts on the group and is recorded. *)
Definition onGroup {A} (c : call) (f : G → A * G) : Eff.M (world G) A :=
  λ w, let '(a, g') := f (group w) in (a, mkWorld g' (instances w) (calls w ++ [ c ])).

Definition asg_suspendProcesses : Eff.M (world G) unit :=
  onGroup SuspendProcesses (λ g, (tt, suspendProcesses g)).

Definition asg_resumeProcesses : Eff.M (world G) unit :=
  onGroup ResumeProcesses (λ g, (tt, resumeProcesses g)).

Definition asg_setAutoScalingMaxSize (maxSize : Z) : Eff.M (world G) unit :=
  onGroup (SetAutoScalingMaxSize maxSize) (λ g, (tt, setAutoScalingMaxSize maxSize g)).

Definition asg_attachSpotInstance (instanceID : string) (wait : bool)
  : Eff.M (world G) (option error) :=
  onGroup (AttachSpotInstance instanceID wait) (attachSpotInstance instanceID wait).

Definition asg_terminateInstanceInAutoScalingGroup (instanceID : string)
  (wait decreaseCapacity : bool) : Eff.M (world G) (option error) :=
  onGroup (TerminateInstanceInAutoScalingGroup instanceID wait decreaseCapacity)
    (terminateInstanceInAutoScalingGroup instanceID wait decreaseCapacity).

Definition region_scanInstance (instanceID : string) : Eff.M (world G) (option error) :=
  λ w, let '(err, idx) := scanInstance instanceID (instances w) in
       (err, mkWorld (group w) idx (calls w)).

(** [terminate]. *)
Definition terminate (i : instance) : Eff.M (world G) (option error) :=
  if negb (Instance.canTerminate i)
  then Eff.ret (Some ("can't terminate " +:+ InstanceId i))
  else
    send (TerminateInstances (InstanceId i)) ;;
    Eff.ret (ec2_TerminateInstances (InstanceId i)).

(** [getSwapCandidate]. Exactly one of the two results of the Go function is
    non-nil on every path, hence the sum. *)
Definition getSwapCandidate (i : instance) : Eff.M (world G) (error + instance) :=
  match Instance.getReplacementTargetInstanceID i with
  | None => Eff.ret (inl ("couldn't find target instance for " +:+ InstanceId i))
  | Some odInstanceID =>
      err <- region_scanInstance odInstanceID ;;
      match err with
      | Some _ =>
          Eff.ret (inl ("target instance " +:+ odInstanceID +:+ " couldn't be described"))
      | None =>
          w <- Eff.get ;;
          match instances w !! odInstanceID with
          | None =>
              Eff.ret (inl ("target instance " +:+ odInstanceID +:+ " is missing"))
          | Some odInstance =>
              if negb (shouldBeReplacedWithSpot odInstance)
              then
                terminate i ;;
                Eff.ret (inl ("target instance " +:+ odInstanceID
                              +:+ " should not be replaced with spot"))
              else Eff.ret (inr odInstance)
          end
      end
  end.

(** The part of [swapWithGroupMember] after the snapshot of the capacities. *)
Definition attachAndTerminate (i odInstance : instance)
  : Eff.M (world G) (error + instance) :=
  err <- asg_attachSpotInstance (InstanceId i) true ;;
  match err with
  | Some _ =>
      terminate i ;;
      Eff.ret (inl ("couldn't attach spot instance " +:+ InstanceId i +:+ " "))
  | None =>
      err' <- asg_terminateInstanceInAutoScalingGroup (InstanceId odInstance) true true ;;
      match err' with
      | Some _ =>
          Eff.ret (inl ("couldn't terminate on-demand instance " +:+ InstanceId odInstance))
      | None => Eff.ret (inr odInstance)
      end
  end.

(** [swapWithGroupMember]. The two [defer]s are the two nested scopes. The
    fields [DesiredCapacity] and [MaxSize] of the group are read as set (the
    service reports both for every group it describes). *)
Definition swapWithGroupMember (i : instance) : Eff.M (world G) (error + instance) :=
  r <- getSwapCandidate i ;;
  match r with
  | inl err => Eff.ret (inl err)
  | inr odInstance =>
      asg_suspendProcesses ;;
      Eff.defer asg_resumeProcesses (
        w <- Eff.get ;;
        let desiredCapacity := DesiredCapacity (group w) in
        let maxSize := MaxSize (group w) in
        if desiredCapacity =? maxSize
        then
          asg_setAutoScalingMaxSize (int64_add maxSize 1) ;;
          Eff.defer (asg_setAutoScalingMaxSize maxSize) (attachAndTerminate i odInstance)
        else attachAndTerminate i odInstance)
  end.

End Swap.

(** The sizes a swap set, in order. *)
Definition maxSizesSet (cs : list call) : list Z :=
  omap (λ c, match c with SetAutoScalingMaxSize n => Some n | _ => None end) cs.

End InstanceActions.

(** ** spot_termination.go: reacting to interruption and rebalance events *)

Module SpotTermination.

(** [config.go] and [spot_termination.go]: the actions and the default. *)
Definition TerminateTerminationNotificationAction : string := "terminate".
Definition DetachTerminationNotificationAction : string := "detach".
Definition AutoTerminationNotificationAction : string := "auto".
Definition DefaultTerminationNotificationAction : string := AutoTerminationNotificationAction.

(** What the responder asks of the services, and the pause it takes
    ([time.Sleep(minutes * time.Minute * s.SleepMultiplier)]). *)
Inductive request : Type :=
| DescribeAutoScalingInstances (instanceID : string)
| DetachInstances (asgName instanceID : string) (shouldDecrementDesiredCapacity : bool)
| TerminateInstanceInAutoScalingGroup (instanceID : string)
    (shouldDecrementDesiredCapacity : bool)
| DescribeLifecycleHooks (asgName : string)
| DeleteTags (resource key : string)
| Sleep (minutes multiplier : Z)
| TerminateInstances (instanceID : string).

(** [autoscaling.LifecycleHook], the fields read. *)
Record LifecycleHook : Type := mkHook {
  LifecycleHookName : string;
  LifecycleTransition : string
}.

(** [autoscalingiface.AutoScalingAPI], the methods called: each answers with
    an output and an error, as the Go methods do. The output of
    [DescribeAutoScalingInstances] is the group name of every entry of
    [AutoScalingInstances]. *)
Record AutoScalingAPI : Type := mkAutoScalingAPI {
  as_DescribeAutoScalingInstances : string → list string * option error;
  as_DetachInstances : string → string → bool → option error;
  as_TerminateInstanceInAutoScalingGroup : string → bool → option error;
  as_DescribeLifecycleHooks : string → list LifecycleHook * option error
}.

(** [ec2iface.EC2API], the methods called. *)
Record EC2API : Type := mkEC2API {
  ec2_DeleteTags : string → string → option error;
  ec2_TerminateInstances : string → option error
}.

(** [SpotTermination]; [asSvc] is an interface value that [executeAction]
    compares with [nil]. *)
Record SpotTermination : Type := mkSpotTermination {
  asSvc : option AutoScalingAPI;
  ec2Svc : EC2API;
  SleepMultiplier : Z
}.

Definition ask (r : request) : Eff.M (list request) unit :=
  Eff.modify (λ log, log ++ [ r ]).

Section Responder.

(** The event type of a rebalance recommendation: a constant declared in a
    file that is not part of these sources. *)
Variable InstanceRebalanceRecommendationCode : string.

(** The receiver's services; the methods below run after [executeAction] has
    found [s.asSvc] to be non-nil. *)
Variable svc : AutoScalingAPI.
Variable ec2 : EC2API.
Variable sleepMultiplier : Z.

(** [deleteTagInstanceLaunchedForAsg]. *)
Definition deleteTagInstanceLaunchedForAsg (instanceID : string)
  : Eff.M (list request) (option error) :=
  ask (DeleteTags instanceID "launched-for-asg") ;;
  Eff.ret (ec2_DeleteTags ec2 instanceID "launched-for-asg").

(** [delayedTermination]. *)
Definition delayedTermination (instanceID : string) (minutes : Z)
  : Eff.M (list request) (option error) :=
  ask (Sleep minutes sleepMultiplier) ;;
  ask (TerminateInstances instanceID) ;;
  Eff.ret (ec2_TerminateInstances ec2 instanceID).

(** [detachInstance]. *)
Definition detachInstance (instanceID asgName eventType : string)
  : Eff.M (list request) (option error) :=
  ask (DetachInstances asgName instanceID false) ;;
  match as_DetachInstances svc asgName instanceID false with
  | Some detachErr => Eff.ret (Some detachErr)
  | None =>
      (if negb (String.eqb eventType InstanceRebalanceRecommendationCode)
       then
         deleteTagInstanceLaunchedForAsg instanceID ;;
         delayedTermination instanceID 14 ;;
         Eff.ret tt
       else Eff.ret tt) ;;
      Eff.ret None
  end.

(** [terminateInstance]. *)
Definition terminateInstance (instanceID asgName : string)
  : Eff.M (list request) (option error) :=
  ask (TerminateInstanceInAutoScalingGroup instanceID false) ;;
  Eff.ret (as_TerminateInstanceInAutoScalingGroup svc instanceID false).

(** [getAsgName]. *)
Definition getAsgName (instanceID : string) : Eff.M (list request) (string * option error) :=
  ask (DescribeAutoScalingInstances instanceID) ;;
  let '(groups, err) := as_DescribeAutoScalingInstances svc instanceID in
  match err with
  | Some e => Eff.ret ("", Some e)
  | None =>
      match groups with
      | [] => Eff.ret ("", None)
      | groupName :: _ => Eff.ret (groupName, None)
      end
  end.

(** [asgHasTerminationLifecycleHook]: the loop stops at the first hook with
    the transition. *)
Definition asgHasTerminationLifecycleHook (autoScalingGroupName : string)
  : Eff.M (list request) bool :=
  ask (DescribeLifecycleHooks autoScalingGroupName) ;;
  let '(hooks, err) := as_DescribeLifecycleHooks svc autoScalingGroupName in
  match err with
  | Some _ => Eff.ret false
  | None =>
      Eff.ret (existsb (λ lfh, String.eqb (LifecycleTransition lfh)
                                 "autoscaling:EC2_INSTANCE_TERMINATING") hooks)
  end.

(** The [switch] of [executeAction]. *)
Definition chooseAction (instanceID asgName terminationNotificationAction eventType : string)
  : Eff.M (list request) unit :=
  if String.eqb terminationNotificationAction "detach" then
    detachInstance instanceID asgName eventType ;; Eff.ret tt
  else if String.eqb terminationNotificationAction "terminate" then
    terminateInstance instanceID asgName ;; Eff.ret tt
  else
    hasHook <- asgHasTerminationLifecycleHook asgName ;;
    if hasHook
    then terminateInstance instanceID asgName ;; Eff.ret tt
    else detachInstance instanceID asgName eventType ;; Eff.ret tt.

End Responder.

(** [executeAction]. *)
Definition executeAction (InstanceRebalanceRecommendationCode : string) (s : SpotTermination)
  (instanceID terminationNotificationAction eventType : string)
  : Eff.M (list request) (option error) :=
  match asSvc s with
  | None =>
      Eff.ret (Some "AutoScaling service not defined. Please use NewSpotTermination()")
  | Some svc =>
      r <- getAsgName svc instanceID ;;
      match r with
      | (_, Some err) => Eff.ret (Some err)
      | (asgName, None) =>
          if String.eqb asgName "" then Eff.ret None
          else
            chooseAction InstanceRebalanceRecommendationCode svc (ec2Svc s)
              (SleepMultiplier s) instanceID asgName terminationNotificationAction
              eventType ;;
            Eff.ret None
      end
  end.

(** The cloud behind the service, for stating what a group has: the hooks
    configured on each group, the group of each instance, and the requests
    that fail. *)
Record cloud : Type := mkCloud {
  hooksOf : string → list LifecycleHook;
  groupOf : string → option string;
  failure : request → option error
}.

(** The service as a client of that cloud sees it: a request either fails or
    is answered from the cloud. *)
Definition serviceOf (c : cloud) : AutoScalingAPI :=
  mkAutoScalingAPI
    (λ instanceID,
       match failure c (DescribeAutoScalingInstances instanceID) with
       | Some err => ([], Some err)
       | None => (match groupOf c instanceID with Some g => [ g ] | None => [] end, None)
       end)
    (λ asgName instanceID decrement, failure c (DetachInstances asgName instanceID decrement))
    (λ instanceID decrement,
       failure c (TerminateInstanceInAutoScalingGroup instanceID decrement))
    (λ asgName,
       match failure c (DescribeLifecycleHooks asgName) with
       | Some err => ([], Some err)
       | None => (hooksOf c asgName, None)
       end).

Definition ec2Of (c : cloud) : EC2API :=
  mkEC2API (λ resource key, failure c (DeleteTags resource key))
    (λ instanceID, failure c (TerminateInstances instanceID)).

(** A group has a termination hook when one of its hooks has the transition. *)
Definition hasTerminationHook (hooks : list LifecycleHook) : bool :=
  existsb (λ lfh, String.eqb (LifecycleTransition lfh)
                    "autoscaling:EC2_INSTANCE_TERMINATING") hooks.

(** A request that leaves the desired capacity of the group as it is: one
    that takes an instance out of a group does so with
    [ShouldDecrementDesiredCapacity] false. *)
Definition keepsDesiredCapacity (r : request) : Prop :=
  match r with
  | DetachInstances _ _ shouldDecrementDesiredCapacity =>
      shouldDecrementDesiredCapacity = false
  | TerminateInstanceInAutoScalingGroup _ shouldDecrementDesiredCapacity =>
      shouldDecrementDesiredCapacity = false
  | _ => True
  end.

End SpotTermination.

(** ** Launching the spot instance: the structures of the services

    The structures of the EC2 and AutoScaling interfaces that the two launch
    paths read and write, the synthesis of the temporary launch template
    ([instance_conversion.go], [instance_actions.go]) and the legacy launch
    ([instance.go]): a module for each, named after the Go type, with the
    fields the code reads or sets. A response type and
    the request type it is converted to have the same fields and share a
    module. A slice is a list: a [nil] slice and an empty one are both [[]],
    as the code only ranges over slices, appends to them and takes their
    length, except for the block device mappings, whose conversion tells
    [nil] apart. The elements of a slice inside a structure of the service
    are the structures themselves. *)

Module Launch.

(** [ec2.GroupIdentifier]. *)
Module GroupIdentifier.
Record t : Type := mk { GroupId : option string; GroupName : option string }.
End GroupIdentifier.

(** [ec2.Placement] and [ec2.LaunchTemplatePlacementRequest]. *)
Module Placement.
Record t : Type := mk {
  Affinity : option string;
  AvailabilityZone : option string;
  GroupName : option string;
  HostId : option string;
  HostResourceGroupArn : option string;
  PartitionNumber : option Z;
  SpreadDomain : option string;
  Tenancy : option string
}.
End Placement.

(** [ec2.LaunchTemplateIamInstanceProfileSpecification] and its request. *)
Module LaunchTemplateIamInstanceProfileSpecification.
Record t : Type := mk { Arn : option string; Name : option string }.
End LaunchTemplateIamInstanceProfileSpecification.

(** [ec2.LaunchTemplatesMonitoring] and its request. *)
Module LaunchTemplatesMonitoring.
Record t : Type := mk { Enabled : option bool }.
End LaunchTemplatesMonitoring.

(** [autoscaling.InstanceMonitoring]. *)
Module InstanceMonitoring.
Record t : Type := mk { Enabled : option bool }.
End InstanceMonitoring.

(** [ec2.CapacityReservationTargetResponse] and [ec2.CapacityReservationTarget]. *)
Module CapacityReservationTarget.
Record t : Type := mk {
  CapacityReservationId : option string;
  CapacityReservationResourceGroupArn : option string
}.
End CapacityReservationTarget.

(** [ec2.LaunchTemplateCapacityReservationSpecificationResponse] and its
    request. *)
Module LaunchTemplateCapacityReservationSpecification.
Record t : Type := mk {
  CapacityReservationPreference : option string;
  CapacityReservationTarget : option CapacityReservationTarget.t
}.
End LaunchTemplateCapacityReservationSpecification.

(** [ec2.LaunchTemplateCpuOptions] and its request. *)
Module LaunchTemplateCpuOptions.
Record t : Type := mk { CoreCount : option Z; ThreadsPerCore : option Z }.
End LaunchTemplateCpuOptions.

(** [ec2.CreditSpecification] and its request. *)
Module CreditSpecification.
Record t : Type := mk { CpuCredits : option string }.
End CreditSpecification.

(** [ec2.LaunchTemplateInstanceNetworkInterfaceSpecification], the fields
    read. *)
Module LaunchTemplateInstanceNetworkInterfaceSpecification.
Record t : Type := mk {
  AssociatePublicIpAddress : option bool;
  DeviceIndex : option Z
}.
End LaunchTemplateInstanceNetworkInterfaceSpecification.

(** [ec2.LaunchTemplateInstanceNetworkInterfaceSpecificationRequest], the
    fields set. *)
Module LaunchTemplateInstanceNetworkInterfaceSpecificationRequest.
Record t : Type := mk {
  AssociatePublicIpAddress : option bool;
  SubnetId : option string;
  DeviceIndex : option Z;
  Groups : list (option string)
}.
End LaunchTemplateInstanceNetworkInterfaceSpecificationRequest.

(** [ec2.LaunchTemplateSpotMarketOptionsRequest] and
    [ec2.LaunchTemplateInstanceMarketOptionsRequest], the fields set. *)
Module LaunchTemplateSpotMarketOptionsRequest.
Record t : Type := mk { MaxPrice : option string }.
End LaunchTemplateSpotMarketOptionsRequest.

Module LaunchTemplateInstanceMarketOptionsRequest.
Record t : Type := mk {
  MarketType : option string;
  SpotOptions : option LaunchTemplateSpotMarketOptionsRequest.t
}.
End LaunchTemplateInstanceMarketOptionsRequest.

(** [autoscaling.LaunchConfiguration], which the package's
    [launchConfiguration] embeds: the fields read. *)
Module LaunchConfiguration.
Record t : Type := mk {
  KeyName : option string;
  IamInstanceProfile : option string;
  ImageId : option string;
  UserData : option string;
  BlockDeviceMappings : list (BlockDeviceMapping bool);
  InstanceMonitoring : option InstanceMonitoring.t;
  AssociatePublicIpAddress : option bool
}.
End LaunchConfiguration.

(** [ec2.ResponseLaunchTemplateData], the fields read ([NetworkInterfaces] by
    [launchTemplateHasNetworkInterfaces]). *)
Module ResponseLaunchTemplateData.
Record t : Type := mk {
  BlockDeviceMappings : list (BlockDeviceMapping string);
  CapacityReservationSpecification :
    option LaunchTemplateCapacityReservationSpecification.t;
  CpuOptions : option LaunchTemplateCpuOptions.t;
  CreditSpecification : option CreditSpecification.t;
  DisableApiTermination : option bool;
  EbsOptimized : option bool;
  IamInstanceProfile : option LaunchTemplateIamInstanceProfileSpecification.t;
  ImageId : option string;
  InstanceInitiatedShutdownBehavior : option string;
  KeyName : option string;
  Monitoring : option LaunchTemplatesMonitoring.t;
  NetworkInterfaces : list LaunchTemplateInstanceNetworkInterfaceSpecification.t;
  SecurityGroupIds : list (option string);
  SecurityGroups : list (option string);
  TagSpecifications : list InstanceConversion.LaunchTemplateTagSpecificationRequest;
  UserData : option string
}.
End ResponseLaunchTemplateData.

(** [ec2.RequestLaunchTemplateData], the fields set. *)
Module RequestLaunchTemplateData.
Record t : Type := mk {
  BlockDeviceMappings : option (list LaunchTemplateBlockDeviceMappingRequest);
  CapacityReservationSpecification :
    option LaunchTemplateCapacityReservationSpecification.t;
  CpuOptions : option LaunchTemplateCpuOptions.t;
  CreditSpecification : option CreditSpecification.t;
  DisableApiTermination : option bool;
  EbsOptimized : option bool;
  IamInstanceProfile : option LaunchTemplateIamInstanceProfileSpecification.t;
  ImageId : option string;
  InstanceInitiatedShutdownBehavior : option string;
  InstanceMarketOptions : option LaunchTemplateInstanceMarketOptionsRequest.t;
  KeyName : option string;
  Monitoring : option LaunchTemplatesMonitoring.t;
  NetworkInterfaces : list LaunchTemplateInstanceNetworkInterfaceSpecificationRequest.t;
  Placement : option Placement.t;
  SecurityGroupIds : list (option string);
  SecurityGroups : list (option string);
  TagSpecifications : list InstanceConversion.LaunchTemplateTagSpecificationRequest;
  UserData : option string
}.

(** [ec2.RequestLaunchTemplateData{}]. *)
Definition zero : t :=
  mk None None None None None None None None None None None None [] None [] [] [] None.

(** The assignment [retval.F = v], for each field [F]. *)

Definition set_BlockDeviceMappings v (r : t) : t :=
  mk v (CapacityReservationSpecification r) (CpuOptions r) (CreditSpecification r)
    (DisableApiTermination r) (EbsOptimized r) (IamInstanceProfile r) (ImageId r)
    (InstanceInitiatedShutdownBehavior r) (InstanceMarketOptions r) (KeyName r)
    (Monitoring r) (NetworkInterfaces r) (Placement r) (SecurityGroupIds r)
    (SecurityGroups r) (TagSpecifications r) (UserData r).

Definition set_CapacityReservationSpecification v (r : t) : t :=
  mk (BlockDeviceMappings r) v (CpuOptions r) (CreditSpecification r)
    (DisableApiTermination r) (EbsOptimized r) (IamInstanceProfile r) (ImageId r)
    (InstanceInitiatedShutdownBehavior r) (InstanceMarketOptions r) (KeyName r)
    (Monitoring r) (NetworkInterfaces r) (Placement r) (SecurityGroupIds r)
    (SecurityGroups r) (TagSpecifications r) (UserData r).

Definition set_CpuOptions v (r : t) : t :=
  mk (BlockDeviceMappings r) (CapacityReservationSpecification r) v
    (CreditSpecification r) (DisableApiTermination r) (EbsOptimized r)
    (IamInstanceProfile r) (ImageId r) (InstanceInitiatedShutdownBehavior r)
    (InstanceMarketOptions r) (KeyName r) (Monitoring r) (NetworkInterfaces r)
    (Placement r) (SecurityGroupIds r) (SecurityGroups r) (TagSpecifications r)
    (UserData r).

Definition set_CreditSpecification v (r : t) : t :=
  mk (BlockDeviceMappings r) (CapacityReservationSpecification r) (CpuOptions r) v
    (DisableApiTermination r) (EbsOptimized r) (IamInstanceProfile r) (ImageId r)
    (InstanceInitiatedShutdownBehavior r) (InstanceMarketOptions r) (KeyName r)
    (Monitoring r) (NetworkInterfaces r) (Placement r) (SecurityGroupIds r)
    (SecurityGroups r) (TagSpecifications r) (UserData r).

Definition set_DisableApiTermination v (r : t) : t :=
  mk (BlockDeviceMappings r) (CapacityReservationSpecification r) (CpuOptions r)
    (CreditSpecification r) v (EbsOptimized r) (IamInstanceProfile r) (ImageId r)
    (InstanceInitiatedShutdownBehavior r) (InstanceMarketOptions r) (KeyName r)
    (Monitoring r) (NetworkInterfaces r) (Placement r) (SecurityGroupIds r)
    (SecurityGroups r) (TagSpecifications r) (UserData r).

Definition set_EbsOptimized v (r : t) : t :=
  mk (BlockDeviceMappings r) (CapacityReservationSpecification r) (CpuOptions r)
    (CreditSpecification r) (DisableApiTermination r) v (IamInstanceProfile r)
    (ImageId r) (InstanceInitiatedShutdownBehavior r) (InstanceMarketOptions r)
    (KeyName r) (Monitoring r) (NetworkInterfaces r) (Placement r) (SecurityGroupIds r)
    (SecurityGroups r) (TagSpecifications r) (UserData r).

Definition set_IamInstanceProfile v (r : t) : t :=
  mk (BlockDeviceMappings r) (CapacityReservationSpecification r) (CpuOptions r)
    (CreditSpecification r) (DisableApiTermination r) (EbsOptimized r) v (ImageId r)
    (InstanceInitiatedShutdownBehavior r) (InstanceMarketOptions r) (KeyName r)
    (Monitoring r) (NetworkInterfaces r) (Placement r) (SecurityGroupIds r)
    (SecurityGroups r) (TagSpecifications r) (UserData r).

Definition set_ImageId v (r : t) : t :=
  mk (BlockDeviceMappings r) (CapacityReservationSpecification r) (CpuOptions r)
    (CreditSpecification r) (DisableApiTermination r) (EbsOptimized r)
    (IamInstanceProfile r) v (InstanceInitiatedShutdownBehavior r)
    (InstanceMarketOptions r) (KeyName r) (Monitoring r) (NetworkInterfaces r)
    (Placement r) (SecurityGroupIds r) (SecurityGroups r) (TagSpecifications r)
    (UserData r).

Definition set_InstanceInitiatedShutdownBehavior v (r : t) : t :=
  mk (BlockDeviceMappings r) (CapacityReservationSpecification r) (CpuOptions r)
    (CreditSpecification r) (DisableApiTermination r) (EbsOptimized r)
    (IamInstanceProfile r) (ImageId r) v (InstanceMarketOptions r) (KeyName r)
    (Monitoring r) (NetworkInterfaces r) (Placement r) (SecurityGroupIds r)
    (SecurityGroups r) (TagSpecifications r) (UserData r).

Definition set_InstanceMarketOptions v (r : t) : t :=
  mk (BlockDeviceMappings r) (CapacityReservationSpecification r) (CpuOptions r)
    (CreditSpecification r) (DisableApiTermination r) (EbsOptimized r)
    (IamInstanceProfile r) (ImageId r) (InstanceInitiatedShutdownBehavior r) v
    (KeyName r) (Monitoring r) (NetworkInterfaces r) (Placement r) (SecurityGroupIds r)
    (SecurityGroups r) (TagSpecifications r) (UserData r).

Definition set_KeyName v (r : t) : t :=
  mk (BlockDeviceMappings r) (CapacityReservationSpecification r) (CpuOptions r)
    (CreditSpecification r) (DisableApiTermination r) (EbsOptimized r)
    (IamInstanceProfile r) (ImageId r) (InstanceInitiatedShutdownBehavior r)
    (InstanceMarketOptions r) v (Monitoring r) (NetworkInterfaces r) (Placement r)
    (SecurityGroupIds r) (SecurityGroups r) (TagSpecifications r) (UserData r).

Definition set_Monitoring v (r : t) : t :=
  mk (BlockDeviceMappings r) (CapacityReservationSpecification r) (CpuOptions r)
    (CreditSpecification r) (DisableApiTermination r) (EbsOptimized r)
    (IamInstanceProfile r) (ImageId r) (InstanceInitiatedShutdownBehavior r)
    (InstanceMarketOptions r) (KeyName r) v (NetworkInterfaces r) (Placement r)
    (SecurityGroupIds r) (SecurityGroups r) (TagSpecifications r) (UserData r).

Definition set_NetworkInterfaces v (r : t) : t :=
  mk (BlockDeviceMappings r) (CapacityReservationSpecification r) (CpuOptions r)
    (CreditSpecification r) (DisableApiTermination r) (EbsOptimized r)
    (IamInstanceProfile r) (ImageId r) (InstanceInitiatedShutdownBehavior r)
    (InstanceMarketOptions r) (KeyName r) (Monitoring r) v (Placement r)
    (SecurityGroupIds r) (SecurityGroups r) (TagSpecifications r) (UserData r).

Definition set_Placement v (r : t) : t :=
  mk (BlockDeviceMappings r) (CapacityReservationSpecification r) (CpuOptions r)
    (CreditSpecification r) (DisableApiTermination r) (EbsOptimized r)
    (IamInstanceProfile r) (ImageId r) (InstanceInitiatedShutdownBehavior r)
    (InstanceMarketOptions r) (KeyName r) (Monitoring r) (NetworkInterfaces r) v
    (SecurityGroupIds r) (SecurityGroups r) (TagSpecifications r) (UserData r).

Definition set_SecurityGroupIds v (r : t) : t :=
  mk (BlockDeviceMappings r) (CapacityReservationSpecification r) (CpuOptions r)
    (CreditSpecification r) (DisableApiTermination r) (EbsOptimized r)
    (IamInstanceProfile r) (ImageId r) (InstanceInitiatedShutdownBehavior r)
    (InstanceMarketOptions r) (KeyName r) (Monitoring r) (NetworkInterfaces r)
    (Placement r) v (SecurityGroups r) (TagSpecifications r) (UserData r).

Definition set_SecurityGroups v (r : t) : t :=
  mk (BlockDeviceMappings r) (CapacityReservationSpecification r) (CpuOptions r)
    (CreditSpecification r) (DisableApiTermination r) (EbsOptimized r)
    (IamInstanceProfile r) (ImageId r) (InstanceInitiatedShutdownBehavior r)
    (InstanceMarketOptions r) (KeyName r) (Monitoring r) (NetworkInterfaces r)
    (Placement r) (SecurityGroupIds r) v (TagSpecifications r) (UserData r).

Definition set_TagSpecifications v (r : t) : t :=
  mk (BlockDeviceMappings r) (CapacityReservationSpecification r) (CpuOptions r)
    (CreditSpecification r) (DisableApiTermination r) (EbsOptimized r)
    (IamInstanceProfile r) (ImageId r) (InstanceInitiatedShutdownBehavior r)
    (InstanceMarketOptions r) (KeyName r) (Monitoring r) (NetworkInterfaces r)
    (Placement r) (SecurityGroupIds r) (SecurityGroups r) v (UserData r).

Definition set_UserData v (r : t) : t :=
  mk (BlockDeviceMappings r) (CapacityReservationSpecification r) (CpuOptions r)
    (CreditSpecification r) (DisableApiTermination r) (EbsOptimized r)
    (IamInstanceProfile r) (ImageId r) (InstanceInitiatedShutdownBehavior r)
    (InstanceMarketOptions r) (KeyName r) (Monitoring r) (NetworkInterfaces r)
    (Placement r) (SecurityGroupIds r) (SecurityGroups r) (TagSpecifications r) v.

End RequestLaunchTemplateData.

(** [ec2.Image] and [ec2.LaunchTemplateVersion], the fields read. *)
Module Image.
Record t : Type := mk { BlockDeviceMappings : list (BlockDeviceMapping string) }.
End Image.

Module LaunchTemplateVersion.
Record t : Type := mk { LaunchTemplateData : option ResponseLaunchTemplateData.t }.
End LaunchTemplateVersion.

(** [ec2.FleetLaunchTemplateOverridesRequest],
    [ec2.FleetLaunchTemplateSpecificationRequest],
    [ec2.FleetLaunchTemplateConfigRequest], [ec2.SpotOptionsRequest],
    [ec2.TargetCapacitySpecificationRequest] and [ec2.CreateFleetInput], the
    fields set. *)
Module FleetLaunchTemplateOverridesRequest.
Record t : Type := mk {
  InstanceType : option string;
  SubnetId : option string;
  Priority : option float64
}.
End FleetLaunchTemplateOverridesRequest.

Module FleetLaunchTemplateSpecificationRequest.
Record t : Type := mk { LaunchTemplateName : option string; Version : option string }.
End FleetLaunchTemplateSpecificationRequest.

Module FleetLaunchTemplateConfigRequest.
Record t : Type := mk {
  LaunchTemplateSpecification : option FleetLaunchTemplateSpecificationRequest.t;
  Overrides : list FleetLaunchTemplateOverridesRequest.t
}.
End FleetLaunchTemplateConfigRequest.

Module SpotOptionsRequest.
Record t : Type := mk { AllocationStrategy : option string }.
End SpotOptionsRequest.

Module TargetCapacitySpecificationRequest.
Record t : Type := mk {
  SpotTargetCapacity : option Z;
  TotalTargetCapacity : option Z;
  DefaultTargetCapacityType : option string
}.
End TargetCapacitySpecificationRequest.

(** The field [Type] of the input takes the name [FleetType] here, [Type]
    being a word of the language. *)
Module CreateFleetInput.
Record t : Type := mk {
  LaunchTemplateConfigs : list FleetLaunchTemplateConfigRequest.t;
  SpotOptions : option SpotOptionsRequest.t;
  FleetType : option string;
  TargetCapacitySpecification : option TargetCapacitySpecificationRequest.t
}.
End CreateFleetInput.

(** [ec2.CreateFleetInstance] and [ec2.CreateFleetOutput], the fields read;
    [Errors] is only logged. *)
Module CreateFleetInstance.
Record t : Type := mk { InstanceIds : list (option string) }.
End CreateFleetInstance.

Module CreateFleetOutput.
Record t : Type := mk { Instances : list (option CreateFleetInstance.t) }.
End CreateFleetOutput.

(** [ec2.InstanceNetworkInterfaceSpecification]. *)
Module InstanceNetworkInterfaceSpecification.
Record t : Type := mk {
  AssociatePublicIpAddress : option bool;
  SubnetId : option string;
  DeviceIndex : option Z;
  Groups : list (option string)
}.
End InstanceNetworkInterfaceSpecification.

(** [ec2.IamInstanceProfileSpecification]. *)
Module IamInstanceProfileSpecification.
Record t : Type := mk { Arn : option string; Name : option string }.
End IamInstanceProfileSpecification.

(** [ec2.RunInstancesMonitoringEnabled]. *)
Module RunInstancesMonitoringEnabled.
Record t : Type := mk { Enabled : option bool }.
End RunInstancesMonitoringEnabled.

(** [ec2.SpotMarketOptions] and [ec2.InstanceMarketOptionsRequest]. *)
Module SpotMarketOptions.
Record t : Type := mk { MaxPrice : option string }.
End SpotMarketOptions.

Module InstanceMarketOptionsRequest.
Record t : Type := mk {
  MarketType : option string;
  SpotOptions : option SpotMarketOptions.t
}.
End InstanceMarketOptionsRequest.

(** [ec2.RunInstancesInput], the fields the legacy launch sets. The field
    [LaunchTemplate] is an [ec2.LaunchTemplateSpecification]; the two fields
    of it that are set are those of the specification of the group. *)
Module RunInstancesInput.
Record t : Type := mk {
  BlockDeviceMappings : list (BlockDeviceMapping string);
  EbsOptimized : option bool;
  IamInstanceProfile : option IamInstanceProfileSpecification.t;
  ImageId : option string;
  InstanceMarketOptions : option InstanceMarketOptionsRequest.t;
  InstanceType : option string;
  KeyName : option string;
  LaunchTemplate : option LaunchTemplateSpecification;
  MaxCount : option Z;
  MinCount : option Z;
  Monitoring : option RunInstancesMonitoringEnabled.t;
  NetworkInterfaces : list InstanceNetworkInterfaceSpecification.t;
  Placement : option Placement.t;
  SecurityGroupIds : list (option string);
  SubnetId : option string;
  TagSpecifications : list Instance.TagSpecification;
  UserData : option string
}.

(** The assignment [retval.F = v], for the fields [F] that are assigned after
    the literal. *)

Definition set_BlockDeviceMappings v (r : t) : t :=
  mk v (EbsOptimized r) (IamInstanceProfile r) (ImageId r) (InstanceMarketOptions r)
    (InstanceType r) (KeyName r) (LaunchTemplate r) (MaxCount r) (MinCount r)
    (Monitoring r) (NetworkInterfaces r) (Placement r) (SecurityGroupIds r) (SubnetId r)
    (TagSpecifications r) (UserData r).

Definition set_IamInstanceProfile v (r : t) : t :=
  mk (BlockDeviceMappings r) (EbsOptimized r) v (ImageId r) (InstanceMarketOptions r)
    (InstanceType r) (KeyName r) (LaunchTemplate r) (MaxCount r) (MinCount r)
    (Monitoring r) (NetworkInterfaces r) (Placement r) (SecurityGroupIds r) (SubnetId r)
    (TagSpecifications r) (UserData r).

Definition set_ImageId v (r : t) : t :=
  mk (BlockDeviceMappings r) (EbsOptimized r) (IamInstanceProfile r) v
    (InstanceMarketOptions r) (InstanceType r) (KeyName r) (LaunchTemplate r)
    (MaxCount r) (MinCount r) (Monitoring r) (NetworkInterfaces r) (Placement r)
    (SecurityGroupIds r) (SubnetId r) (TagSpecifications r) (UserData r).

Definition set_KeyName v (r : t) : t :=
  mk (BlockDeviceMappings r) (EbsOptimized r) (IamInstanceProfile r) (ImageId r)
    (InstanceMarketOptions r) (InstanceType r) v (LaunchTemplate r) (MaxCount r)
    (MinCount r) (Monitoring r) (NetworkInterfaces r) (Placement r) (SecurityGroupIds r)
    (SubnetId r) (TagSpecifications r) (UserData r).

Definition set_LaunchTemplate v (r : t) : t :=
  mk (BlockDeviceMappings r) (EbsOptimized r) (IamInstanceProfile r) (ImageId r)
    (InstanceMarketOptions r) (InstanceType r) (KeyName r) v (MaxCount r) (MinCount r)
    (Monitoring r) (NetworkInterfaces r) (Placement r) (SecurityGroupIds r) (SubnetId r)
    (TagSpecifications r) (UserData r).

Definition set_Monitoring v (r : t) : t :=
  mk (BlockDeviceMappings r) (EbsOptimized r) (IamInstanceProfile r) (ImageId r)
    (InstanceMarketOptions r) (InstanceType r) (KeyName r) (LaunchTemplate r)
    (MaxCount r) (MinCount r) v (NetworkInterfaces r) (Placement r) (SecurityGroupIds r)
    (SubnetId r) (TagSpecifications r) (UserData r).

Definition set_NetworkInterfaces v (r : t) : t :=
  mk (BlockDeviceMappings r) (EbsOptimized r) (IamInstanceProfile r) (ImageId r)
    (InstanceMarketOptions r) (InstanceType r) (KeyName r) (LaunchTemplate r)
    (MaxCount r) (MinCount r) (Monitoring r) v (Placement r) (SecurityGroupIds r)
    (SubnetId r) (TagSpecifications r) (UserData r).

Definition set_SecurityGroupIds v (r : t) : t :=
  mk (BlockDeviceMappings r) (EbsOptimized r) (IamInstanceProfile r) (ImageId r)
    (InstanceMarketOptions r) (InstanceType r) (KeyName r) (LaunchTemplate r)
    (MaxCount r) (MinCount r) (Monitoring r) (NetworkInterfaces r) (Placement r) v
    (SubnetId r) (TagSpecifications r) (UserData r).

Definition set_SubnetId v (r : t) : t :=
  mk (BlockDeviceMappings r) (EbsOptimized r) (IamInstanceProfile r) (ImageId r)
    (InstanceMarketOptions r) (InstanceType r) (KeyName r) (LaunchTemplate r)
    (MaxCount r) (MinCount r) (Monitoring r) (NetworkInterfaces r) (Placement r)
    (SecurityGroupIds r) v (TagSpecifications r) (UserData r).

Definition set_UserData v (r : t) : t :=
  mk (BlockDeviceMappings r) (EbsOptimized r) (IamInstanceProfile r) (ImageId r)
    (InstanceMarketOptions r) (InstanceType r) (KeyName r) (LaunchTemplate r)
    (MaxCount r) (MinCount r) (Monitoring r) (NetworkInterfaces r) (Placement r)
    (SecurityGroupIds r) (SubnetId r) (TagSpecifications r) v.

End RunInstancesInput.

(** [ec2.Reservation], the answer to [RunInstances], and the [ec2.Instance]s
    in it, of which the identifier and the type are read. *)
Module LaunchedInstance.
Record t : Type := mk { InstanceId : option string; InstanceType : option string }.
End LaunchedInstance.

Module Reservation.
Record t : Type := mk { Instances : list (option LaunchedInstance.t) }.
End Reservation.

(** What the synthesis reads of the instance and of its group beyond the
    fields of [instance] and [autoScalingGroup]: of the embedded
    [ec2.Instance] the security groups, the subnet, the image and the
    placement; of the group its launch configuration and the two settings
    [config.PatchBeanstalkUserdata] and [config.SpotAllocationStrategy]. *)
Module Source.
Record t : Type := mk {
  SecurityGroups : list GroupIdentifier.t;
  SubnetId : option string;
  ImageId : option string;
  Placement : option Placement.t;
  launchConfiguration : option LaunchConfiguration.t;
  PatchBeanstalkUserdata : bool;
  SpotAllocationStrategy : string
}.
End Source.

(** The same for the legacy launch of [instance.go]: there
    [config.PatchBeanstalkUserdata] is a string, and the price of the
    instance is set from [region.conf.OnDemandPriceMultiplier] and
    [asg.config.OnDemandPriceMultiplier]. *)
Module LegacySource.
Record t : Type := mk {
  SecurityGroups : list GroupIdentifier.t;
  SubnetId : option string;
  Placement : option Placement.t;
  launchConfiguration : option LaunchConfiguration.t;
  PatchBeanstalkUserdata : string;
  regionOnDemandPriceMultiplier : float64;
  groupOnDemandPriceMultiplier : float64
}.
End LegacySource.

(** The requests sent to EC2, in the order of sending. *)
Inductive request : Type :=
| DescribeImages (ImageIds : list (option string))
| DescribeLaunchTemplateVersions (LaunchTemplateId : option string)
    (Versions : list (option string))
| CreateLaunchTemplate (LaunchTemplateName : option string)
    (LaunchTemplateData : RequestLaunchTemplateData.t)
| CreateFleet (input : CreateFleetInput.t)
| DeleteLaunchTemplate (LaunchTemplateName : option string)
| RunInstances (input : RunInstancesInput.t).

(** [ec2iface.EC2API], the methods called, each with its output and its
    error. A describe call without an error has an output, which is read
    only then and is given by the list of pointers in it; the output of
    [CreateFleet] and of [RunInstances] may be [nil]. *)
Record EC2API : Type := mkEC2API {
  ec2_DescribeImages : list (option string) → list (option Image.t) * option error;
  ec2_DescribeLaunchTemplateVersions :
    option string → list (option string) →
    list (option LaunchTemplateVersion.t) * option error;
  ec2_CreateLaunchTemplate : option string → RequestLaunchTemplateData.t → option error;
  ec2_CreateFleet : CreateFleetInput.t → option CreateFleetOutput.t * option error;
  ec2_DeleteLaunchTemplate : option string → option error;
  ec2_RunInstances : RunInstancesInput.t → option Reservation.t * option error
}.

(** A method that sends requests and may panic: from the log before it to
    its outcome and the log after it. A panic keeps the requests already
    sent. *)
Definition M (A : Type) : Type := Eff.M (list request) (outcome A).

Definition ret {A} (a : A) : M A := Eff.ret (Returns a).

Definition bind {A B} (m : M A) (k : A → M B) : M B :=
  λ log, let '(r, log') := m log in
         match r with
         | Returns a => k a log'
         | Panics msg => (Panics msg, log')
         end.

(** A computation without requests. *)
Definition lift {A} (o : outcome A) : M A := Eff.ret o.

Definition ask (r : request) : M unit := λ log, (Returns tt, log ++ [ r ]).

(** [defer d; rest]: [d] runs when [rest] has returned or panicked. *)
Definition defer {A} (d : M unit) (rest : M A) : M A :=
  λ log, let '(r, log') := rest log in (r, (d log').2).

End Launch.

Notation "x <-? m ;; k" := (Launch.bind m (λ x, k))
  (at level 100, m at next level, right associativity, only parsing).
Notation "m ;;? k" := (Launch.bind m (λ _, k))
  (at level 100, right associativity, only parsing).

(** ** instance_conversion.go, instance_actions.go: the temporary launch template *)

Module SpotLaunch.

(** [float64(p)] for an index [p] of a slice, which is not negative. *)
Definition float64_of_int (p : Z) : float64 := PrimFloat.of_uint63 (Uint63.of_Z p).

Section Synthesis.

(** [launchTemplateHasNetworkInterfaces(ltData)] and
    [getPatchedUserDataForBeanstalk] are defined in files that are not part
    of these sources; they are taken as they come. *)
Variable launchTemplateHasNetworkInterfaces :
  Launch.ResponseLaunchTemplateData.t →
  bool * list Launch.LaunchTemplateInstanceNetworkInterfaceSpecification.t.
Variable getPatchedUserDataForBeanstalk : option string → option string.

(** [strconv.FormatFloat(f, 'g', 10, 64)]. *)
Variable strconv_FormatFloat : float64 → string.

(** The new [getCompatibleSpotInstanceTypesListSortedAscendingByPrice], which
    returns the names of the types, applied to the allowed and disallowed
    types of the group: it and the two methods of the group are defined in
    files that are not part of these sources, and may panic. *)
Variable compatibleSpotInstanceTypes :
  instance → outcome (list (option string) * option error).

(** The answers of EC2. *)
Variable ec2 : Launch.EC2API.

(** [convertSecurityGroups]. *)
Definition convertSecurityGroups (src : Launch.Source.t) : list (option string) :=
  map Launch.GroupIdentifier.GroupId (Launch.Source.SecurityGroups src).

(** [getlaunchTemplate]; the line logged on an error dereferences [id] and
    [ver]. *)
Definition getlaunchTemplate (id ver : option string)
  : Launch.M (option Launch.ResponseLaunchTemplateData.t * option error) :=
  Launch.ask (Launch.DescribeLaunchTemplateVersions id [ ver ]) ;;?
  let '(versions, err) := Launch.ec2_DescribeLaunchTemplateVersions ec2 id [ ver ] in
  match err with
  | Some e =>
      Launch.lift (deref id) ;;?
      Launch.lift (deref ver) ;;?
      Launch.ret (None, Some e)
  | None =>
      match versions with
      | [ version ] =>
          version <-? Launch.lift (deref version) ;;
          Launch.ret (Launch.LaunchTemplateVersion.LaunchTemplateData version, None)
      | _ => Launch.ret (None, Some "missing launch template version information")
      end
  end.

(** [processLaunchTemplate]: the data after the method, and its error. *)
Definition processLaunchTemplate (i : instance) (src : Launch.Source.t)
  (retval : Launch.RequestLaunchTemplateData.t)
  : Launch.M (Launch.RequestLaunchTemplateData.t * option error) :=
  lt <-? Launch.lift (deref (LaunchTemplate (asg i))) ;;
  let ver := Version lt in
  let id := LaunchTemplateId lt in
  r <-? getlaunchTemplate id ver ;;
  match r.2 with
  | Some err => Launch.ret (retval, Some err)
  | None =>
      ltData <-? Launch.lift (deref r.1) ;;
      BDMs <-? Launch.lift
                 (InstanceConversion.convertLaunchTemplateBlockDeviceMappings (asg i)
                    (Launch.ResponseLaunchTemplateData.BlockDeviceMappings ltData)) ;;
      let retval := Launch.RequestLaunchTemplateData.set_BlockDeviceMappings BDMs retval in
      let retval :=
        match Launch.ResponseLaunchTemplateData.CapacityReservationSpecification ltData with
        | Some crs =>
            Launch.RequestLaunchTemplateData.set_CapacityReservationSpecification
              (Some (Launch.LaunchTemplateCapacityReservationSpecification.mk
                       (Launch.LaunchTemplateCapacityReservationSpecification.CapacityReservationPreference crs)
                       (Launch.LaunchTemplateCapacityReservationSpecification.CapacityReservationTarget crs)))
              retval
        | None => retval
        end in
      let retval :=
        Launch.RequestLaunchTemplateData.set_CpuOptions
          (Launch.ResponseLaunchTemplateData.CpuOptions ltData) retval in
      let retval :=
        Launch.RequestLaunchTemplateData.set_CreditSpecification
          (Launch.ResponseLaunchTemplateData.CreditSpecification ltData) retval in
      let retval :=
        Launch.RequestLaunchTemplateData.set_DisableApiTermination
          (Launch.ResponseLaunchTemplateData.DisableApiTermination ltData) retval in
      let retval :=
        Launch.RequestLaunchTemplateData.set_EbsOptimized
          (Launch.ResponseLaunchTemplateData.EbsOptimized ltData) retval in
      let retval :=
        Launch.RequestLaunchTemplateData.set_IamInstanceProfile
          (Launch.ResponseLaunchTemplateData.IamInstanceProfile ltData) retval in
      let retval :=
        Launch.RequestLaunchTemplateData.set_ImageId
          (Launch.ResponseLaunchTemplateData.ImageId ltData) retval in
      let retval :=
        Launch.RequestLaunchTemplateData.set_InstanceInitiatedShutdownBehavior
          (Launch.ResponseLaunchTemplateData.InstanceInitiatedShutdownBehavior ltData)
          retval in
      let retval :=
        Launch.RequestLaunchTemplateData.set_KeyName
          (Launch.ResponseLaunchTemplateData.KeyName ltData) retval in
      let retval :=
        Launch.RequestLaunchTemplateData.set_Monitoring
          (Launch.ResponseLaunchTemplateData.Monitoring ltData) retval in
      let '(having, nis) := launchTemplateHasNetworkInterfaces ltData in
      let retval :=
        if having then
          let retval :=
            Launch.RequestLaunchTemplateData.set_NetworkInterfaces
              (Launch.RequestLaunchTemplateData.NetworkInterfaces retval
               ++ map (λ ni,
                    Launch.LaunchTemplateInstanceNetworkInterfaceSpecificationRequest.mk
                      (Launch.LaunchTemplateInstanceNetworkInterfaceSpecification.AssociatePublicIpAddress ni)
                      (Launch.Source.SubnetId src)
                      (Launch.LaunchTemplateInstanceNetworkInterfaceSpecification.DeviceIndex ni)
                      (convertSecurityGroups src)) nis)
              retval in
          let retval := Launch.RequestLaunchTemplateData.set_SecurityGroupIds [] retval in
          Launch.RequestLaunchTemplateData.set_SecurityGroups [] retval
        else
          let retval := Launch.RequestLaunchTemplateData.set_NetworkInterfaces [] retval in
          let retval :=
            Launch.RequestLaunchTemplateData.set_SecurityGroupIds
              (Launch.RequestLaunchTemplateData.SecurityGroupIds retval
               ++ Launch.ResponseLaunchTemplateData.SecurityGroupIds ltData) retval in
          Launch.RequestLaunchTemplateData.set_SecurityGroups
            (Launch.RequestLaunchTemplateData.SecurityGroups retval
             ++ Launch.ResponseLaunchTemplateData.SecurityGroups ltData) retval in
      let retval :=
        if Launch.Source.PatchBeanstalkUserdata src
        then Launch.RequestLaunchTemplateData.set_UserData
               (getPatchedUserDataForBeanstalk
                  (Launch.ResponseLaunchTemplateData.UserData ltData)) retval
        else Launch.RequestLaunchTemplateData.set_UserData
               (Launch.ResponseLaunchTemplateData.UserData ltData) retval in
      let retval :=
        Launch.RequestLaunchTemplateData.set_TagSpecifications
          (map (λ ts, InstanceConversion.mkTagSpec (InstanceConversion.ResourceType ts)
                        (InstanceConversion.specTags ts))
             (Launch.ResponseLaunchTemplateData.TagSpecifications ltData)) retval in
      Launch.ret (retval, None)
  end.

(** [processLaunchConfiguration], for the launch configuration [lc] of the
    group. *)
Definition processLaunchConfiguration (i : instance) (src : Launch.Source.t)
  (lc : Launch.LaunchConfiguration.t) (retval : Launch.RequestLaunchTemplateData.t)
  : outcome Launch.RequestLaunchTemplateData.t :=
  let retval :=
    match Launch.LaunchConfiguration.KeyName lc with
    | Some keyName =>
        if negb (String.eqb keyName "")
        then Launch.RequestLaunchTemplateData.set_KeyName (Some keyName) retval
        else retval
    | None => retval
    end in
  let retval :=
    match Launch.LaunchConfiguration.IamInstanceProfile lc with
    | Some profile =>
        if strings_HasPrefix profile "arn:aws:iam:"
        then Launch.RequestLaunchTemplateData.set_IamInstanceProfile
               (Some (Launch.LaunchTemplateIamInstanceProfileSpecification.mk
                        (Some profile) None)) retval
        else Launch.RequestLaunchTemplateData.set_IamInstanceProfile
               (Some (Launch.LaunchTemplateIamInstanceProfileSpecification.mk
                        None (Some profile))) retval
    | None => retval
    end in
  let retval :=
    Launch.RequestLaunchTemplateData.set_ImageId (Launch.LaunchConfiguration.ImageId lc)
      retval in
  let retval :=
    if Launch.Source.PatchBeanstalkUserdata src
    then Launch.RequestLaunchTemplateData.set_UserData
           (getPatchedUserDataForBeanstalk (Launch.LaunchConfiguration.UserData lc)) retval
    else Launch.RequestLaunchTemplateData.set_UserData
           (Launch.LaunchConfiguration.UserData lc) retval in
  bind (InstanceConversion.convertLaunchConfigurationBlockDeviceMappings (asg i)
          (Launch.LaunchConfiguration.BlockDeviceMappings lc)) (λ BDMs,
    let retval :=
      if (0 <? Z.of_nat (length (default [] BDMs)))
      then Launch.RequestLaunchTemplateData.set_BlockDeviceMappings BDMs retval
      else retval in
    let retval :=
      match Launch.LaunchConfiguration.InstanceMonitoring lc with
      | Some monitoring =>
          Launch.RequestLaunchTemplateData.set_Monitoring
            (Some (Launch.LaunchTemplatesMonitoring.mk
                     (Launch.InstanceMonitoring.Enabled monitoring))) retval
      | None => retval
      end in
    let retval :=
      if bool_decide (Launch.LaunchConfiguration.AssociatePublicIpAddress lc ≠ None)
         || bool_decide (Launch.Source.SubnetId src ≠ None)
      then
        let retval :=
          Launch.RequestLaunchTemplateData.set_NetworkInterfaces
            [ Launch.LaunchTemplateInstanceNetworkInterfaceSpecificationRequest.mk
                (Launch.LaunchConfiguration.AssociatePublicIpAddress lc)
                (Launch.Source.SubnetId src) (Some 0) (convertSecurityGroups src) ]
            retval in
        Launch.RequestLaunchTemplateData.set_SecurityGroupIds [] retval
      else retval in
    Returns retval).

(** [processImageBlockDevices]. *)
Definition processImageBlockDevices (i : instance) (src : Launch.Source.t)
  (rii : Launch.RequestLaunchTemplateData.t) : Launch.M Launch.RequestLaunchTemplateData.t :=
  Launch.ask (Launch.DescribeImages [ Launch.Source.ImageId src ]) ;;?
  let '(images, err) := Launch.ec2_DescribeImages ec2 [ Launch.Source.ImageId src ] in
  match err with
  | Some _ => Launch.ret rii
  | None =>
      match images with
      | [] => Launch.ret rii
      | image :: _ =>
          image <-? Launch.lift (deref image) ;;
          BDMs <-? Launch.lift
                     (InstanceConversion.convertImageBlockDeviceMappings (asg i)
                        (Launch.Image.BlockDeviceMappings image)) ;;
          Launch.ret (Launch.RequestLaunchTemplateData.set_BlockDeviceMappings BDMs rii)
      end
  end.

(** The last loop of [createLaunchTemplateData]: the tag specifications of
    the data that are not for the resource type [instance] are appended to
    the generated ones. *)
Fixpoint appendOtherResourceTypes
  (specs generated : list InstanceConversion.LaunchTemplateTagSpecificationRequest)
  : outcome (list InstanceConversion.LaunchTemplateTagSpecificationRequest) :=
  match specs with
  | [] => Returns generated
  | ts :: rest =>
      bind (deref (InstanceConversion.ResourceType ts)) (λ resourceType,
        if negb (String.eqb resourceType "instance")
        then appendOtherResourceTypes rest (generated ++ [ ts ])
        else appendOtherResourceTypes rest generated)
  end.

(** [createLaunchTemplateData]. *)
Definition createLaunchTemplateData (i : instance) (src : Launch.Source.t)
  : Launch.M (option Launch.RequestLaunchTemplateData.t * option error) :=
  placement <-? Launch.lift (deref (Launch.Source.Placement src)) ;;
  let ltData := Launch.RequestLaunchTemplateData.zero in
  let ltData :=
    Launch.RequestLaunchTemplateData.set_SecurityGroupIds (convertSecurityGroups src) ltData in
  ltData <-? processImageBlockDevices i src ltData ;;
  r <-? match LaunchTemplate (asg i) with
        | Some _ => processLaunchTemplate i src ltData
        | None => Launch.ret (ltData, None)
        end ;;
  match r.2 with
  | Some err => Launch.ret (None, Some err)
  | None =>
      ltData <-? Launch.lift
                   match Launch.Source.launchConfiguration src with
                   | Some lc => processLaunchConfiguration i src lc r.1
                   | None => Returns r.1
                   end ;;
      let ltData := Launch.RequestLaunchTemplateData.set_EbsOptimized (EbsOptimized i) ltData in
      let ltData :=
        Launch.RequestLaunchTemplateData.set_InstanceMarketOptions
          (Some (Launch.LaunchTemplateInstanceMarketOptionsRequest.mk (Some "spot")
                   (Some (Launch.LaunchTemplateSpotMarketOptionsRequest.mk
                            (Some (strconv_FormatFloat (price i))))))) ltData in
      let ltData := Launch.RequestLaunchTemplateData.set_Placement (Some placement) ltData in
      generatedTagSpecifications <-?
        Launch.lift
          (appendOtherResourceTypes
             (Launch.RequestLaunchTemplateData.TagSpecifications ltData)
             (InstanceConversion.generateTagsList i)) ;;
      Launch.ret
        (Some (Launch.RequestLaunchTemplateData.set_TagSpecifications
                 generatedTagSpecifications ltData), None)
  end.

(** [createFleetLaunchTemplate]. *)
Definition createFleetLaunchTemplate (i : instance)
  (ltData : Launch.RequestLaunchTemplateData.t) : Launch.M (option string * option error) :=
  let ltName := "AutoSpotting-Temporary-LaunchTemplate-for-" +:+ InstanceId i in
  Launch.ask (Launch.CreateLaunchTemplate (Some ltName) ltData) ;;?
  match Launch.ec2_CreateLaunchTemplate ec2 (Some ltName) ltData with
  | Some err =>
      if negb (strings_Contains err "AlreadyExistsException")
      then Launch.ret (None, Some err)
      else Launch.ret (Some ltName, None)
  | None => Launch.ret (Some ltName, None)
  end.

(** The loop of [createFleetInput]: [p] is the index of the type at hand. *)
Fixpoint overridesFrom (src : Launch.Source.t) (p : Z) (instanceTypes : list (option string))
  (overrides : list Launch.FleetLaunchTemplateOverridesRequest.t)
  : list Launch.FleetLaunchTemplateOverridesRequest.t :=
  match instanceTypes with
  | [] => overrides
  | inst :: rest =>
      let override :=
        Launch.FleetLaunchTemplateOverridesRequest.mk inst (Launch.Source.SubnetId src)
          (if String.eqb (Launch.Source.SpotAllocationStrategy src)
                "capacity-optimized-prioritized"
           then Some (float64_of_int p) else None) in
      overridesFrom src (p + 1) rest (overrides ++ [ override ])
  end.

(** [createFleetInput]. *)
Definition createFleetInput (src : Launch.Source.t) (ltName : option string)
  (instanceTypes : list (option string)) : Launch.CreateFleetInput.t :=
  let overrides := overridesFrom src 0 instanceTypes [] in
  Launch.CreateFleetInput.mk
    [ Launch.FleetLaunchTemplateConfigRequest.mk
        (Some (Launch.FleetLaunchTemplateSpecificationRequest.mk ltName (Some "$Latest")))
        overrides ]
    (Some (Launch.SpotOptionsRequest.mk (Some (Launch.Source.SpotAllocationStrategy src))))
    (Some "instant")
    (Some (Launch.TargetCapacitySpecificationRequest.mk (Some 1) (Some 1) (Some "spot"))).

(** [deleteLaunchTemplate]; its error is only logged. *)
Definition deleteLaunchTemplate (ltName : option string) : Launch.M unit :=
  Launch.ask (Launch.DeleteLaunchTemplate ltName).

(** What [launchSpotReplacement] makes of the answer of [CreateFleet]. *)
Definition launchedInstance (resp : option Launch.CreateFleetOutput.t)
  : option string * option error :=
  match resp with
  | Some output =>
      match Launch.CreateFleetOutput.Instances output with
      | Some fleetInstance :: _ =>
          match Launch.CreateFleetInstance.InstanceIds fleetInstance with
          | instanceId :: _ => (instanceId, None)
          | [] => (None, Some "Couldn't launch spot instance replacement")
          end
      | _ => (None, Some "Couldn't launch spot instance replacement")
      end
  | None => (None, Some "Couldn't launch spot instance replacement")
  end.

(** [launchSpotReplacement] of [instance_actions.go]. *)
Definition launchSpotReplacement (i : instance) (src : Launch.Source.t)
  : Launch.M (option string * option error) :=
  r <-? createLaunchTemplateData i src ;;
  match r.2 with
  | Some err => Launch.ret (None, Some err)
  | None =>
      ltData <-? Launch.lift (deref r.1) ;;
      r' <-? createFleetLaunchTemplate i ltData ;;
      match r'.2 with
      | Some err => Launch.ret (None, Some err)
      | None =>
          let lt := r'.1 in
          Launch.defer (deleteLaunchTemplate lt) (
            types <-? Launch.lift (compatibleSpotInstanceTypes i) ;;
            match types.2 with
            | Some err => Launch.ret (None, Some err)
            | None =>
                let cfi := createFleetInput src lt types.1 in
                Launch.ask (Launch.CreateFleet cfi) ;;?
                let '(resp, err) := Launch.ec2_CreateFleet ec2 cfi in
                match err with
                | Some err => Launch.ret (None, Some err)
                | None => Launch.ret (launchedInstance resp)
                end
            end)
      end
  end.

End Synthesis.

End SpotLaunch.

(** ** instance.go: the legacy launch of a spot instance

    The legacy path sends one [RunInstances] request for each compatible
    type, the cheapest first, until one of them is accepted. *)

Module LegacyLaunch.

(** The assignment [i.price = p]. *)
Definition withPrice (i : instance) (p : float64) : instance :=
  mkInstance (InstanceId i) (Tags i) (StateName i) (AvailabilityZone i) (EbsOptimized i)
    (VirtualizationType i) (InstanceLifecycle i) (typeInfo i) p (instRegion i) (asg i).

(** The loop of [convertBlockDeviceMappings]: a device whose [NoDevice] is
    set and [true] is skipped, any other is appended with its names and a
    copy of its EBS part. *)
Fixpoint convertBlockDeviceMappings_loop (BDMs : list (BlockDeviceMapping bool))
  (bds : list (BlockDeviceMapping string)) : list (BlockDeviceMapping string) :=
  match BDMs with
  | [] => bds
  | lcBDM :: rest =>
      let ec2BDM :=
        mkBDM (DeviceName lcBDM) (VirtualName lcBDM)
          match bdmEbs lcBDM with
          | Some ebs =>
              Some (mkEbs (DeleteOnTermination ebs) (Encrypted ebs) (Iops ebs)
                      (SnapshotId ebs) (VolumeSize ebs) (VolumeType ebs))
          | None => None
          end
          None in
      match NoDevice lcBDM with
      | Some true => convertBlockDeviceMappings_loop rest bds
      | _ => convertBlockDeviceMappings_loop rest (bds ++ [ ec2BDM ])
      end
  end.

(** [convertBlockDeviceMappings] of [instance.go]. *)
Definition convertBlockDeviceMappings (lc : option Launch.LaunchConfiguration.t)
  : list (BlockDeviceMapping string) :=
  match lc with
  | None => []
  | Some lc =>
      match Launch.LaunchConfiguration.BlockDeviceMappings lc with
      | [] => []
      | BDMs => convertBlockDeviceMappings_loop BDMs []
      end
  end.

(** The inputs of the [RunInstances] requests of a log, in the order of
    sending. *)
Definition runInstancesSent (log : list Launch.request) : list Launch.RunInstancesInput.t :=
  omap (λ r, match r with
             | Launch.RunInstances input => Some input
             | _ => None
             end) log.

(** [convertSecurityGroups] of [instance.go]. *)
Definition convertSecurityGroups (src : Launch.LegacySource.t) : list (option string) :=
  map Launch.GroupIdentifier.GroupId (Launch.LegacySource.SecurityGroups src).

Section Legacy.

(** [filepath.Match], [sort.Slice] and the count of ephemeral volumes, as the
    compatibility filter takes them. *)
Variable filepath_Match : string → string → bool.
Variable sort_Slice : ∀ A : Type, (A → A → bool) → list A → list A.
Variable countLaunchConfigEphemeralVolumes : autoScalingGroup → Z.

(** [i.asg.getAllowedInstanceTypes(i)] and
    [i.asg.getDisallowedInstanceTypes(i)], and
    [getPatchedUserDataForBeanstalk]: they are defined in files that are not
    part of these sources. *)
Variable getAllowedInstanceTypes : instance → list string.
Variable getDisallowedInstanceTypes : instance → list string.
Variable getPatchedUserDataForBeanstalk : option string → option string.

(** [strings.ToLower] and [strconv.FormatFloat(f, 'g', 10, 64)]. *)
Variable strings_ToLower : string → string.
Variable strconv_FormatFloat : float64 → string.

(** The answers of EC2. *)
Variable ec2 : Launch.EC2API.

(** [launchTemplateHasNetworkInterfaces(id, ver)]; the line logged on an
    error dereferences [id] and [ver]. *)
Definition launchTemplateHasNetworkInterfaces (id ver : option string)
  : Launch.M (bool * list Launch.LaunchTemplateInstanceNetworkInterfaceSpecification.t) :=
  Launch.ask (Launch.DescribeLaunchTemplateVersions id [ ver ]) ;;?
  let '(versions, err) := Launch.ec2_DescribeLaunchTemplateVersions ec2 id [ ver ] in
  match err with
  | Some _ =>
      Launch.lift (deref id) ;;?
      Launch.lift (deref ver) ;;?
      Launch.ret (false, [])
  | None =>
      match versions with
      | [ lt ] =>
          lt <-? Launch.lift (deref lt) ;;
          ltData <-? Launch.lift (deref (Launch.LaunchTemplateVersion.LaunchTemplateData lt)) ;;
          let nis := Launch.ResponseLaunchTemplateData.NetworkInterfaces ltData in
          if (0 <? Z.of_nat (length nis)) then Launch.ret (true, nis)
          else Launch.ret (false, [])
      | _ => Launch.ret (false, [])
      end
  end.

(** The part of [createRunInstancesInput] for a group with a launch
    template. *)
Definition withLaunchTemplate (src : Launch.LegacySource.t)
  (lt : LaunchTemplateSpecification) (retval : Launch.RunInstancesInput.t)
  : Launch.M Launch.RunInstancesInput.t :=
  let ver := Version lt in
  let id := LaunchTemplateId lt in
  let retval :=
    Launch.RunInstancesInput.set_LaunchTemplate (Some (mkLTSpec id ver)) retval in
  r <-? launchTemplateHasNetworkInterfaces id ver ;;
  let '(having, nis) := r in
  if having then
    let retval :=
      Launch.RunInstancesInput.set_NetworkInterfaces
        (Launch.RunInstancesInput.NetworkInterfaces retval
         ++ map (λ ni,
              Launch.InstanceNetworkInterfaceSpecification.mk
                (Launch.LaunchTemplateInstanceNetworkInterfaceSpecification.AssociatePublicIpAddress ni)
                (Launch.LegacySource.SubnetId src)
                (Launch.LaunchTemplateInstanceNetworkInterfaceSpecification.DeviceIndex ni)
                (convertSecurityGroups src)) nis)
        retval in
    let retval := Launch.RunInstancesInput.set_SubnetId None retval in
    Launch.ret (Launch.RunInstancesInput.set_SecurityGroupIds [] retval)
  else Launch.ret retval.

(** The part of [createRunInstancesInput] for a group with a launch
    configuration. *)
Definition withLaunchConfiguration (src : Launch.LegacySource.t)
  (lc : Launch.LaunchConfiguration.t) (retval : Launch.RunInstancesInput.t)
  : Launch.RunInstancesInput.t :=
  let retval :=
    match Launch.LaunchConfiguration.KeyName lc with
    | Some keyName =>
        if negb (String.eqb keyName "")
        then Launch.RunInstancesInput.set_KeyName (Some keyName) retval
        else retval
    | None => retval
    end in
  let retval :=
    match Launch.LaunchConfiguration.IamInstanceProfile lc with
    | Some profile =>
        if strings_HasPrefix profile "arn:aws:iam:"
        then Launch.RunInstancesInput.set_IamInstanceProfile
               (Some (Launch.IamInstanceProfileSpecification.mk (Some profile) None)) retval
        else Launch.RunInstancesInput.set_IamInstanceProfile
               (Some (Launch.IamInstanceProfileSpecification.mk None (Some profile))) retval
    | None => retval
    end in
  let retval :=
    Launch.RunInstancesInput.set_ImageId (Launch.LaunchConfiguration.ImageId lc) retval in
  let retval :=
    if String.eqb (strings_ToLower (Launch.LegacySource.PatchBeanstalkUserdata src)) "true"
    then Launch.RunInstancesInput.set_UserData
           (getPatchedUserDataForBeanstalk (Launch.LaunchConfiguration.UserData lc)) retval
    else Launch.RunInstancesInput.set_UserData (Launch.LaunchConfiguration.UserData lc)
           retval in
  let BDMs := convertBlockDeviceMappings (Some lc) in
  let retval :=
    if (0 <? Z.of_nat (length BDMs))
    then Launch.RunInstancesInput.set_BlockDeviceMappings BDMs retval
    else retval in
  let retval :=
    match Launch.LaunchConfiguration.InstanceMonitoring lc with
    | Some monitoring =>
        Launch.RunInstancesInput.set_Monitoring
          (Some (Launch.RunInstancesMonitoringEnabled.mk
                   (Launch.InstanceMonitoring.Enabled monitoring))) retval
    | None => retval
    end in
  if bool_decide (Launch.LaunchConfiguration.AssociatePublicIpAddress lc ≠ None)
     || bool_decide (Launch.LegacySource.SubnetId src ≠ None)
  then
    let retval :=
      Launch.RunInstancesInput.set_NetworkInterfaces
        [ Launch.InstanceNetworkInterfaceSpecification.mk
            (Launch.LaunchConfiguration.AssociatePublicIpAddress lc)
            (Launch.LegacySource.SubnetId src) (Some 0) (convertSecurityGroups src) ]
        retval in
    let retval := Launch.RunInstancesInput.set_SubnetId None retval in
    Launch.RunInstancesInput.set_SecurityGroupIds [] retval
  else retval.

(** [createRunInstancesInput]. *)
Definition createRunInstancesInput (i : instance) (src : Launch.LegacySource.t)
  (instanceType : string) (price : float64) : Launch.M Launch.RunInstancesInput.t :=
  let retval :=
    {| Launch.RunInstancesInput.BlockDeviceMappings := [];
       Launch.RunInstancesInput.EbsOptimized := EbsOptimized i;
       Launch.RunInstancesInput.IamInstanceProfile := None;
       Launch.RunInstancesInput.ImageId := None;
       Launch.RunInstancesInput.InstanceMarketOptions :=
         Some (Launch.InstanceMarketOptionsRequest.mk (Some "spot")
                 (Some (Launch.SpotMarketOptions.mk (Some (strconv_FormatFloat price)))));
       Launch.RunInstancesInput.InstanceType := Some instanceType;
       Launch.RunInstancesInput.KeyName := None;
       Launch.RunInstancesInput.LaunchTemplate := None;
       Launch.RunInstancesInput.MaxCount := Some 1;
       Launch.RunInstancesInput.MinCount := Some 1;
       Launch.RunInstancesInput.Monitoring := None;
       Launch.RunInstancesInput.NetworkInterfaces := [];
       Launch.RunInstancesInput.Placement := Launch.LegacySource.Placement src;
       Launch.RunInstancesInput.SecurityGroupIds := convertSecurityGroups src;
       Launch.RunInstancesInput.SubnetId := Launch.LegacySource.SubnetId src;
       Launch.RunInstancesInput.TagSpecifications := Instance.generateTagsList i;
       Launch.RunInstancesInput.UserData := None |} in
  retval <-? match LaunchTemplate (asg i) with
             | Some lt => withLaunchTemplate src lt retval
             | None => Launch.ret retval
             end ;;
  match Launch.LegacySource.launchConfiguration src with
  | Some lc => Launch.ret (withLaunchConfiguration src lc retval)
  | None => Launch.ret retval
  end.

(** What [launchSpotReplacement] makes of an answer of [RunInstances] without
    an error: the first instance of the reservation; the line logged
    dereferences its identifier and its type. *)
Definition launchedInstance (resp : option Launch.Reservation.t)
  : outcome (option string * option error) :=
  bind (deref resp) (λ resp,
    match Launch.Reservation.Instances resp with
    | [] => Panics "index out of range [0] with length 0"
    | spotInst :: _ =>
        bind (deref spotInst) (λ spotInst,
          bind (deref (Launch.LaunchedInstance.InstanceId spotInst)) (λ _,
            bind (deref (Launch.LaunchedInstance.InstanceType spotInst)) (λ _,
              Returns (Launch.LaunchedInstance.InstanceId spotInst, None))))
    end).

(** The loop of [launchSpotReplacement] over the compatible types; the zone
    [*i.Placement.AvailabilityZone] is the zone of the instance, as for
    [calculatePrice]. *)
Fixpoint launchLoop (i : instance) (src : Launch.LegacySource.t)
  (instanceTypes : list instanceTypeInformation) : Launch.M (option string * option error) :=
  match instanceTypes with
  | [] => Launch.ret (None, Some "exhausted all compatible instance types")
  | candidate :: rest =>
      let az := AvailabilityZone i in
      let bidPrice :=
        Instance.getPricetoBid i (price i)
          (default 0%float (spot (pricing candidate) !! az)) in
      runInstancesInput <-? createRunInstancesInput i src (instanceType candidate) bidPrice ;;
      Launch.ask (Launch.RunInstances runInstancesInput) ;;?
      let '(resp, err) := Launch.ec2_RunInstances ec2 runInstancesInput in
      match err with
      | Some _ => launchLoop i src rest
      | None => Launch.lift (launchedInstance resp)
      end
  end.

(** [launchSpotReplacement] of [instance.go]. *)
Definition launchSpotReplacement (i : instance) (src : Launch.LegacySource.t)
  : Launch.M (option string * option error) :=
  let i :=
    withPrice i
      (PrimFloat.mul
         (PrimFloat.div (onDemand (pricing (typeInfo i)))
            (Launch.LegacySource.regionOnDemandPriceMultiplier src))
         (Launch.LegacySource.groupOnDemandPriceMultiplier src)) in
  let '(instanceTypes, err) :=
    Instance.getCompatibleSpotInstanceTypesListSortedAscendingByPrice filepath_Match
      sort_Slice countLaunchConfigEphemeralVolumes i
      (getAllowedInstanceTypes i) (getDisallowedInstanceTypes i) in
  match err with
  | Some err => Launch.ret (None, Some err)
  | None => launchLoop i src instanceTypes
  end.

End Legacy.

End LegacyLaunch.

(** ** Order of binary64 numbers *)

Module FloatOrder.

(** A number that is not a NaN, as Go's [x == x] tests it. *)
Definition ordered (x : PrimFloat.float) : Prop := PrimFloat.eqb x x = true.

(** The place of a number that is not a NaN on the line: its class (negative
    infinity, negative, zero, positive, positive infinity), then exponent and
    mantissa, both negated for a negative number. *)
Definition key (f : SpecFloat.spec_float) : Z * Z * Z :=
  match f with
  | SpecFloat.S754_zero _ => (0, 0, 0)
  | SpecFloat.S754_infinity true => (-2, 0, 0)
  | SpecFloat.S754_infinity false => (2, 0, 0)
  | SpecFloat.S754_nan => (0, 0, 0)
  | SpecFloat.S754_finite true m e => (-1, - e, - Z.pos m)
  | SpecFloat.S754_finite false m e => (1, e, Z.pos m)
  end.

(** Lexicographic comparison of two keys. *)
Definition key_compare (k1 k2 : Z * Z * Z) : comparison :=
  match k1.1.1 ?= k2.1.1 with
  | Eq => match k1.1.2 ?= k2.1.2 with
          | Eq => k1.2 ?= k2.2
          | c => c
          end
  | c => c
  end.

Definition is_nan (f : SpecFloat.spec_float) : bool :=
  match f with SpecFloat.S754_nan => true | _ => false end.

End FloatOrder.

(** ** Sorting a slice

    [sort.Slice] belongs to Go's library. Its documentation promises a sorted
    permutation for a comparison that is a strict weak ordering, and says
    that the sort is not guaranteed to be stable. The filter takes the
    procedure as a parameter; the procedure below is one that meets the
    promise: the pass with gap 6 followed by an insertion sort, which is what
    the library's quickSort (up to Go 1.18) runs on a slice of at most 12
    elements. *)

Module SortSlice.

(** What [sort.Slice] asks of its comparison on the elements it is given: a
    strict weak ordering. *)
Definition strictWeakOrderOn {A : Type} (less : A → A → bool) (data : list A) : Prop :=
  (∀ a b, a ∈ data → b ∈ data → less a b = true → less b a = false)
  ∧ (∀ a b c, a ∈ data → b ∈ data → c ∈ data →
       less b a = false → less c b = false → less c a = false).

(** What [sort.Slice] promises: no element is less than one that stands
    before it. *)
Definition sortedBy {A : Type} (less : A → A → bool) (data : list A) : Prop :=
  StronglySorted (λ a b, less b a = false) data.

Section Procedures.

Context {A : Type}.
Variable less : A → A → bool.

(** The inner loop of an insertion sort: [x] moves left while it is less than
    its left neighbour; [before] holds the elements to the left of [x],
    nearest first. *)
Fixpoint insertLeftwards (x : A) (before : list A) : list A :=
  match before with
  | [] => [ x ]
  | y :: rest => if less x y then y :: insertLeftwards x rest else x :: before
  end.

Definition insertionSort (data : list A) : list A :=
  reverse (fold_left (λ before x, insertLeftwards x before) data []).

(** A pass that compares each element with the one six places before it and
    swaps the two when the later one is less; [front] are the first six
    elements and [back] the six after them. *)
Fixpoint gapSwap (front back : list A) : list A * list A :=
  match front, back with
  | x :: front', y :: back' =>
      let '(f, b) := gapSwap front' back' in
      if less y x then (y :: f, x :: b) else (x :: f, y :: b)
  | _, _ => (front, back)
  end.

Definition gapPass (data : list A) : list A :=
  let '(f, b) := gapSwap (take 6 data) (take 6 (drop 6 data)) in
  f ++ b ++ drop 12 data.

(** The pass with gap 6 followed by an insertion sort. *)
Definition gapInsertionSort (data : list A) : list A := insertionSort (gapPass data).

End Procedures.

End SortSlice.

(** ** Concrete inputs

    The values at which the statements below are evaluated. *)

Module Sample.

Definition typeInfoOf (type : string) (cpu : Z) (processor : string) (gpu : Z)
  (zonePrice : float64) (mem : float64) : instanceTypeInformation :=
  mkTypeInfo type cpu processor gpu
    (mkPrices 0.10%float {[ "us-east-1a" := zonePrice ]} 0%float)
    mem [ "HVM" ] false 0%float 0 false true 0%float.

Definition m5_large : instanceTypeInformation :=
  typeInfoOf "m5.large" 2 "Intel Xeon Platinum 8175" 0 0.03%float 8%float.

Definition groupUsEast1 : autoScalingGroup :=
  mkASG "g1" "us-east-1" DefaultGP2ConversionThreshold None (Some "lc-1").

Definition groupSaEast1 : autoScalingGroup :=
  mkASG "g1" "sa-east-1" DefaultGP2ConversionThreshold None (Some "lc-1").

Definition regionWith (policy : string) (buffer : float64)
  (catalogue : gmap string instanceTypeInformation) : region :=
  mkRegion (mkConfig policy buffer) catalogue.

(** A running on-demand instance of type [m5.large]. *)
Definition onDemandInstance (r : region) (a : autoScalingGroup) (tags : list Tag) : instance :=
  mkInstance "i-aaa" tags "running" "us-east-1a" (Some false) "hvm" None m5_large
    0.10%float r a.

Definition volume (type : option string) (size : option Z) : Ebs :=
  mkEbs (Some true) None None None size type.

(** Event types as the event bus names them. *)
Definition rebalanceCode : string := "EC2 Instance Rebalance Recommendation".
Definition interruptionCode : string := "EC2 Spot Instance Interruption Warning".

Definition terminatingHook : SpotTermination.LifecycleHook :=
  SpotTermination.mkHook "drain" "autoscaling:EC2_INSTANCE_TERMINATING".

(** A cloud in which the spot instance [i-spot] belongs to the group [g1],
    which has the hooks [hooks]; [failing] tells which requests fail. *)
Definition cloudWith (hooks : list SpotTermination.LifecycleHook)
  (failing : SpotTermination.request → option error) : SpotTermination.cloud :=
  SpotTermination.mkCloud
    (λ asgName, if String.eqb asgName "g1" then hooks else [])
    (λ instanceID, if String.eqb instanceID "i-spot" then Some "g1" else None)
    failing.

Definition responderOf (c : SpotTermination.cloud) : SpotTermination.SpotTermination :=
  SpotTermination.mkSpotTermination (Some (SpotTermination.serviceOf c))
    (SpotTermination.ec2Of c) 1.

Definition nothingFails : SpotTermination.request → option error := λ _, None.

Definition hookLookupFails : SpotTermination.request → option error :=
  λ r, match r with
       | SpotTermination.DescribeLifecycleHooks _ => Some "Throttling: Rate exceeded"
       | _ => None
       end.

(** A group for the swap: its bounds, whether its processes are suspended,
    its members, and whether the service refuses to attach or to terminate. *)
Record simpleGroup : Type := mkSimpleGroup {
  sgMaxSize : Z;
  sgDesiredCapacity : Z;
  sgSuspended : bool;
  sgMembers : list string;
  sgAttachFails : bool;
  sgTerminateFails : bool
}.

#[global] Instance simpleGroupView : InstanceActions.GroupView simpleGroup := {|
  InstanceActions.MaxSize := sgMaxSize;
  InstanceActions.DesiredCapacity := sgDesiredCapacity;
  InstanceActions.processesSuspended := sgSuspended;
  InstanceActions.suspendProcesses g :=
    mkSimpleGroup (sgMaxSize g) (sgDesiredCapacity g) true (sgMembers g)
      (sgAttachFails g) (sgTerminateFails g);
  InstanceActions.resumeProcesses g :=
    mkSimpleGroup (sgMaxSize g) (sgDesiredCapacity g) false (sgMembers g)
      (sgAttachFails g) (sgTerminateFails g);
  InstanceActions.setAutoScalingMaxSize n g :=
    mkSimpleGroup n (sgDesiredCapacity g) (sgSuspended g) (sgMembers g)
      (sgAttachFails g) (sgTerminateFails g);
  InstanceActions.attachSpotInstance id _ g :=
    if sgAttachFails g then (Some "ValidationError", g)
    else (None,
          mkSimpleGroup (sgMaxSize g) (sgDesiredCapacity g + 1) (sgSuspended g)
            (sgMembers g ++ [ id ]) (sgAttachFails g) (sgTerminateFails g));
  InstanceActions.terminateInstanceInAutoScalingGroup id _ decrease g :=
    if sgTerminateFails g then (Some "ScalingActivityInProgress", g)
    else (None,
          mkSimpleGroup (sgMaxSize g)
            (if decrease then sgDesiredCapacity g - 1 else sgDesiredCapacity g)
            (sgSuspended g) (filter (λ m, m ≠ id) (sgMembers g))
            (sgAttachFails g) (sgTerminateFails g))
|}.

(** A spot instance launched to replace [i-aaa], and a region index in which
    a describe call finds what [found] holds. *)
Definition spotInstance : instance :=
  mkInstance "i-spot"
    [ mkTag "launched-by-autospotting" (Some "true");
      mkTag "launched-for-asg" (Some "g1");
      mkTag "launched-for-replacing-instance" (Some "i-aaa") ]
    "running" "us-east-1a" (Some false) "hvm" (Some "spot") m5_large 0.10%float
    (regionWith "normal" 10%float ∅) groupUsEast1.

Definition targetInstance : instance :=
  onDemandInstance (regionWith "normal" 10%float ∅) groupUsEast1
    [ mkTag "aws:autoscaling:groupName" (Some "g1") ].

(** The index after a describe call that finds the target. *)
Definition targetIndex : gmap string instance := {[ "i-aaa" := targetInstance ]}.

Definition describeFinds (found : gmap string instance)
  : string → gmap string instance → option error * gmap string instance :=
  λ _ _, (None, found).

Definition swapWorld (maxSize desired : Z) (attachFails terminateFails : bool)
  : InstanceActions.world simpleGroup :=
  InstanceActions.mkWorld
    (mkSimpleGroup maxSize desired false [ "i-aaa"; "i-bbb" ] attachFails terminateFails)
    ∅ [].

(** A catalogue for the zone [us-east-1a]: seven types that can replace an
    [m5.large] and three that cannot (an ARM type, a type that is too
    expensive, a type with too little memory). *)
Definition c5_2xlarge : instanceTypeInformation :=
  typeInfoOf "c5.2xlarge" 8 "Intel Xeon Platinum 8124M" 0 0.05%float 16%float.
Definition m5a_large : instanceTypeInformation :=
  typeInfoOf "m5a.large" 2 "AMD EPYC 7571" 0 0.03%float 8%float.
Definition m5ad_large : instanceTypeInformation :=
  typeInfoOf "m5ad.large" 2 "AMD EPYC 7571" 0 0.03%float 8%float.
Definition m5d_large : instanceTypeInformation :=
  typeInfoOf "m5d.large" 2 "Intel Xeon Platinum 8175" 0 0.03%float 8%float.
Definition m5n_large : instanceTypeInformation :=
  typeInfoOf "m5n.large" 2 "Intel Xeon Platinum 8259CL" 0 0.03%float 8%float.
Definition r5_large : instanceTypeInformation :=
  typeInfoOf "r5.large" 2 "Intel Xeon Platinum 8175" 0 0.03%float 16%float.
Definition m6g_large : instanceTypeInformation :=
  typeInfoOf "m6g.large" 2 "AWS Graviton2 Processor" 0 0.02%float 8%float.
Definition p3_2xlarge : instanceTypeInformation :=
  typeInfoOf "p3.2xlarge" 8 "Intel Xeon E5-2686 v4" 1 0.9%float 61%float.
Definition t3_small : instanceTypeInformation :=
  typeInfoOf "t3.small" 2 "Intel Skylake E5 2686 v5" 0 0.006%float 2%float.

Definition catalogue : gmap string instanceTypeInformation :=
  list_to_map
    [ ("t3.small", t3_small); ("r5.large", r5_large); ("p3.2xlarge", p3_2xlarge);
      ("m6g.large", m6g_large); ("m5n.large", m5n_large); ("m5d.large", m5d_large);
      ("m5ad.large", m5ad_large); ("m5a.large", m5a_large); ("m5.large", m5_large);
      ("c5.2xlarge", c5_2xlarge) ].

(** The reference instance of scenario 1, in a region with that catalogue. *)
Definition referenceInstance : instance :=
  onDemandInstance (regionWith "normal" 10%float catalogue) groupUsEast1
    [ mkTag "aws:autoscaling:groupName" (Some "g1") ].

(** A [filepath.Match] for patterns without metacharacters, a [sort.Slice]
    (see [SortSlice]) and a launch configuration without ephemeral volumes. *)
Definition literalMatch : string → string → bool := String.eqb.
Definition sortSlice : ∀ A : Type, (A → A → bool) → list A → list A :=
  λ A, @SortSlice.gapInsertionSort A.
Definition noEphemeralVolumes : autoScalingGroup → Z := λ _, 0.

(** A reference instance of a type whose processor is in neither class. *)
Definition mac2_metal : instanceTypeInformation :=
  typeInfoOf "mac2.metal" 8 "Apple M1 chip with 8-core CPU" 0 0.2%float 16%float.

Definition macInstance : instance :=
  mkInstance "i-mac" [ mkTag "aws:autoscaling:groupName" (Some "g1") ] "running"
    "us-east-1a" (Some false) "hvm" None mac2_metal 0.65%float
    (regionWith "normal" 10%float catalogue) groupUsEast1.

(** The spot instance as it is launched for [targetInstance]: its tags are
    the ones [generateTagsList] makes for the target. *)
Definition launchedSpotInstance : instance :=
  mkInstance "i-spot2"
    [ mkTag "launched-by-autospotting" (Some "true");
      mkTag "launched-for-asg" (Some "g1");
      mkTag "launched-for-replacing-instance" (Some "i-aaa");
      mkTag "LaunchConfigurationName" (Some "lc-1") ]
    "pending" "us-east-1a" (Some false) "hvm" (Some "spot") m5_large 0.10%float
    (regionWith "normal" 10%float ∅) groupUsEast1.

(** The launch of a replacement for an instance of a group that has a launch
    template; the template declares a network interface and tags for the
    instance and its volumes. *)
Definition groupWithTemplate : autoScalingGroup :=
  mkASG "g1" "us-east-1" DefaultGP2ConversionThreshold
    (Some (mkLTSpec (Some "lt-1") (Some "3"))) None.

Definition templateInstance : instance :=
  onDemandInstance (regionWith "normal" 10%float catalogue) groupWithTemplate
    [ mkTag "aws:autoscaling:groupName" (Some "g1") ].

Definition launchSource (lc : option Launch.LaunchConfiguration.t) : Launch.Source.t :=
  Launch.Source.mk [ Launch.GroupIdentifier.mk (Some "sg-1") (Some "web") ]
    (Some "subnet-1") (Some "ami-1")
    (Some (Launch.Placement.mk None (Some "us-east-1a") None None None None None None))
    lc false "capacity-optimized-prioritized".

Definition templateData : Launch.ResponseLaunchTemplateData.t :=
  Launch.ResponseLaunchTemplateData.mk
    [ mkBDM (Some "/dev/xvda") None (Some (volume (Some "gp2") (Some 100))) None ]
    None None None None None None (Some "ami-1") None (Some "key") None
    [ Launch.LaunchTemplateInstanceNetworkInterfaceSpecification.mk (Some true) (Some 0) ]
    [ Some "sg-template" ] []
    [ InstanceConversion.mkTagSpec (Some "instance") [ mkTag "team" (Some "a") ];
      InstanceConversion.mkTagSpec (Some "volume") [ mkTag "team" (Some "a") ] ]
    None.

Definition imageDevice : BlockDeviceMapping string :=
  mkBDM (Some "/dev/sda1") None (Some (volume (Some "gp2") (Some 8))) None.

Definition configurationDevice : BlockDeviceMapping bool :=
  mkBDM (Some "/dev/sdf") None (Some (volume (Some "io1") (Some 500))) None.

(** A launch configuration in a VPC with a device of its own. *)
Definition launchConfigurationWithDevice : Launch.LaunchConfiguration.t :=
  Launch.LaunchConfiguration.mk (Some "key") (Some "arn:aws:iam::1:instance-profile/web")
    (Some "ami-2") None [ configurationDevice ] None (Some false).

(** An EC2 that knows the image and the template; [created] and [fleet] are
    its answers to [CreateLaunchTemplate] and [CreateFleet]. *)
Definition launchEC2 (created : option error)
  (fleet : option Launch.CreateFleetOutput.t * option error) : Launch.EC2API :=
  Launch.mkEC2API
    (λ _, ([ Some (Launch.Image.mk [ imageDevice ]) ], None))
    (λ _ _, ([ Some (Launch.LaunchTemplateVersion.mk (Some templateData)) ], None))
    (λ _ _, created)
    (λ _, fleet)
    (λ _, None)
    (λ _, (None, Some "UnauthorizedOperation")).

Definition fleetLaunches (instanceId : string)
  : option Launch.CreateFleetOutput.t * option error :=
  (Some (Launch.CreateFleetOutput.mk
           [ Some (Launch.CreateFleetInstance.mk [ Some instanceId ]) ]), None).

(** The network interfaces a template declares, a user data that needs no
    patch, a price that prints as [0.1], and two compatible types. *)
Definition declaredNetworkInterfaces (ltData : Launch.ResponseLaunchTemplateData.t)
  : bool * list Launch.LaunchTemplateInstanceNetworkInterfaceSpecification.t :=
  match Launch.ResponseLaunchTemplateData.NetworkInterfaces ltData with
  | [] => (false, [])
  | nis => (true, nis)
  end.
Definition unpatchedUserData : option string → option string := λ userData, userData.
Definition printedPrice : float64 → string := λ _, "0.1".
Definition twoCompatibleTypes : instance → outcome (list (option string) * option error) :=
  λ _, Returns ([ Some "m5a.large"; Some "m5d.large" ], None).

(** The legacy launch: the instance in a VPC, both price multipliers [1],
    and an EC2 that has no capacity for the types of [full] and launches
    any other type. *)
Definition legacySource (lc : option Launch.LaunchConfiguration.t) : Launch.LegacySource.t :=
  Launch.LegacySource.mk [ Launch.GroupIdentifier.mk (Some "sg-1") (Some "web") ]
    (Some "subnet-1")
    (Some (Launch.Placement.mk None (Some "us-east-1a") None None None None None None))
    lc "false" 1%float 1%float.

Definition legacyEC2 (full : list string) : Launch.EC2API :=
  Launch.mkEC2API
    (λ _, ([], None))
    (λ _ _, ([ Some (Launch.LaunchTemplateVersion.mk (Some templateData)) ], None))
    (λ _ _, None)
    (λ _, (None, None))
    (λ _, None)
    (λ input,
       match Launch.RunInstancesInput.InstanceType input with
       | Some type =>
           if bool_decide (type ∈ full)
           then (None, Some "InsufficientInstanceCapacity")
           else (Some (Launch.Reservation.mk
                         [ Some (Launch.LaunchedInstance.mk (Some ("i-" +:+ type))
                                   (Some type)) ]), None)
       | None => (None, Some "MissingParameter")
       end).

Definition noTypes : instance → list string := λ _, [].
Definition lowerCased : string → string := λ s, s.

(** An EC2 that knows neither the image nor the launch template. *)
Definition emptyEC2 : Launch.EC2API :=
  Launch.mkEC2API
    (λ _, ([], None))
    (λ _ _, ([], None))
    (λ _ _, None)
    (λ _, (None, None))
    (λ _, None)
    (λ _, (None, Some "UnauthorizedOperation")).

End Sample.

(** * Properties *)

(** ** Block devices *)

Lemma supportedIO2region_spec (r : string) :
  InstanceConversion.supportedIO2region r = true
  ↔ r ∉ [ "us-gov-west-1"; "us-gov-east-1"; "sa-east-1"; "cn-north-1";
          "cn-northwest-1"; "eu-south-1"; "af-south-1"; "eu-west-3";
          "ap-northeast-3" ].
Proof.
  unfold InstanceConversion.supportedIO2region, InstanceConversion.unsupportedIO2Regions.
  repeat match goal with
         | |- context [ String.eqb r ?s ] =>
             destruct (String.eqb_spec r s) as [-> | ?]; [ split; [ discriminate | set_solver ] | ]
         end.
  split; [ intros _ | reflexivity ].
  rewrite !elem_of_cons, elem_of_nil. tauto.
Qed.

Lemma convertKnownVolumeType_io1 (ebs : Ebs) (a : autoScalingGroup) :
  VolumeType ebs = Some "io1" →
  InstanceConversion.convertKnownVolumeType "io1" ebs a
  = Returns (Some (if InstanceConversion.supportedIO2region (regionName a)
                   then "io2" else "io1")).
Proof.
  intros Hvt. unfold InstanceConversion.convertKnownVolumeType. simpl.
  destruct (InstanceConversion.supportedIO2region (regionName a)); simpl; congruence.
Qed.

Lemma convertKnownVolumeType_gp2 (ebs : Ebs) (a : autoScalingGroup) (size : Z) :
  VolumeType ebs = Some "gp2" → VolumeSize ebs = Some size →
  InstanceConversion.convertKnownVolumeType "gp2" ebs a
  = Returns (Some (if size <=? GP2ConversionThreshold a then "gp3" else "gp2")).
Proof.
  intros Hvt Hsz. unfold InstanceConversion.convertKnownVolumeType. simpl.
  rewrite Hsz. simpl. destruct (size <=? GP2ConversionThreshold a); congruence.
Qed.

Lemma convertKnownVolumeType_other (vt : string) (ebs : Ebs) (a : autoScalingGroup) :
  VolumeType ebs = Some vt → vt ≠ "io1" → vt ≠ "gp2" →
  InstanceConversion.convertKnownVolumeType vt ebs a = Returns (Some vt).
Proof.
  intros Hvt H1 H2. unfold InstanceConversion.convertKnownVolumeType.
  destruct (String.eqb_spec vt "io1"); [ done | ].
  destruct (String.eqb_spec vt "gp2"); [ done | ].
  simpl. congruence.
Qed.

(** C7. For an EBS entry of a launch template whose volume type is [vt]:
    [io1] becomes [io2] exactly when the region is none of the nine regions
    without [io2] (and stays [io1] there); [gp2] becomes [gp3] exactly when the
    volume size is at most the configured threshold (and stays [gp2] above
    it); every other type is returned unchanged. The default threshold is
    170. *)
Theorem convertLaunchTemplateEBSVolumeType_rewrites
  (a : autoScalingGroup) (ebs : Ebs) (vt : string) :
  VolumeType ebs = Some vt →
  (vt = "io1" →
     (InstanceConversion.convertLaunchTemplateEBSVolumeType ebs a = Returns (Some "io2")
      ↔ regionName a ∉ [ "us-gov-west-1"; "us-gov-east-1"; "sa-east-1"; "cn-north-1";
                         "cn-northwest-1"; "eu-south-1"; "af-south-1"; "eu-west-3";
                         "ap-northeast-3" ])
     ∧ (regionName a ∈ [ "us-gov-west-1"; "us-gov-east-1"; "sa-east-1"; "cn-north-1";
                         "cn-northwest-1"; "eu-south-1"; "af-south-1"; "eu-west-3";
                         "ap-northeast-3" ] →
        InstanceConversion.convertLaunchTemplateEBSVolumeType ebs a
        = Returns (Some "io1")))
  ∧ (vt = "gp2" → ∀ size, VolumeSize ebs = Some size →
     (InstanceConversion.convertLaunchTemplateEBSVolumeType ebs a = Returns (Some "gp3")
      ↔ size ≤ GP2ConversionThreshold a)
     ∧ (GP2ConversionThreshold a < size →
        InstanceConversion.convertLaunchTemplateEBSVolumeType ebs a
        = Returns (Some "gp2")))
  ∧ (vt ≠ "io1" → vt ≠ "gp2" →
     InstanceConversion.convertLaunchTemplateEBSVolumeType ebs a = Returns (Some vt))
  ∧ DefaultGP2ConversionThreshold = 170.
Proof.
  intros Hvt. unfold InstanceConversion.convertLaunchTemplateEBSVolumeType.
  rewrite Hvt. simpl. repeat split.
  - subst vt. rewrite (convertKnownVolumeType_io1 _ _ Hvt).
    rewrite <- supportedIO2region_spec.
    destruct (InstanceConversion.supportedIO2region (regionName a)); [ done | discriminate ].
  - subst vt. rewrite (convertKnownVolumeType_io1 _ _ Hvt).
    rewrite <- supportedIO2region_spec.
    by destruct (InstanceConversion.supportedIO2region (regionName a)).
  - subst vt. rewrite (convertKnownVolumeType_io1 _ _ Hvt).
    intros Hin. destruct (InstanceConversion.supportedIO2region (regionName a)) eqn:Hs;
      [ | done ].
    apply supportedIO2region_spec in Hs. done.
  - subst vt. rewrite (convertKnownVolumeType_gp2 _ _ _ Hvt H0).
    destruct (Z.leb_spec size (GP2ConversionThreshold a)); [ lia | discriminate ].
  - subst vt. rewrite (convertKnownVolumeType_gp2 _ _ _ Hvt H0).
    destruct (Z.leb_spec size (GP2ConversionThreshold a)); [ done | lia ].
  - subst vt. rewrite (convertKnownVolumeType_gp2 _ _ _ Hvt H0).
    destruct (Z.leb_spec size (GP2ConversionThreshold a)); [ lia | done ].
  - intros. by apply convertKnownVolumeType_other.
Qed.

(** The conversion at the literal scenarios of the specification: a [gp2]
    volume of 100 GiB under the default threshold becomes [gp3], one of 500
    GiB stays [gp2]; an [io1] volume stays [io1] in [sa-east-1] and becomes
    [io2] in [us-east-1]. *)
Lemma convertLaunchTemplateEBSVolumeType_scenarios :
  InstanceConversion.convertLaunchTemplateEBSVolumeType
    (Sample.volume (Some "gp2") (Some 100)) Sample.groupUsEast1 = Returns (Some "gp3")
  ∧ InstanceConversion.convertLaunchTemplateEBSVolumeType
      (Sample.volume (Some "gp2") (Some 500)) Sample.groupUsEast1 = Returns (Some "gp2")
  ∧ InstanceConversion.convertLaunchTemplateEBSVolumeType
      (Sample.volume (Some "io1") (Some 100)) Sample.groupSaEast1 = Returns (Some "io1")
  ∧ InstanceConversion.convertLaunchTemplateEBSVolumeType
      (Sample.volume (Some "io1") (Some 100)) Sample.groupUsEast1 = Returns (Some "io2").
Proof.
  split; [ | split; [ | split ] ].
  - destruct (convertLaunchTemplateEBSVolumeType_rewrites Sample.groupUsEast1
                (Sample.volume (Some "gp2") (Some 100)) "gp2" eq_refl)
      as (_ & Hgp2 & _).
    destruct (Hgp2 eq_refl 100 eq_refl) as [Hiff _]. apply Hiff. vm_compute. discriminate.
  - destruct (convertLaunchTemplateEBSVolumeType_rewrites Sample.groupUsEast1
                (Sample.volume (Some "gp2") (Some 500)) "gp2" eq_refl)
      as (_ & Hgp2 & _).
    destruct (Hgp2 eq_refl 500 eq_refl) as [_ Hgt]. apply Hgt. reflexivity.
  - destruct (convertLaunchTemplateEBSVolumeType_rewrites Sample.groupSaEast1
                (Sample.volume (Some "io1") (Some 100)) "io1" eq_refl)
      as (Hio1 & _).
    destruct (Hio1 eq_refl) as [_ Hin]. apply Hin.
    do 2 apply list_elem_of_further. apply list_elem_of_here.
  - destruct (convertLaunchTemplateEBSVolumeType_rewrites Sample.groupUsEast1
                (Sample.volume (Some "io1") (Some 100)) "io1" eq_refl)
      as (Hio1 & _).
    destruct (Hio1 eq_refl) as [Hiff _]. apply Hiff.
    apply supportedIO2region_spec. reflexivity.
Defined.

Lemma convertLoop_total_on_nil_types (a : autoScalingGroup)
  (BDMs : list (BlockDeviceMapping bool)) :
  (∀ BDM ebs, BDM ∈ BDMs → bdmEbs BDM = Some ebs → VolumeType ebs = None) →
  ∀ bds, ∃ r,
    InstanceConversion.convertLoop InstanceConversion.noDeviceBool
      InstanceConversion.convertLaunchConfigurationEBSVolumeType a BDMs bds = Returns r.
Proof.
  induction BDMs as [ | BDM rest IH ]; intros Hnil bds; simpl.
  - eauto.
  - assert (Hrest : ∀ BDM' ebs, BDM' ∈ rest → bdmEbs BDM' = Some ebs → VolumeType ebs = None)
      by (intros ? ? ?; apply Hnil; by right).
    unfold InstanceConversion.convertOne.
    destruct (bdmEbs BDM) as [ ebs | ] eqn:Hebs; simpl.
    + unfold InstanceConversion.convertLaunchConfigurationEBSVolumeType.
      rewrite (Hnil BDM ebs (list_elem_of_here _ _) Hebs). simpl.
      destruct (InstanceConversion.noDeviceBool (NoDevice BDM)); by apply IH.
    + destruct (InstanceConversion.noDeviceBool (NoDevice BDM)); by apply IH.
Qed.

(** C10. On an EBS specification whose [VolumeType] is [nil] the
    launch-configuration conversion returns [nil] and does not fail, the
    converted entry carries no volume type, and a list of mappings that all
    have such a specification is converted without a failure; the
    launch-template and the image conversions dereference the volume type
    and panic on the same input. *)
Theorem convertLaunchConfigurationEBSVolumeType_nil_type
  (a : autoScalingGroup) (ebs : Ebs) :
  VolumeType ebs = None →
  InstanceConversion.convertLaunchConfigurationEBSVolumeType ebs a = Returns None
  ∧ (∀ BDM : BlockDeviceMapping bool, bdmEbs BDM = Some ebs →
     InstanceConversion.convertOne
       InstanceConversion.convertLaunchConfigurationEBSVolumeType a BDM
     = Returns (mkBDMRequest (DeviceName BDM) (VirtualName BDM)
                  (Some (mkEbsRequest (DeleteOnTermination ebs) (Encrypted ebs) (Iops ebs)
                           (SnapshotId ebs) (VolumeSize ebs) None))))
  ∧ (∀ BDMs : list (BlockDeviceMapping bool),
     (∀ BDM ebs', BDM ∈ BDMs → bdmEbs BDM = Some ebs' → VolumeType ebs' = None) →
     ∃ r, InstanceConversion.convertLaunchConfigurationBlockDeviceMappings a BDMs
          = Returns r)
  ∧ (∃ msg, InstanceConversion.convertLaunchTemplateEBSVolumeType ebs a = Panics msg)
  ∧ (∃ msg, InstanceConversion.convertImageEBSVolumeType ebs a = Panics msg).
Proof.
  intros Hnil. split; [ | split; [ | split; [ | split ] ] ].
  - unfold InstanceConversion.convertLaunchConfigurationEBSVolumeType. by rewrite Hnil.
  - intros BDM Hebs. unfold InstanceConversion.convertOne,
      InstanceConversion.convertLaunchConfigurationEBSVolumeType.
    by rewrite Hebs, Hnil.
  - intros BDMs Hall.
    unfold InstanceConversion.convertLaunchConfigurationBlockDeviceMappings,
      InstanceConversion.convertBlockDeviceMappings.
    destruct (convertLoop_total_on_nil_types a BDMs Hall []) as [ r -> ]. simpl.
    destruct r; eauto.
  - unfold InstanceConversion.convertLaunchTemplateEBSVolumeType. rewrite Hnil. simpl. eauto.
  - unfold InstanceConversion.convertImageEBSVolumeType. rewrite Hnil. simpl. eauto.
Qed.

(** The statement of C10 at an encrypted 100 GiB volume without a type. *)
Lemma convertLaunchConfigurationEBSVolumeType_nil_type_witness :
  InstanceConversion.convertLaunchConfigurationEBSVolumeType
    (Sample.volume None (Some 100)) Sample.groupUsEast1 = Returns None
  ∧ InstanceConversion.convertLaunchConfigurationBlockDeviceMappings Sample.groupUsEast1
      [ mkBDM (Some "/dev/xvda") None (Some (Sample.volume None (Some 100))) None ]
    = Returns (Some [ mkBDMRequest (Some "/dev/xvda") None
                        (Some (mkEbsRequest (Some true) None None None (Some 100) None)) ])
  ∧ InstanceConversion.convertLaunchTemplateBlockDeviceMappings Sample.groupUsEast1
      [ mkBDM (Some "/dev/xvda") None (Some (Sample.volume None (Some 100))) None ]
    = Panics "invalid memory address or nil pointer dereference".
Proof.
  destruct (convertLaunchConfigurationEBSVolumeType_nil_type Sample.groupUsEast1
              (Sample.volume None (Some 100)) eq_refl) as (Hlc & _).
  split; [ exact Hlc | split; reflexivity ].
Defined.

(** ** Bid price *)

(** The configuration of scenario 3: aggressive bidding with a buffer of 10
    percent. *)
Lemma getPriceToBid_unfold (i : instance) (base spotPrice premium : float64) :
  InstanceConversion.getPriceToBid i base spotPrice premium
  = if String.eqb (BiddingPolicy (conf (instRegion i))) "normal" then base
    else math_Min base
           (PrimFloat.add
              (PrimFloat.mul (PrimFloat.sub spotPrice premium)
                 (PrimFloat.add 1.0%float
                    (PrimFloat.div (SpotPriceBufferPercentage (conf (instRegion i)))
                       100.0%float)))
              premium).
Proof. reflexivity. Qed.

(** C5, as the code has it. Under the default policy "normal" the bid is the
    on-demand ceiling; under the aggressive policy it is [math.Min] of the
    ceiling and [(spot - premium) * (1 + buffer / 100) + premium], every
    operation rounded to binary64. With ceiling 0.10, spot 0.05, premium 0.02
    and buffer 10 that bid is the binary64 number 0.053000000000000005, the
    successor of the one nearest to 0.053: it exceeds the literal 0.053 by
    less than 1e-17. *)
Theorem getPriceToBid_policies :
  (∀ (i : instance) (base spotPrice premium : float64),
     BiddingPolicy (conf (instRegion i)) = "normal" →
     InstanceConversion.getPriceToBid i base spotPrice premium = base)
  ∧ (∀ (i : instance) (base spotPrice premium : float64),
       BiddingPolicy (conf (instRegion i)) = "aggressive" →
       InstanceConversion.getPriceToBid i base spotPrice premium
       = math_Min base
           (PrimFloat.add
              (PrimFloat.mul (PrimFloat.sub spotPrice premium)
                 (PrimFloat.add 1.0%float
                    (PrimFloat.div (SpotPriceBufferPercentage (conf (instRegion i)))
                       100.0%float)))
              premium))
  ∧ InstanceConversion.getPriceToBid
      (Sample.onDemandInstance (Sample.regionWith "aggressive" 10%float ∅)
         Sample.groupUsEast1 [])
      0.10%float 0.05%float 0.02%float
    = 0.053000000000000005%float
  ∧ PrimFloat.next_up 0.053%float = 0.053000000000000005%float
  ∧ PrimFloat.ltb (PrimFloat.sub 0.053000000000000005%float 0.053%float) 1e-17%float = true.
Proof.
  split; [ | split; [ | split; [ | split ] ] ].
  - intros i base spotPrice premium Hpolicy. rewrite getPriceToBid_unfold, Hpolicy.
    reflexivity.
  - intros i base spotPrice premium Hpolicy. rewrite getPriceToBid_unfold, Hpolicy.
    reflexivity.
  - vm_compute. reflexivity.
  - vm_compute. reflexivity.
  - vm_compute. reflexivity.
Qed.

(** C5 as stated fails at its own example: the bid computed there is not the
    binary64 number 0.053 (Go's [==] on the two is false). *)
Lemma getPriceToBid_aggressive_example_differs_from_0_053 :
  PrimFloat.eqb
    (InstanceConversion.getPriceToBid
       (Sample.onDemandInstance (Sample.regionWith "aggressive" 10%float ∅)
          Sample.groupUsEast1 [])
       0.10%float 0.05%float 0.02%float)
    0.053%float
  = false.
Proof. vm_compute. reflexivity. Qed.

(** ** Tags of the launched instance *)

Lemma itemInSlice_spec (search : string) (items : list string) :
  InstanceConversion.itemInSlice search items = true ↔ search ∈ items.
Proof.
  unfold InstanceConversion.itemInSlice. rewrite existsb_exists. split.
  - intros (x & Hin & Heq). apply String.eqb_eq in Heq. subst x.
    by apply list_elem_of_In.
  - intros Hin. exists search. split; [ by apply list_elem_of_In | apply String.eqb_refl ].
Qed.

(** [filterTags] keeps, in order, the tags whose key neither starts with
    ["aws:"] nor is one of the six reserved keys. *)
Lemma filterTags_spec (tags : list Tag) :
  InstanceConversion.filterTags tags
  = filter (λ tag, String.prefix "aws:" (Key tag) = false
                   ∧ Key tag ∉ [ "launched-by-autospotting"; "launched-for-asg";
                                 "launched-for-replacing-instance"; "LaunchTemplateID";
                                 "LaunchTemplateVersion"; "LaunchConfigurationName" ]) tags.
Proof.
  induction tags as [ | tag rest IH ]; [ reflexivity | ].
  rewrite filter_cons, <- IH. cbn [InstanceConversion.filterTags].
  unfold strings_HasPrefix.
  pose proof (itemInSlice_spec (Key tag) InstanceConversion.tagsToSkip) as Hitem.
  unfold InstanceConversion.tagsToSkip in Hitem at 2.
  destruct (String.prefix "aws:" (Key tag)) eqn:Hp;
    destruct (InstanceConversion.itemInSlice (Key tag) InstanceConversion.tagsToSkip)
      eqn:Hs; cbn [negb andb]; case_decide as Hd; try reflexivity.
  - destruct Hd as [ ? _ ]. discriminate.
  - destruct Hd as [ ? _ ]. discriminate.
  - destruct Hd as [ _ Hnot ]. exfalso. apply Hnot. by apply Hitem.
  - exfalso. apply Hd. split; [ reflexivity | ]. intros Hin. apply Hitem in Hin.
    discriminate.
Qed.

(** The tag specification of [instance_conversion.go]: one specification of
    resource type [instance] with the three identifying tags, then the
    launch-template pair or the launch-configuration name, then the filtered
    tags of the instance. *)
Lemma generateTagsList_tag_closure (i : instance) :
  InstanceConversion.generateTagsList i
  = [ InstanceConversion.mkTagSpec (Some "instance")
        ([ mkTag "launched-by-autospotting" (Some "true");
           mkTag "launched-for-asg" (Some (name (asg i)));
           mkTag "launched-for-replacing-instance" (Some (InstanceId i)) ]
         ++ match LaunchTemplate (asg i), LaunchConfigurationName (asg i) with
            | Some lt, _ => [ mkTag "LaunchTemplateID" (LaunchTemplateId lt);
                              mkTag "LaunchTemplateVersion" (Version lt) ]
            | None, Some lcn => [ mkTag "LaunchConfigurationName" (Some lcn) ]
            | None, None => []
            end
         ++ filter (λ tag, String.prefix "aws:" (Key tag) = false
                           ∧ Key tag ∉ [ "launched-by-autospotting"; "launched-for-asg";
                                         "launched-for-replacing-instance";
                                         "LaunchTemplateID"; "LaunchTemplateVersion";
                                         "LaunchConfigurationName" ]) (Tags i)) ].
Proof.
  unfold InstanceConversion.generateTagsList. rewrite filterTags_spec.
  destruct (LaunchTemplate (asg i)) as [ lt | ]; [ reflexivity | ].
  destruct (LaunchConfigurationName (asg i)); reflexivity.
Qed.

(** C3 at an instance that itself carries a tag [LaunchConfigurationName]
    (a spot instance launched earlier by this program has one). The
    [generateTagsList] of [instance.go] compares the key with the misspelt
    ["LaunchConfiguationName"] and so copies the reserved tag, which then
    stands twice in the result; the [generateTagsList] of
    [instance_conversion.go] drops it. *)
Theorem generateTagsList_legacy_copies_reserved_key :
  let i :=
    Sample.onDemandInstance (Sample.regionWith "normal" 10%float ∅) Sample.groupUsEast1
      [ mkTag "aws:autoscaling:groupName" (Some "g1");
        mkTag "LaunchConfigurationName" (Some "lc-0");
        mkTag "Name" (Some "web") ] in
  map Instance.specTags (Instance.generateTagsList i)
  = [ [ mkTag "launched-by-autospotting" (Some "true");
        mkTag "launched-for-asg" (Some "g1");
        mkTag "launched-for-replacing-instance" (Some "i-aaa");
        mkTag "LaunchConfigurationName" (Some "lc-1");
        mkTag "LaunchConfigurationName" (Some "lc-0");
        mkTag "Name" (Some "web") ] ]
  ∧ map InstanceConversion.specTags (InstanceConversion.generateTagsList i)
    = [ [ mkTag "launched-by-autospotting" (Some "true");
          mkTag "launched-for-asg" (Some "g1");
          mkTag "launched-for-replacing-instance" (Some "i-aaa");
          mkTag "LaunchConfigurationName" (Some "lc-1");
          mkTag "Name" (Some "web") ] ].
Proof. split; reflexivity. Qed.

(** ** Termination notices *)

Lemma getAsgName_found (svc : SpotTermination.AutoScalingAPI)
  (instanceID asgName : string) (rest : list string) (log : list SpotTermination.request) :
  SpotTermination.as_DescribeAutoScalingInstances svc instanceID = (asgName :: rest, None) →
  SpotTermination.getAsgName svc instanceID log
  = ((asgName, None), log ++ [ SpotTermination.DescribeAutoScalingInstances instanceID ]).
Proof.
  intros Hd. unfold SpotTermination.getAsgName, Eff.bind, SpotTermination.ask, Eff.modify.
  by rewrite Hd.
Qed.

Lemma terminateInstance_sent (svc : SpotTermination.AutoScalingAPI)
  (instanceID asgName : string) (log : list SpotTermination.request) :
  (SpotTermination.terminateInstance svc instanceID asgName log).2
  = log ++ [ SpotTermination.TerminateInstanceInAutoScalingGroup instanceID false ].
Proof. reflexivity. Qed.

Lemma detachInstance_sent (code : string) (svc : SpotTermination.AutoScalingAPI)
  (ec2 : SpotTermination.EC2API) (mult : Z) (instanceID asgName eventType : string)
  (log : list SpotTermination.request) :
  (SpotTermination.detachInstance code svc ec2 mult instanceID asgName eventType log).2
  = log ++ SpotTermination.DetachInstances asgName instanceID false
           :: (if bool_decide (SpotTermination.as_DetachInstances svc asgName instanceID false
                               = None)
                  && negb (String.eqb eventType code)
               then [ SpotTermination.DeleteTags instanceID "launched-for-asg";
                      SpotTermination.Sleep 14 mult;
                      SpotTermination.TerminateInstances instanceID ]
               else []).
Proof.
  unfold SpotTermination.detachInstance, Eff.bind, SpotTermination.ask, Eff.modify.
  destruct (SpotTermination.as_DetachInstances svc asgName instanceID false) as [ e | ];
    simpl; [ reflexivity | ].
  destruct (String.eqb eventType code); simpl; [ reflexivity | ].
  by rewrite <- !app_assoc.
Qed.

Lemma chooseAction_sent_default (code : string) (svc : SpotTermination.AutoScalingAPI)
  (ec2 : SpotTermination.EC2API) (mult : Z) (instanceID asgName action eventType : string)
  (log : list SpotTermination.request) :
  action ≠ "detach" → action ≠ "terminate" →
  (SpotTermination.chooseAction code svc ec2 mult instanceID asgName action eventType log).2
  = if bool_decide ((SpotTermination.as_DescribeLifecycleHooks svc asgName).2 = None)
       && SpotTermination.hasTerminationHook
            (SpotTermination.as_DescribeLifecycleHooks svc asgName).1
    then (log ++ [ SpotTermination.DescribeLifecycleHooks asgName ])
         ++ [ SpotTermination.TerminateInstanceInAutoScalingGroup instanceID false ]
    else (log ++ [ SpotTermination.DescribeLifecycleHooks asgName ])
         ++ SpotTermination.DetachInstances asgName instanceID false
            :: (if bool_decide
                     (SpotTermination.as_DetachInstances svc asgName instanceID false = None)
                   && negb (String.eqb eventType code)
                then [ SpotTermination.DeleteTags instanceID "launched-for-asg";
                       SpotTermination.Sleep 14 mult;
                       SpotTermination.TerminateInstances instanceID ]
                else []).
Proof.
  intros Hd Ht. unfold SpotTermination.chooseAction.
  destruct (String.eqb_spec action "detach"); [ done | ].
  destruct (String.eqb_spec action "terminate"); [ done | ].
  unfold Eff.bind at 1. unfold SpotTermination.asgHasTerminationLifecycleHook.
  unfold Eff.bind at 1. unfold SpotTermination.ask, Eff.modify.
  unfold SpotTermination.hasTerminationHook.
  destruct (SpotTermination.as_DescribeLifecycleHooks svc asgName) as [ hooks [ e | ] ];
    cbn [fst snd bool_decide andb Eff.ret].
  - rewrite bool_decide_eq_false_2 by discriminate. cbn [andb].
    unfold Eff.bind.
    pose proof (detachInstance_sent code svc ec2 mult instanceID asgName eventType
                  (log ++ [ SpotTermination.DescribeLifecycleHooks asgName ])) as Hsent.
    destruct (SpotTermination.detachInstance _ _ _ _ _ _ _ _). exact Hsent.
  - rewrite bool_decide_eq_true_2 by reflexivity. cbn [andb].
    destruct (existsb _ hooks).
    + reflexivity.
    + unfold Eff.bind.
      pose proof (detachInstance_sent code svc ec2 mult instanceID asgName eventType
                    (log ++ [ SpotTermination.DescribeLifecycleHooks asgName ])) as Hsent.
      destruct (SpotTermination.detachInstance _ _ _ _ _ _ _ _). exact Hsent.
Qed.

Lemma executeAction_result (code : string) (s : SpotTermination.SpotTermination)
  (instanceID action eventType : string) (log : list SpotTermination.request) :
  (SpotTermination.executeAction code s instanceID action eventType log).1
  = match SpotTermination.asSvc s with
    | None => Some "AutoScaling service not defined. Please use NewSpotTermination()"
    | Some svc => (SpotTermination.as_DescribeAutoScalingInstances svc instanceID).2
    end.
Proof.
  unfold SpotTermination.executeAction.
  destruct (SpotTermination.asSvc s) as [ svc | ]; [ | reflexivity ].
  unfold Eff.bind at 1. unfold SpotTermination.getAsgName, SpotTermination.ask, Eff.modify.
  unfold Eff.bind at 1.
  destruct (SpotTermination.as_DescribeAutoScalingInstances svc instanceID)
    as [ groups [ e | ] ]; [ reflexivity | ].
  destruct groups as [ | g rest ]; cbn [Eff.ret snd]; [ reflexivity | ].
  destruct (String.eqb g ""); [ reflexivity | ].
  unfold Eff.bind.
  by destruct (SpotTermination.chooseAction _ _ _ _ _ _ _ _ _).
Qed.

(** C9. [executeAction] returns an error only when the AutoScaling handle is
    [nil] or when the lookup of the group name fails, and then it is the
    error of the lookup; whenever the lookup succeeds the result is [nil],
    whatever the detach, terminate, hook, tag and EC2 requests answer. *)
Theorem executeAction_error_sources (code : string) (s : SpotTermination.SpotTermination)
  (instanceID action eventType : string) (log : list SpotTermination.request) :
  (∀ err, (SpotTermination.executeAction code s instanceID action eventType log).1 = Some err →
     SpotTermination.asSvc s = None
     ∨ ∃ svc, SpotTermination.asSvc s = Some svc
              ∧ (SpotTermination.as_DescribeAutoScalingInstances svc instanceID).2 = Some err)
  ∧ (∀ svc groups,
       SpotTermination.asSvc s = Some svc →
       SpotTermination.as_DescribeAutoScalingInstances svc instanceID = (groups, None) →
       (SpotTermination.executeAction code s instanceID action eventType log).1 = None).
Proof.
  rewrite executeAction_result. split.
  - intros err Herr. destruct (SpotTermination.asSvc s) as [ svc | ]; [ right | by left ].
    by exists svc.
  - intros svc groups -> Hd. by rewrite Hd.
Qed.

Lemma executeAction_sent_in_group (code : string) (s : SpotTermination.SpotTermination)
  (svc : SpotTermination.AutoScalingAPI) (instanceID asgName action eventType : string)
  (rest : list string) (log : list SpotTermination.request) :
  SpotTermination.asSvc s = Some svc →
  SpotTermination.as_DescribeAutoScalingInstances svc instanceID = (asgName :: rest, None) →
  asgName ≠ "" →
  (SpotTermination.executeAction code s instanceID action eventType log).2
  = (SpotTermination.chooseAction code svc (SpotTermination.ec2Svc s)
       (SpotTermination.SleepMultiplier s) instanceID asgName action eventType
       (log ++ [ SpotTermination.DescribeAutoScalingInstances instanceID ])).2.
Proof.
  intros Hsvc Hd Hname. unfold SpotTermination.executeAction. rewrite Hsvc.
  unfold Eff.bind at 1. rewrite (getAsgName_found _ _ _ _ _ Hd).
  destruct (String.eqb_spec asgName ""); [ done | ].
  unfold Eff.bind.
  by destruct (SpotTermination.chooseAction _ _ _ _ _ _ _ _ _).
Qed.

(** C8, as the code has it. For an instance that belongs to a group, under
    the default action "auto": the instance is terminated through
    [TerminateInstanceInAutoScalingGroup] without decrement exactly when
    [DescribeLifecycleHooks] succeeds and reports a hook with the transition
    [autoscaling:EC2_INSTANCE_TERMINATING]; in every other case, a failed
    lookup included, it is detached. On the detach path a rebalance
    recommendation sends [DetachInstances] and nothing after it; any other
    event whose detach succeeds continues with the deletion of the tag
    [launched-for-asg], the pause of 14 minutes and [TerminateInstances]. *)
Theorem executeAction_auto_action (code : string) (s : SpotTermination.SpotTermination)
  (svc : SpotTermination.AutoScalingAPI) (instanceID asgName eventType : string)
  (rest : list string) :
  SpotTermination.asSvc s = Some svc →
  SpotTermination.as_DescribeAutoScalingInstances svc instanceID = (asgName :: rest, None) →
  asgName ≠ "" →
  let sent :=
    (SpotTermination.executeAction code s instanceID
       SpotTermination.DefaultTerminationNotificationAction eventType []).2 in
  let hookFound :=
    (SpotTermination.as_DescribeLifecycleHooks svc asgName).2 = None
    ∧ SpotTermination.hasTerminationHook
        (SpotTermination.as_DescribeLifecycleHooks svc asgName).1 = true in
  let lookups :=
    [ SpotTermination.DescribeAutoScalingInstances instanceID;
      SpotTermination.DescribeLifecycleHooks asgName ] in
  (hookFound →
     sent = lookups ++ [ SpotTermination.TerminateInstanceInAutoScalingGroup instanceID false ])
  ∧ (¬ hookFound → eventType = code →
     sent = lookups ++ [ SpotTermination.DetachInstances asgName instanceID false ])
  ∧ (¬ hookFound → eventType ≠ code →
     sent = lookups ++ SpotTermination.DetachInstances asgName instanceID false
            :: (if bool_decide
                     (SpotTermination.as_DetachInstances svc asgName instanceID false = None)
                then [ SpotTermination.DeleteTags instanceID "launched-for-asg";
                       SpotTermination.Sleep 14 (SpotTermination.SleepMultiplier s);
                       SpotTermination.TerminateInstances instanceID ]
                else []))
  ∧ (SpotTermination.TerminateInstanceInAutoScalingGroup instanceID false ∈ sent ↔ hookFound)
  ∧ (SpotTermination.DetachInstances asgName instanceID false ∈ sent ↔ ¬ hookFound).
Proof.
  intros Hsvc Hd Hname sent hookFound lookups. subst sent.
  rewrite (executeAction_sent_in_group _ _ _ _ _ _ _ _ _ Hsvc Hd Hname).
  rewrite chooseAction_sent_default by discriminate.
  subst hookFound lookups. cbn [app].
  destruct (SpotTermination.as_DescribeLifecycleHooks svc asgName) as [ hooks lookupErr ].
  cbn [fst snd].
  destruct (bool_decide (lookupErr = None)) eqn:Herr; cbn [andb].
  - apply bool_decide_eq_true_1 in Herr.
    destruct (SpotTermination.hasTerminationHook hooks) eqn:Hhook.
    + split; [ done | ]. split; [ intros Hn; exfalso; by apply Hn | ].
      split; [ intros Hn; exfalso; by apply Hn | ].
      split; [ split; [ done | set_solver ] | ].
      split; [ set_solver | intros Hn; exfalso; by apply Hn ].
    + assert (Hno : ¬ (lookupErr = None ∧ false = true)) by (intros [ _ ? ]; discriminate).
      split; [ intros [ _ ? ]; discriminate | ].
      split.
      { intros _ ->. rewrite String.eqb_refl, andb_false_r. reflexivity. }
      split.
      { intros _ Hne. apply String.eqb_neq in Hne. rewrite Hne, andb_true_r. reflexivity. }
      split; [ | split; [ done | intros _; set_solver ] ].
      split; [ | intros [ _ ? ]; discriminate ].
      destruct (_ && _); set_solver.
  - apply bool_decide_eq_false_1 in Herr.
    assert (Hno : ¬ (lookupErr = None ∧ SpotTermination.hasTerminationHook hooks = true))
      by (intros [ ? _ ]; done).
    split; [ intros [ ? _ ]; done | ].
    split.
    { intros _ ->. rewrite String.eqb_refl, andb_false_r. reflexivity. }
    split.
    { intros _ Hne. apply String.eqb_neq in Hne. rewrite Hne, andb_true_r. reflexivity. }
    split; [ | split; [ done | intros _; set_solver ] ].
    split; [ | intros [ ? _ ]; done ].
    destruct (_ && _); set_solver.
Qed.

(** C8 at two clouds whose requests all succeed. An interruption of an
    instance whose group has the termination hook: the instance is terminated
    through the group. A rebalance recommendation for an instance whose group
    has no hook (scenario 6): [DetachInstances] only. *)
Lemma executeAction_auto_action_witness :
  (SpotTermination.executeAction Sample.rebalanceCode
     (Sample.responderOf (Sample.cloudWith [ Sample.terminatingHook ] Sample.nothingFails))
     "i-spot" SpotTermination.DefaultTerminationNotificationAction
     Sample.interruptionCode []).2
  = [ SpotTermination.DescribeAutoScalingInstances "i-spot";
      SpotTermination.DescribeLifecycleHooks "g1";
      SpotTermination.TerminateInstanceInAutoScalingGroup "i-spot" false ]
  ∧ (SpotTermination.executeAction Sample.rebalanceCode
       (Sample.responderOf (Sample.cloudWith [] Sample.nothingFails))
       "i-spot" SpotTermination.DefaultTerminationNotificationAction
       Sample.rebalanceCode []).2
    = [ SpotTermination.DescribeAutoScalingInstances "i-spot";
        SpotTermination.DescribeLifecycleHooks "g1";
        SpotTermination.DetachInstances "g1" "i-spot" false ].
Proof.
  split.
  - destruct (executeAction_auto_action Sample.rebalanceCode
                (Sample.responderOf
                   (Sample.cloudWith [ Sample.terminatingHook ] Sample.nothingFails))
                (SpotTermination.serviceOf
                   (Sample.cloudWith [ Sample.terminatingHook ] Sample.nothingFails))
                "i-spot" "g1" Sample.interruptionCode [] eq_refl eq_refl)
      as (Hterminate & _).
    + discriminate.
    + apply Hterminate. split; reflexivity.
  - destruct (executeAction_auto_action Sample.rebalanceCode
                (Sample.responderOf (Sample.cloudWith [] Sample.nothingFails))
                (SpotTermination.serviceOf (Sample.cloudWith [] Sample.nothingFails))
                "i-spot" "g1" Sample.rebalanceCode [] eq_refl eq_refl)
      as (_ & Hdetach & _).
    + discriminate.
    + apply Hdetach; [ | reflexivity ]. intros [ _ ? ]. discriminate.
Defined.

(** C8 as stated fails when the lookup of the hooks fails: the group has a
    hook with the transition, and the interrupted instance is detached (and
    later terminated directly), not terminated through the group. *)
Lemma executeAction_auto_detaches_when_hook_lookup_fails :
  SpotTermination.hasTerminationHook
    (SpotTermination.hooksOf
       (Sample.cloudWith [ Sample.terminatingHook ] Sample.hookLookupFails) "g1") = true
  ∧ (SpotTermination.executeAction Sample.rebalanceCode
       (Sample.responderOf
          (Sample.cloudWith [ Sample.terminatingHook ] Sample.hookLookupFails))
       "i-spot" SpotTermination.DefaultTerminationNotificationAction
       Sample.interruptionCode []).2
    = [ SpotTermination.DescribeAutoScalingInstances "i-spot";
        SpotTermination.DescribeLifecycleHooks "g1";
        SpotTermination.DetachInstances "g1" "i-spot" false;
        SpotTermination.DeleteTags "i-spot" "launched-for-asg";
        SpotTermination.Sleep 14 1;
        SpotTermination.TerminateInstances "i-spot" ].
Proof. split; reflexivity. Qed.

(** ** The swap *)

Lemma maxSizesSet_app (l1 l2 : list InstanceActions.call) :
  InstanceActions.maxSizesSet (l1 ++ l2)
  = InstanceActions.maxSizesSet l1 ++ InstanceActions.maxSizesSet l2.
Proof. apply omap_app. Qed.

Section SwapProperties.

Context {G : Type} {gv : InstanceActions.GroupView G}.
Variable scanInstance : string → gmap string instance → option error * gmap string instance.
Variable shouldBeReplacedWithSpot : instance → bool.
Variable ec2_TerminateInstances : string → option error.

Lemma terminate_frame (i : instance) (w : InstanceActions.world G) :
  (InstanceActions.terminate ec2_TerminateInstances i w).2
  = InstanceActions.mkWorld (InstanceActions.group w) (InstanceActions.instances w)
      (InstanceActions.calls w
       ++ if Instance.canTerminate i then [ InstanceActions.TerminateInstances (InstanceId i) ]
          else []).
Proof.
  unfold InstanceActions.terminate.
  destruct (Instance.canTerminate i); simpl.
  - reflexivity.
  - rewrite app_nil_r. by destruct w.
Qed.

(** What [getSwapCandidate] does, path by path. *)
Lemma getSwapCandidate_paths (i : instance) (w : InstanceActions.world G) :
  InstanceActions.getSwapCandidate scanInstance shouldBeReplacedWithSpot
    ec2_TerminateInstances i w
  = match Instance.getReplacementTargetInstanceID i with
    | None => (inl ("couldn't find target instance for " +:+ InstanceId i), w)
    | Some odInstanceID =>
        let '(err, idx) := scanInstance odInstanceID (InstanceActions.instances w) in
        let w1 := InstanceActions.mkWorld (InstanceActions.group w) idx
                    (InstanceActions.calls w) in
        match err with
        | Some _ =>
            (inl ("target instance " +:+ odInstanceID +:+ " couldn't be described"), w1)
        | None =>
            match idx !! odInstanceID with
            | None => (inl ("target instance " +:+ odInstanceID +:+ " is missing"), w1)
            | Some odInstance =>
                if shouldBeReplacedWithSpot odInstance then (inr odInstance, w1)
                else
                  (inl ("target instance " +:+ odInstanceID
                        +:+ " should not be replaced with spot"),
                   InstanceActions.mkWorld (InstanceActions.group w) idx
                     (InstanceActions.calls w
                      ++ if Instance.canTerminate i
                         then [ InstanceActions.TerminateInstances (InstanceId i) ]
                         else []))
            end
        end
    end.
Proof.
  unfold InstanceActions.getSwapCandidate.
  destruct (Instance.getReplacementTargetInstanceID i) as [ odInstanceID | ];
    [ | reflexivity ].
  unfold Eff.bind at 1. unfold InstanceActions.region_scanInstance.
  destruct (scanInstance odInstanceID (InstanceActions.instances w)) as [ [ e | ] idx ];
    [ reflexivity | ].
  unfold Eff.bind at 1. cbn [Eff.get InstanceActions.instances].
  destruct (idx !! odInstanceID) as [ odInstance | ]; [ | reflexivity ].
  destruct (shouldBeReplacedWithSpot odInstance); cbn [negb]; [ reflexivity | ].
  unfold Eff.bind.
  pose proof (terminate_frame i (InstanceActions.mkWorld (InstanceActions.group w) idx
                                   (InstanceActions.calls w))) as Hterm.
  destruct (InstanceActions.terminate _ _ _) as [ r w' ]. simpl in Hterm. by subst w'.
Qed.

Lemma getSwapCandidate_found (i odInstance : instance) (w w1 : InstanceActions.world G) :
  InstanceActions.getSwapCandidate scanInstance shouldBeReplacedWithSpot
    ec2_TerminateInstances i w = (inr odInstance, w1) →
  InstanceActions.group w1 = InstanceActions.group w
  ∧ InstanceActions.calls w1 = InstanceActions.calls w.
Proof.
  rewrite getSwapCandidate_paths.
  destruct (Instance.getReplacementTargetInstanceID i) as [ odInstanceID | ];
    [ | discriminate ].
  destruct (scanInstance odInstanceID (InstanceActions.instances w)) as [ [ e | ] idx ];
    [ discriminate | ].
  destruct (idx !! odInstanceID) as [ od | ]; [ | discriminate ].
  destruct (shouldBeReplacedWithSpot od); [ | discriminate ].
  by intros [= _ <-].
Qed.

Context (laws : InstanceActions.GroupViewSpec gv).

(** The attach and terminate steps leave the upper bound and the processes
    alone, set no size, and end in one of three ways. *)
Lemma attachAndTerminate_frame (i odInstance : instance) (w w' : InstanceActions.world G)
  (r : error + instance) :
  InstanceActions.attachAndTerminate ec2_TerminateInstances i odInstance w = (r, w') →
  InstanceActions.MaxSize (InstanceActions.group w')
  = InstanceActions.MaxSize (InstanceActions.group w)
  ∧ InstanceActions.processesSuspended (InstanceActions.group w')
    = InstanceActions.processesSuspended (InstanceActions.group w)
  ∧ (∃ cs, InstanceActions.calls w' = InstanceActions.calls w ++ cs
           ∧ InstanceActions.maxSizesSet cs = []
           ∧ InstanceActions.ResumeProcesses ∉ cs)
  ∧ (r = inr odInstance
     ∨ r = inl ("couldn't attach spot instance " +:+ InstanceId i +:+ " ")
     ∨ r = inl ("couldn't terminate on-demand instance " +:+ InstanceId odInstance)).
Proof.
  unfold InstanceActions.attachAndTerminate, InstanceActions.asg_attachSpotInstance,
    InstanceActions.asg_terminateInstanceInAutoScalingGroup, InstanceActions.onGroup,
    Eff.bind, Eff.ret.
  pose proof (InstanceActions.attach_MaxSize gv laws (InstanceId i) true
                (InstanceActions.group w)) as HaM.
  pose proof (InstanceActions.attach_suspended gv laws (InstanceId i) true
                (InstanceActions.group w)) as HaS.
  destruct (InstanceActions.attachSpotInstance (InstanceId i) true (InstanceActions.group w))
    as [ [ e | ] g1 ]; cbn [snd] in HaM, HaS.
  - pose proof (terminate_frame i
                  (InstanceActions.mkWorld g1 (InstanceActions.instances w)
                     (InstanceActions.calls w
                      ++ [ InstanceActions.AttachSpotInstance (InstanceId i) true ])))
      as Hterm.
    destruct (InstanceActions.terminate _ _ _) as [ r0 w0 ]. cbn [snd] in Hterm. subst w0.
    intros [= <- <-]. cbn [InstanceActions.group InstanceActions.calls].
    split; [ done | ]. split; [ done | ]. split; [ | by right; left ].
    eexists. rewrite <- app_assoc. split; [ reflexivity | ].
    destruct (Instance.canTerminate i); split; try reflexivity; set_solver.
  - cbn [InstanceActions.group InstanceActions.calls InstanceActions.instances].
    pose proof (InstanceActions.terminate_MaxSize gv laws (InstanceId odInstance) true true
                  g1) as HtM.
    pose proof (InstanceActions.terminate_suspended gv laws (InstanceId odInstance) true
                  true g1) as HtS.
    destruct (InstanceActions.terminateInstanceInAutoScalingGroup (InstanceId odInstance)
                true true g1) as [ [ e | ] g2 ]; cbn [snd] in HtM, HtS;
      intros [= <- <-]; cbn [InstanceActions.group InstanceActions.calls].
    + split; [ congruence | ]. split; [ congruence | ]. split; [ | by right; right ].
      eexists. rewrite <- app_assoc. split; [ reflexivity | ]. split; [ reflexivity | ].
      set_solver.
    + split; [ congruence | ]. split; [ congruence | ]. split; [ | by left ].
      eexists. rewrite <- app_assoc. split; [ reflexivity | ]. split; [ reflexivity | ].
      set_solver.
Qed.

Lemma swapWithGroupMember_exit (i odInstance : instance)
  (w w1 w' : InstanceActions.world G) (r : error + instance) :
  InstanceActions.getSwapCandidate scanInstance shouldBeReplacedWithSpot
    ec2_TerminateInstances i w = (inr odInstance, w1) →
  int64_min ≤ InstanceActions.MaxSize (InstanceActions.group w) < int64_max →
  InstanceActions.swapWithGroupMember scanInstance shouldBeReplacedWithSpot
    ec2_TerminateInstances i w = (r, w') →
  InstanceActions.processesSuspended (InstanceActions.group w') = false
  ∧ InstanceActions.MaxSize (InstanceActions.group w')
    = InstanceActions.MaxSize (InstanceActions.group w)
  ∧ (∃ cs, InstanceActions.calls w'
           = InstanceActions.calls w
             ++ InstanceActions.SuspendProcesses :: cs ++ [ InstanceActions.ResumeProcesses ]
           ∧ (InstanceActions.ResumeProcesses ∉ cs)
           ∧ InstanceActions.maxSizesSet cs
             = if InstanceActions.DesiredCapacity (InstanceActions.group w)
                  =? InstanceActions.MaxSize (InstanceActions.group w)
               then [ InstanceActions.MaxSize (InstanceActions.group w) + 1;
                      InstanceActions.MaxSize (InstanceActions.group w) ]
               else [])
  ∧ (r = inr odInstance
     ∨ r = inl ("couldn't attach spot instance " +:+ InstanceId i +:+ " ")
     ∨ r = inl ("couldn't terminate on-demand instance " +:+ InstanceId odInstance)).
Proof.
  intros Hcandidate Hrange.
  destruct (getSwapCandidate_found _ _ _ _ Hcandidate) as [ Hg Hc ].
  unfold InstanceActions.swapWithGroupMember. unfold Eff.bind at 1.
  rewrite Hcandidate.
  unfold Eff.defer, InstanceActions.asg_suspendProcesses,
    InstanceActions.asg_resumeProcesses, InstanceActions.asg_setAutoScalingMaxSize,
    InstanceActions.onGroup, Eff.bind, Eff.ret, Eff.get.
  cbn [InstanceActions.group InstanceActions.calls InstanceActions.instances].
  rewrite (InstanceActions.suspend_DesiredCapacity gv laws),
    (InstanceActions.suspend_MaxSize gv laws), Hg, Hc.
  set (maxSize := InstanceActions.MaxSize (InstanceActions.group w)) in *.
  set (desiredCapacity := InstanceActions.DesiredCapacity (InstanceActions.group w)).
  assert (Hadd : int64_add maxSize 1 = maxSize + 1).
  { unfold int64_add, wrap64. unfold int64_min, int64_max in Hrange.
    rewrite Z.mod_small by lia. lia. }
  destruct (desiredCapacity =? maxSize).
  - rewrite Hadd.
    destruct (InstanceActions.attachAndTerminate _ _ _ _) as [ r2 w2 ] eqn:Hbody.
    apply attachAndTerminate_frame in Hbody as (HM & HS & (cs & Hcs & Hset & Hres) & Hr).
    cbn [InstanceActions.group InstanceActions.calls] in HM, HS, Hcs.
    intros [= <- <-]. cbn [InstanceActions.group InstanceActions.calls].
    split; [ apply (InstanceActions.resume_suspended gv laws) | ].
    split.
    { rewrite (InstanceActions.resume_MaxSize gv laws).
      apply (InstanceActions.setMax_MaxSize gv laws). }
    split; [ | exact Hr ].
    exists (InstanceActions.SetAutoScalingMaxSize (maxSize + 1)
            :: cs ++ [ InstanceActions.SetAutoScalingMaxSize maxSize ]).
    rewrite Hcs. split; [ cbn [app]; by rewrite <- !app_assoc | ]. split.
    + set_solver.
    + change (InstanceActions.SetAutoScalingMaxSize (maxSize + 1)
              :: cs ++ [ InstanceActions.SetAutoScalingMaxSize maxSize ])
        with ([ InstanceActions.SetAutoScalingMaxSize (maxSize + 1) ]
              ++ cs ++ [ InstanceActions.SetAutoScalingMaxSize maxSize ]).
      rewrite !maxSizesSet_app, Hset. reflexivity.
  - destruct (InstanceActions.attachAndTerminate _ _ _ _) as [ r2 w2 ] eqn:Hbody.
    apply attachAndTerminate_frame in Hbody as (HM & HS & (cs & Hcs & Hset & Hres) & Hr).
    cbn [InstanceActions.group InstanceActions.calls] in HM, HS, Hcs.
    intros [= <- <-]. cbn [InstanceActions.group InstanceActions.calls].
    split; [ apply (InstanceActions.resume_suspended gv laws) | ].
    split.
    { rewrite (InstanceActions.resume_MaxSize gv laws), HM.
      apply (InstanceActions.suspend_MaxSize gv laws). }
    split; [ | exact Hr ].
    exists cs. rewrite Hcs. split; [ cbn [app]; by rewrite <- !app_assoc | ]. done.
Qed.

(** C1. Every invocation of [swapWithGroupMember] that reaches the suspension
    of the processes (that is, [getSwapCandidate] has found the target) ends,
    on each of its three exits (the swap done, the attach refused, the
    termination of the on-demand instance refused), with the processes
    resumed and [MaxSize] at its value before the swap. The requests of the
    swap start with the suspension and end with the one resumption; between
    them the bound is set to [MaxSize + 1] and back to [MaxSize] when
    [DesiredCapacity = MaxSize] at the start, and is not set at all
    otherwise. The group's methods are any that meet [GroupViewSpec], and the
    bound is an [int64] below the largest one, so that the increment does not
    wrap around. *)
Theorem swapWithGroupMember_restores_group (i odInstance : instance)
  (w w1 : InstanceActions.world G) :
  InstanceActions.getSwapCandidate scanInstance shouldBeReplacedWithSpot
    ec2_TerminateInstances i w = (inr odInstance, w1) →
  int64_min ≤ InstanceActions.MaxSize (InstanceActions.group w) < int64_max →
  let r := (InstanceActions.swapWithGroupMember scanInstance shouldBeReplacedWithSpot
              ec2_TerminateInstances i w).1 in
  let w' := (InstanceActions.swapWithGroupMember scanInstance shouldBeReplacedWithSpot
               ec2_TerminateInstances i w).2 in
  let maxSize := InstanceActions.MaxSize (InstanceActions.group w) in
  let desiredCapacity := InstanceActions.DesiredCapacity (InstanceActions.group w) in
  InstanceActions.processesSuspended (InstanceActions.group w') = false
  ∧ InstanceActions.MaxSize (InstanceActions.group w') = maxSize
  ∧ (∃ cs, InstanceActions.calls w'
           = InstanceActions.calls w
             ++ InstanceActions.SuspendProcesses :: cs ++ [ InstanceActions.ResumeProcesses ]
           ∧ (InstanceActions.ResumeProcesses ∉ cs)
           ∧ InstanceActions.maxSizesSet cs
             = if desiredCapacity =? maxSize then [ maxSize + 1; maxSize ] else [])
  ∧ (r = inr odInstance
     ∨ r = inl ("couldn't attach spot instance " +:+ InstanceId i +:+ " ")
     ∨ r = inl ("couldn't terminate on-demand instance " +:+ InstanceId odInstance)).
Proof.
  intros Hcandidate Hrange r w' maxSize desiredCapacity. subst r w' maxSize desiredCapacity.
  destruct (InstanceActions.swapWithGroupMember _ _ _ i w) as [ r w' ] eqn:Hswap.
  exact (swapWithGroupMember_exit _ _ _ _ _ _ Hcandidate Hrange Hswap).
Qed.

Lemma swapWithGroupMember_without_candidate (i : instance)
  (w w1 : InstanceActions.world G) (err : error) :
  InstanceActions.getSwapCandidate scanInstance shouldBeReplacedWithSpot
    ec2_TerminateInstances i w = (inl err, w1) →
  InstanceActions.swapWithGroupMember scanInstance shouldBeReplacedWithSpot
    ec2_TerminateInstances i w = (inl err, w1).
Proof.
  intros Hcandidate. unfold InstanceActions.swapWithGroupMember. unfold Eff.bind at 1.
  by rewrite Hcandidate.
Qed.

(** C4, as the code has it. With the target named by the tag
    [launched-for-replacing-instance]: when the target cannot be described,
    or is described without an error and is absent from the region's index,
    [swapWithGroupMember] returns an error and sends nothing, so the spot
    instance is not terminated; when the target is found and
    [shouldBeReplacedWithSpot] answers false, it returns an error after
    [terminate] on the spot instance, which sends [TerminateInstances] unless
    the instance is already terminated or shutting down. The group is
    untouched in all three cases. *)
Theorem swapWithGroupMember_target_checks (i : instance) (w : InstanceActions.world G)
  (odInstanceID : string) (idx : gmap string instance) (scanErr : option error) :
  Instance.getReplacementTargetInstanceID i = Some odInstanceID →
  scanInstance odInstanceID (InstanceActions.instances w) = (scanErr, idx) →
  let swap :=
    InstanceActions.swapWithGroupMember scanInstance shouldBeReplacedWithSpot
      ec2_TerminateInstances i w in
  let untouched :=
    InstanceActions.mkWorld (InstanceActions.group w) idx (InstanceActions.calls w) in
  (scanErr ≠ None →
     swap = (inl ("target instance " +:+ odInstanceID +:+ " couldn't be described"),
             untouched))
  ∧ (scanErr = None → idx !! odInstanceID = None →
     swap = (inl ("target instance " +:+ odInstanceID +:+ " is missing"), untouched))
  ∧ (∀ odInstance,
       scanErr = None → idx !! odInstanceID = Some odInstance →
       shouldBeReplacedWithSpot odInstance = false →
       swap = (inl ("target instance " +:+ odInstanceID
                    +:+ " should not be replaced with spot"),
               InstanceActions.mkWorld (InstanceActions.group w) idx
                 (InstanceActions.calls w
                  ++ if Instance.canTerminate i
                     then [ InstanceActions.TerminateInstances (InstanceId i) ]
                     else []))).
Proof.
  intros Htag Hscan swap untouched. subst swap untouched.
  pose proof (getSwapCandidate_paths i w) as Hpaths. rewrite Htag, Hscan in Hpaths.
  split; [ | split ].
  - intros Herr. apply swapWithGroupMember_without_candidate.
    by destruct scanErr.
  - intros -> Hmissing. apply swapWithGroupMember_without_candidate.
    by rewrite Hmissing in Hpaths.
  - intros odInstance -> Hfound Hno. apply swapWithGroupMember_without_candidate.
    by rewrite Hfound, Hno in Hpaths.
Qed.

End SwapProperties.

Lemma simpleGroupView_spec : InstanceActions.GroupViewSpec Sample.simpleGroupView.
Proof.
  split; try reflexivity.
  - intros id wait g. simpl. by destruct (Sample.sgAttachFails g).
  - intros id wait g. simpl. by destruct (Sample.sgAttachFails g).
  - intros id wait decrease g. simpl. by destruct (Sample.sgTerminateFails g).
  - intros id wait decrease g. simpl. by destruct (Sample.sgTerminateFails g).
Qed.

(** C1 at scenario 2 of the specification, [Desired = Max = 2]: the bound is
    3 during the swap and 2 after it, on the successful exit and on the two
    failing ones. *)
Lemma swapWithGroupMember_restores_group_witness :
  let swap := λ attachFails terminateFails,
    InstanceActions.swapWithGroupMember
      (Sample.describeFinds Sample.targetIndex) (λ _, true) (λ _, None)
      Sample.spotInstance (Sample.swapWorld 2 2 attachFails terminateFails) in
  (Sample.sgSuspended (InstanceActions.group (swap false false).2) = false
   ∧ Sample.sgMaxSize (InstanceActions.group (swap false false).2) = 2
   ∧ InstanceActions.calls (swap false false).2
     = [ InstanceActions.SuspendProcesses;
         InstanceActions.SetAutoScalingMaxSize 3;
         InstanceActions.AttachSpotInstance "i-spot" true;
         InstanceActions.TerminateInstanceInAutoScalingGroup "i-aaa" true true;
         InstanceActions.SetAutoScalingMaxSize 2;
         InstanceActions.ResumeProcesses ])
  ∧ (Sample.sgSuspended (InstanceActions.group (swap true false).2) = false
     ∧ Sample.sgMaxSize (InstanceActions.group (swap true false).2) = 2
     ∧ InstanceActions.calls (swap true false).2
       = [ InstanceActions.SuspendProcesses;
           InstanceActions.SetAutoScalingMaxSize 3;
           InstanceActions.AttachSpotInstance "i-spot" true;
           InstanceActions.TerminateInstances "i-spot";
           InstanceActions.SetAutoScalingMaxSize 2;
           InstanceActions.ResumeProcesses ])
  ∧ (Sample.sgSuspended (InstanceActions.group (swap false true).2) = false
     ∧ Sample.sgMaxSize (InstanceActions.group (swap false true).2) = 2
     ∧ (swap false true).1 = inl "couldn't terminate on-demand instance i-aaa").
Proof.
  intros swap. subst swap. cbv beta.
  assert (Hrange : int64_min ≤ 2 < int64_max) by (unfold int64_min, int64_max; lia).
  split; [ | split ].
  - destruct (@swapWithGroupMember_restores_group Sample.simpleGroup Sample.simpleGroupView
                (Sample.describeFinds Sample.targetIndex)
                (λ _, true) (λ _, None) simpleGroupView_spec
                Sample.spotInstance Sample.targetInstance
                (Sample.swapWorld 2 2 false false)
                (InstanceActions.mkWorld
                   (InstanceActions.group (Sample.swapWorld 2 2 false false))
                   Sample.targetIndex [])
                ltac:(vm_compute; reflexivity) Hrange)
      as (Hresumed & Hmax & _).
    split; [ exact Hresumed | split; [ exact Hmax | reflexivity ] ].
  - destruct (@swapWithGroupMember_restores_group Sample.simpleGroup Sample.simpleGroupView
                (Sample.describeFinds Sample.targetIndex)
                (λ _, true) (λ _, None) simpleGroupView_spec
                Sample.spotInstance Sample.targetInstance
                (Sample.swapWorld 2 2 true false)
                (InstanceActions.mkWorld
                   (InstanceActions.group (Sample.swapWorld 2 2 true false))
                   Sample.targetIndex [])
                ltac:(vm_compute; reflexivity) Hrange)
      as (Hresumed & Hmax & _).
    split; [ exact Hresumed | split; [ exact Hmax | reflexivity ] ].
  - destruct (@swapWithGroupMember_restores_group Sample.simpleGroup Sample.simpleGroupView
                (Sample.describeFinds Sample.targetIndex)
                (λ _, true) (λ _, None) simpleGroupView_spec
                Sample.spotInstance Sample.targetInstance
                (Sample.swapWorld 2 2 false true)
                (InstanceActions.mkWorld
                   (InstanceActions.group (Sample.swapWorld 2 2 false true))
                   Sample.targetIndex [])
                ltac:(vm_compute; reflexivity) Hrange)
      as (Hresumed & Hmax & _).
    split; [ exact Hresumed | split; [ exact Hmax | reflexivity ] ].
Defined.

(** C4 at a target that is found and must not be replaced: the spot instance
    is asked to terminate and the swap fails. *)
Lemma swapWithGroupMember_target_checks_witness :
  InstanceActions.swapWithGroupMember
    (Sample.describeFinds Sample.targetIndex) (λ _, false) (λ _, None)
    Sample.spotInstance (Sample.swapWorld 3 2 false false)
  = (inl "target instance i-aaa should not be replaced with spot",
     InstanceActions.mkWorld (InstanceActions.group (Sample.swapWorld 3 2 false false))
       Sample.targetIndex
       [ InstanceActions.TerminateInstances "i-spot" ]).
Proof.
  destruct (@swapWithGroupMember_target_checks Sample.simpleGroup Sample.simpleGroupView
              (Sample.describeFinds Sample.targetIndex)
              (λ _, false) (λ _, None) Sample.spotInstance
              (Sample.swapWorld 3 2 false false) "i-aaa"
              Sample.targetIndex None eq_refl eq_refl)
    as (_ & _ & Hno).
  exact (Hno Sample.targetInstance eq_refl eq_refl eq_refl).
Defined.

(** C4 as stated fails when the target no longer exists: the describe call
    finds nothing, the swap returns an error and the world is as before, no
    request to terminate the spot instance having been sent. *)
Lemma swapWithGroupMember_missing_target_keeps_spot :
  InstanceActions.swapWithGroupMember (Sample.describeFinds ∅) (λ _, true) (λ _, None)
    Sample.spotInstance (Sample.swapWorld 3 2 false false)
  = (inl "target instance i-aaa is missing", Sample.swapWorld 3 2 false false).
Proof. reflexivity. Qed.

(** ** Order of binary64 numbers *)

Ltac key_compare_cases :=
  unfold FloatOrder.key_compare; cbn [fst snd];
  repeat match goal with
         | |- context [ ?a ?= ?b ] => destruct (Z.compare_spec a b)
         end;
  try congruence; try lia.

Lemma key_compare_asym (a b : Z * Z * Z) :
  FloatOrder.key_compare a b = Lt → FloatOrder.key_compare b a = Gt.
Proof. destruct a as [ [ a1 a2 ] a3 ], b as [ [ b1 b2 ] b3 ]. key_compare_cases. Qed.

Lemma key_compare_total (a b : Z * Z * Z) :
  FloatOrder.key_compare b a ≠ Lt → FloatOrder.key_compare a b ≠ Gt.
Proof. destruct a as [ [ a1 a2 ] a3 ], b as [ [ b1 b2 ] b3 ]. key_compare_cases. Qed.

Lemma key_compare_negtrans (a b c : Z * Z * Z) :
  FloatOrder.key_compare b a ≠ Lt → FloatOrder.key_compare c b ≠ Lt →
  FloatOrder.key_compare c a ≠ Lt.
Proof.
  destruct a as [ [ a1 a2 ] a3 ], b as [ [ b1 b2 ] b3 ], c as [ [ c1 c2 ] c3 ].
  key_compare_cases.
Qed.

Lemma SFcompare_key (x y : SpecFloat.spec_float) :
  FloatOrder.is_nan x = false → FloatOrder.is_nan y = false →
  SpecFloat.SFcompare x y
  = Some (FloatOrder.key_compare (FloatOrder.key x) (FloatOrder.key y)).
Proof.
  intros Hx Hy.
  destruct x as [ sx | sx | | sx mx ex ], y as [ sy | sy | | sy my ey ];
    try discriminate; try destruct sx; try destruct sy; try reflexivity.
  unfold FloatOrder.key_compare. cbn [SpecFloat.SFcompare FloatOrder.key fst snd].
  change (Pos.compare_cont Eq mx my) with (Pos.compare mx my).
  change (-1 ?= -1) with Eq. cbv iota. rewrite !Z.compare_opp.
  rewrite (Z.compare_antisym ex ey).
  change (Z.pos my ?= Z.pos mx) with (Pos.compare my mx).
  rewrite (Pos.compare_antisym mx my).
  by destruct (ex ?= ey).
Qed.

Lemma Prim2SF_ordered (x : PrimFloat.float) :
  FloatOrder.ordered x ↔ FloatOrder.is_nan (Prim2SF x) = false.
Proof.
  unfold FloatOrder.ordered. rewrite FloatAxioms.eqb_spec. unfold SpecFloat.SFeqb.
  destruct (FloatOrder.is_nan (Prim2SF x)) eqn:Hnan.
  - by destruct (Prim2SF x).
  - rewrite (SFcompare_key _ _ Hnan Hnan).
    destruct (FloatOrder.key (Prim2SF x)) as [ [ a b ] c ].
    unfold FloatOrder.key_compare. cbn [fst snd]. by rewrite !Z.compare_refl.
Qed.

Lemma ltb_key (x y : PrimFloat.float) :
  FloatOrder.ordered x → FloatOrder.ordered y →
  PrimFloat.ltb x y
  = bool_decide (FloatOrder.key_compare (FloatOrder.key (Prim2SF x))
                   (FloatOrder.key (Prim2SF y)) = Lt).
Proof.
  rewrite !Prim2SF_ordered, FloatAxioms.ltb_spec. unfold SpecFloat.SFltb.
  intros Hx Hy. rewrite (SFcompare_key _ _ Hx Hy).
  by destruct (FloatOrder.key_compare _ _).
Qed.

Lemma leb_key (x y : PrimFloat.float) :
  FloatOrder.ordered x → FloatOrder.ordered y →
  PrimFloat.leb x y
  = bool_decide (FloatOrder.key_compare (FloatOrder.key (Prim2SF x))
                   (FloatOrder.key (Prim2SF y)) ≠ Gt).
Proof.
  rewrite !Prim2SF_ordered, FloatAxioms.leb_spec. unfold SpecFloat.SFleb.
  intros Hx Hy. rewrite (SFcompare_key _ _ Hx Hy).
  by destruct (FloatOrder.key_compare _ _).
Qed.

(** [x <= y] holds for no NaN. *)
Lemma leb_ordered (x y : PrimFloat.float) :
  PrimFloat.leb x y = true → FloatOrder.ordered x ∧ FloatOrder.ordered y.
Proof.
  rewrite FloatAxioms.leb_spec, !Prim2SF_ordered. unfold SpecFloat.SFleb.
  by destruct (Prim2SF x), (Prim2SF y).
Qed.

Lemma ltb_asym (x y : PrimFloat.float) :
  FloatOrder.ordered x → FloatOrder.ordered y →
  PrimFloat.ltb x y = true → PrimFloat.ltb y x = false.
Proof.
  intros Hx Hy. rewrite (ltb_key x y Hx Hy), (ltb_key y x Hy Hx).
  intros Hlt%bool_decide_eq_true_1. apply bool_decide_eq_false_2.
  rewrite (key_compare_asym _ _ Hlt). discriminate.
Qed.

Lemma ltb_false_leb (x y : PrimFloat.float) :
  FloatOrder.ordered x → FloatOrder.ordered y →
  PrimFloat.ltb y x = false → PrimFloat.leb x y = true.
Proof.
  intros Hx Hy. rewrite (ltb_key y x Hy Hx), (leb_key x y Hx Hy).
  intros Hlt%bool_decide_eq_false_1. apply bool_decide_eq_true_2.
  by apply key_compare_total.
Qed.

Lemma ltb_negtrans (a b c : PrimFloat.float) :
  FloatOrder.ordered a → FloatOrder.ordered b → FloatOrder.ordered c →
  PrimFloat.ltb b a = false → PrimFloat.ltb c b = false → PrimFloat.ltb c a = false.
Proof.
  intros Ha Hb Hc. rewrite (ltb_key b a Hb Ha), (ltb_key c b Hc Hb), (ltb_key c a Hc Ha).
  intros H1%bool_decide_eq_false_1 H2%bool_decide_eq_false_1.
  apply bool_decide_eq_false_2. by eapply key_compare_negtrans.
Qed.

(** ** Sorting *)

Section SortProperties.

Context {A : Type}.
Variable less : A → A → bool.

Lemma insertLeftwards_Permutation (x : A) (before : list A) :
  SortSlice.insertLeftwards less x before ≡ₚ x :: before.
Proof.
  induction before as [ | y rest IH ]; simpl; [ done | ].
  destruct (less x y); [ | done ].
  rewrite IH. apply Permutation_swap.
Qed.

Lemma insertionSort_Permutation (data : list A) :
  SortSlice.insertionSort less data ≡ₚ data.
Proof.
  unfold SortSlice.insertionSort. rewrite reverse_Permutation.
  assert (Hfold : ∀ acc, fold_left (λ before x, SortSlice.insertLeftwards less x before)
                          data acc ≡ₚ acc ++ data).
  { induction data as [ | x rest IH ]; intros acc; simpl.
    - by rewrite app_nil_r.
    - rewrite IH, insertLeftwards_Permutation. simpl. apply Permutation_middle. }
  by rewrite Hfold.
Qed.

Lemma gapSwap_Permutation (front back : list A) :
  (SortSlice.gapSwap less front back).1 ++ (SortSlice.gapSwap less front back).2
  ≡ₚ front ++ back.
Proof.
  revert back. induction front as [ | x front' IH ]; intros back; [ done | ].
  destruct back as [ | y back' ]; [ done | ]. simpl.
  specialize (IH back').
  destruct (SortSlice.gapSwap less front' back') as [ f b ]. simpl in IH.
  destruct (less y x); simpl.
  - rewrite <- !Permutation_middle, IH. apply Permutation_swap.
  - by rewrite <- !Permutation_middle, IH.
Qed.

Lemma gapPass_Permutation (data : list A) : SortSlice.gapPass less data ≡ₚ data.
Proof.
  unfold SortSlice.gapPass.
  pose proof (gapSwap_Permutation (take 6 data) (take 6 (drop 6 data))) as Hswap.
  destruct (SortSlice.gapSwap less _ _) as [ f b ]. simpl in Hswap.
  rewrite app_assoc, Hswap, <- app_assoc.
  change 12%nat with (6 + 6)%nat. rewrite <- drop_drop, !take_drop. done.
Qed.

Lemma gapInsertionSort_Permutation (data : list A) :
  SortSlice.gapInsertionSort less data ≡ₚ data.
Proof.
  unfold SortSlice.gapInsertionSort.
  by rewrite insertionSort_Permutation, gapPass_Permutation.
Qed.

Lemma strictWeakOrderOn_Permutation (l1 l2 : list A) :
  l1 ≡ₚ l2 → SortSlice.strictWeakOrderOn less l1 → SortSlice.strictWeakOrderOn less l2.
Proof.
  intros Hperm [ Hasym Htrans ]. split.
  - intros a b Ha Hb. apply Hasym; by rewrite Hperm.
  - intros a b c Ha Hb Hc. apply Htrans; by rewrite Hperm.
Qed.

Lemma StronglySorted_reverse (R : relation A) (l : list A) :
  StronglySorted R l → StronglySorted (flip R) (reverse l).
Proof.
  induction 1 as [ | x l Hsorted IH Hall ]; [ constructor | ].
  rewrite reverse_cons.
  apply StronglySorted_app_2; [ | done | repeat constructor ].
  intros x1 x2 Hx1 Hx2. apply list_elem_of_singleton in Hx2 as ->.
  rewrite Forall_forall in Hall. apply Hall. by apply elem_of_reverse.
Qed.

Lemma insertLeftwards_sorted (x : A) (before : list A) :
  SortSlice.strictWeakOrderOn less (x :: before) →
  StronglySorted (λ a b, less a b = false) before →
  StronglySorted (λ a b, less a b = false) (SortSlice.insertLeftwards less x before).
Proof.
  intros [ Hasym Htrans ]. induction before as [ | y rest IH ]; intros Hsorted; simpl.
  - repeat constructor.
  - apply StronglySorted_inv in Hsorted as [ Hrest Hy ].
    destruct (less x y) eqn:Hxy.
    + constructor.
      * apply IH; [ | | done ].
        -- intros a b Ha Hb. apply Hasym; set_solver.
        -- intros a b c Ha Hb Hc. apply Htrans; set_solver.
      * rewrite Forall_forall. intros b Hb.
        rewrite insertLeftwards_Permutation in Hb.
        apply elem_of_cons in Hb as [ -> | Hb ].
        -- apply Hasym; [ set_solver | set_solver | done ].
        -- rewrite Forall_forall in Hy. by apply Hy.
    + constructor; [ by constructor | ].
      constructor; [ done | ].
      rewrite Forall_forall in Hy |- *. intros b Hb.
      apply (Htrans b y x); [ set_solver | set_solver | set_solver | by apply Hy | done ].
Qed.

Lemma insertionSort_sorted (data : list A) :
  SortSlice.strictWeakOrderOn less data →
  SortSlice.sortedBy less (SortSlice.insertionSort less data).
Proof.
  intros Hswo. unfold SortSlice.sortedBy, SortSlice.insertionSort.
  apply (StronglySorted_reverse (λ a b, less a b = false)).
  assert (Hfold : ∀ rest acc,
    SortSlice.strictWeakOrderOn less (acc ++ rest) →
    StronglySorted (λ a b, less a b = false) acc →
    StronglySorted (λ a b, less a b = false)
      (fold_left (λ before x, SortSlice.insertLeftwards less x before) rest acc)).
  { induction rest as [ | x rest IH ]; intros acc Hacc Hsorted; simpl; [ done | ].
    apply IH.
    - eapply strictWeakOrderOn_Permutation; [ | exact Hacc ].
      rewrite insertLeftwards_Permutation. simpl. symmetry. apply Permutation_middle.
    - apply insertLeftwards_sorted; [ | done ].
      destruct Hacc as [ Hasym Htrans ]. split.
      + intros a b Ha Hb. apply Hasym; set_solver.
      + intros a b c Ha Hb Hc. apply Htrans; set_solver. }
  apply Hfold; [ done | constructor ].
Qed.

Lemma gapInsertionSort_sorted (data : list A) :
  SortSlice.strictWeakOrderOn less data →
  SortSlice.sortedBy less (SortSlice.gapInsertionSort less data).
Proof.
  intros Hswo. apply insertionSort_sorted.
  eapply strictWeakOrderOn_Permutation; [ | exact Hswo ].
  by rewrite gapPass_Permutation.
Qed.

End SortProperties.

(** ** The compatibility filter *)

Lemma append_String (c : Ascii.ascii) (s1 s2 : string) :
  String c s1 +:+ s2 = String c (s1 +:+ s2).
Proof. reflexivity. Qed.

Lemma prefix_spec (p s : string) :
  String.prefix p s = true ↔ ∃ rest, s = p +:+ rest.
Proof.
  revert s. induction p as [ | c p IH ]; intros s.
  - split; [ intros _; by exists s | by destruct s ].
  - setoid_rewrite append_String. destruct s as [ | c' s ]; simpl.
    + split; [ done | intros [ rest Hrest ]; discriminate ].
    + destruct (Ascii.ascii_dec c c') as [ -> | Hne ].
      * rewrite IH. split; intros [ rest Hrest ]; exists rest; congruence.
      * split; [ done | intros [ rest Hrest ]; congruence ].
Qed.

Lemma strings_Contains_cons (c : Ascii.ascii) (s substr : string) :
  strings_Contains (String c s) substr
  = String.prefix substr (String c s) || strings_Contains s substr.
Proof. reflexivity. Qed.

(** [strings_Contains s substr] holds exactly when [substr] occurs in [s]. *)
Lemma strings_Contains_spec (s substr : string) :
  strings_Contains s substr = true ↔ ∃ before after, s = before +:+ substr +:+ after.
Proof.
  induction s as [ | c s IH ].
  - change (strings_Contains "" substr) with (String.prefix substr "" || false).
    rewrite orb_false_r, prefix_spec. split.
    + intros [ rest Hrest ]. by exists "", rest.
    + intros (before & after & Heq). destruct before; [ by exists after | discriminate ].
  - rewrite strings_Contains_cons, orb_true_iff, prefix_spec, IH. split.
    + intros [ [ rest Hrest ] | (before & after & Heq) ].
      * by exists "", rest.
      * exists (String c before), after. by rewrite append_String, Heq.
    + intros (before & after & Heq). destruct before as [ | c' before ].
      * left. by exists after.
      * right. rewrite append_String in Heq. injection Heq as _ Heq.
        by exists before, after.
Qed.

Lemma StronglySorted_elem_impl {A : Type} (R R' : relation A) (l : list A) :
  (∀ x y, x ∈ l → y ∈ l → R x y → R' x y) → StronglySorted R l → StronglySorted R' l.
Proof.
  intros Himpl Hsorted. induction Hsorted as [ | x l Hsorted IH Hall ]; [ constructor | ].
  constructor.
  - apply IH. intros y z Hy Hz. apply Himpl; by right.
  - rewrite Forall_forall in Hall |- *. intros y Hy.
    apply Himpl; [ by left | by right | by apply Hall ].
Qed.

Lemma isPriceCompatible_ordered (i : instance) (spotPrice : float64) :
  Instance.isPriceCompatible i spotPrice = true → FloatOrder.ordered spotPrice.
Proof.
  unfold Instance.isPriceCompatible.
  destruct (PrimFloat.eqb spotPrice 0); [ discriminate | ].
  destruct (PrimFloat.leb spotPrice (price i)) eqn:Hle; [ | discriminate ].
  intros _. by apply leb_ordered in Hle as [ ? _ ].
Qed.

Lemma isClassCompatible_spec (i : instance) (spotCandidate : instanceTypeInformation) :
  Instance.isClassCompatible i spotCandidate = true ↔
  Instance.isSameArch i spotCandidate = true
  ∧ vCPU spotCandidate >= vCPU (typeInfo i)
  ∧ PrimFloat.leb (memory (typeInfo i)) (memory spotCandidate) = true
  ∧ GPU spotCandidate >= GPU (typeInfo i).
Proof.
  unfold Instance.isClassCompatible.
  destruct (Instance.isSameArch i spotCandidate); cbn [andb];
    [ | split; [ discriminate | intros [ ? _ ]; discriminate ] ].
  destruct (Z.geb_spec (vCPU spotCandidate) (vCPU (typeInfo i))); cbn [andb];
    [ | split; [ discriminate | intros (_ & ? & _); lia ] ].
  destruct (PrimFloat.leb (memory (typeInfo i)) (memory spotCandidate)); cbn [andb];
    [ | split; [ discriminate | intros (_ & _ & ? & _); discriminate ] ].
  destruct (Z.geb_spec (GPU spotCandidate) (GPU (typeInfo i)));
    [ | split; [ discriminate | intros (_ & _ & _ & ?); lia ] ].
  split; [ intros _; repeat split; lia | done ].
Qed.

Lemma isSameArch_spec (i : instance) (other : instanceTypeInformation) :
  Instance.isSameArch i other = true ↔
  (Instance.isIntelCompatible (PhysicalProcessor (typeInfo i)) = true
   ∧ Instance.isIntelCompatible (PhysicalProcessor other) = true)
  ∨ (Instance.isARM (PhysicalProcessor (typeInfo i)) = true
     ∧ Instance.isARM (PhysicalProcessor other) = true).
Proof. unfold Instance.isSameArch. by rewrite orb_true_iff, !andb_true_iff. Qed.

Lemma isIntelCompatible_spec (cpuName : string) :
  Instance.isIntelCompatible cpuName = true ↔
  strings_Contains cpuName "Intel" = true
  ∨ strings_Contains cpuName "AMD" = true
  ∨ strings_Contains cpuName "Variable" = true.
Proof.
  unfold Instance.isIntelCompatible, Instance.isIntel, Instance.isAMD.
  rewrite !orb_true_iff. tauto.
Qed.

Section FilterProperties.

Variable filepath_Match : string → string → bool.
Variable sort_Slice : ∀ A : Type, (A → A → bool) → list A → list A.
Variable countLaunchConfigEphemeralVolumes : autoScalingGroup → Z.

(** The contract of [sort.Slice]. *)
Hypothesis sort_Slice_Permutation :
  ∀ (A : Type) (less : A → A → bool) (data : list A), sort_Slice A less data ≡ₚ data.
Hypothesis sort_Slice_sorted :
  ∀ (A : Type) (less : A → A → bool) (data : list A),
    SortSlice.strictWeakOrderOn less data → SortSlice.sortedBy less (sort_Slice A less data).

Lemma findCompatible_omap (i : instance) (allowedList disallowedList : list string)
  (attachedVolumesNumber : Z) (keys : list string) (acc : list Instance.acceptableInstance) :
  Instance.findCompatible filepath_Match i allowedList disallowedList attachedVolumesNumber
    keys acc
  = acc ++ omap (Instance.acceptableAt filepath_Match i allowedList disallowedList attachedVolumesNumber) keys.
Proof.
  revert acc. induction keys as [ | k rest IH ]; intros acc.
  - simpl. by rewrite app_nil_r.
  - cbn [Instance.findCompatible omap list_omap]. unfold Instance.acceptableAt at 1.
    destruct (Instance.isCompatible _ _ _ _ _ _ _); rewrite IH; [ | done ].
    by rewrite <- app_assoc.
Qed.

Lemma sort_Strings_keys (m : gmap string instanceTypeInformation) (k : string) :
  k ∈ Instance.sort_Strings (map fst (map_to_list m)) ↔ is_Some (m !! k).
Proof.
  unfold Instance.sort_Strings. rewrite merge_sort_Permutation.
  change (map fst (map_to_list m)) with ((map_to_list m).*1).
  rewrite list_elem_of_fmap. split.
  - intros ([ k' v ] & -> & Hin). apply elem_of_map_to_list in Hin. eauto.
  - intros [ v Hv ]. exists (k, v). split; [ done | ]. by apply elem_of_map_to_list.
Qed.

Lemma acceptableOf_elem (i : instance) (allowedList disallowedList : list string)
  (a : Instance.acceptableInstance) :
  a ∈ Instance.acceptableOf filepath_Match countLaunchConfigEphemeralVolumes i allowedList disallowedList ↔
  ∃ k, instanceTypeInformationMap (instRegion i) !! k = Some (Instance.instanceTI a)
       ∧ Instance.acceptablePrice a = Instance.calculatePrice i (Instance.instanceTI a)
       ∧ Instance.isCompatible filepath_Match i allowedList disallowedList
           (Instance.min (countLaunchConfigEphemeralVolumes (asg i))
              (instanceStoreDeviceCount (typeInfo i)))
           (Instance.instanceTI a) (Instance.acceptablePrice a) = true.
Proof.
  unfold Instance.acceptableOf. rewrite list_elem_of_omap. split.
  - intros (k & Hk & Hat). apply sort_Strings_keys in Hk as [ C HC ]. exists k.
    unfold Instance.acceptableAt in Hat. rewrite HC in Hat. cbn [default id] in Hat.
    destruct (Instance.isCompatible _ _ _ _ _ _ _) eqn:Hcompat; [ | discriminate ].
    injection Hat as <-. done.
  - intros (k & Hk & Hprice & Hcompat). exists k. split.
    + apply sort_Strings_keys. eauto.
    + unfold Instance.acceptableAt. rewrite Hk. cbn [default id]. rewrite <- Hprice, Hcompat.
      f_equal. destruct a. simpl in *. by rewrite Hprice.
Qed.

Lemma getCompatible_result (i : instance) (allowedList disallowedList : list string) :
  Instance.getCompatibleSpotInstanceTypesListSortedAscendingByPrice filepath_Match
    sort_Slice countLaunchConfigEphemeralVolumes i allowedList disallowedList
  = match Instance.acceptableOf filepath_Match countLaunchConfigEphemeralVolumes i allowedList disallowedList with
    | [] => ([], Some "No cheaper spot instance types could be found")
    | _ :: _ =>
        (map Instance.instanceTI
           (sort_Slice Instance.acceptableInstance Instance.lessByPrice
              (Instance.acceptableOf filepath_Match countLaunchConfigEphemeralVolumes i allowedList disallowedList)), None)
    end.
Proof.
  unfold Instance.getCompatibleSpotInstanceTypesListSortedAscendingByPrice.
  rewrite findCompatible_omap. reflexivity.
Qed.

Lemma getCompatible_Permutation (i : instance) (allowedList disallowedList : list string) :
  (Instance.getCompatibleSpotInstanceTypesListSortedAscendingByPrice filepath_Match
     sort_Slice countLaunchConfigEphemeralVolumes i allowedList disallowedList).1
  ≡ₚ Instance.instanceTI <$> Instance.acceptableOf filepath_Match countLaunchConfigEphemeralVolumes i allowedList disallowedList.
Proof.
  rewrite getCompatible_result.
  destruct (Instance.acceptableOf filepath_Match countLaunchConfigEphemeralVolumes i allowedList disallowedList) as [ | a rest ] eqn:Hacc; [ done | ].
  cbn [fst]. change (map Instance.instanceTI) with (fmap (M:=list) Instance.instanceTI).
  by rewrite sort_Slice_Permutation.
Qed.

(** The candidates returned are the entries of the catalogue that pass the
    test of the loop. *)
Lemma getCompatible_elem (i : instance) (allowedList disallowedList : list string)
  (C : instanceTypeInformation) :
  C ∈ (Instance.getCompatibleSpotInstanceTypesListSortedAscendingByPrice filepath_Match
         sort_Slice countLaunchConfigEphemeralVolumes i allowedList disallowedList).1
  ↔ ∃ k, instanceTypeInformationMap (instRegion i) !! k = Some C
         ∧ Instance.isCompatible filepath_Match i allowedList disallowedList
             (Instance.min (countLaunchConfigEphemeralVolumes (asg i))
                (instanceStoreDeviceCount (typeInfo i)))
             C (Instance.calculatePrice i C) = true.
Proof.
  rewrite getCompatible_Permutation, list_elem_of_fmap. split.
  - intros (a & -> & Ha). apply acceptableOf_elem in Ha as (k & Hk & Hprice & Hcompat).
    exists k. by rewrite <- Hprice.
  - intros (k & Hk & Hcompat).
    exists (Instance.mkAcceptable C (Instance.calculatePrice i C)). split; [ done | ].
    apply acceptableOf_elem. by exists k.
Qed.

Lemma isCompatible_parts (i : instance) (allowedList disallowedList : list string)
  (attachedVolumesNumber : Z) (candidate : instanceTypeInformation)
  (candidatePrice : float64) :
  Instance.isCompatible filepath_Match i allowedList disallowedList attachedVolumesNumber
    candidate candidatePrice = true →
  Instance.isPriceCompatible i candidatePrice = true
  ∧ Instance.isClassCompatible i candidate = true.
Proof.
  unfold Instance.isCompatible. rewrite !andb_true_iff. tauto.
Qed.

(** C6. Every candidate the filter returns has at least the vCPUs, the
    memory and the GPUs of the reference instance and shares a processor
    class with it, where the Intel-compatible class holds the processor
    strings that contain "Intel", "AMD" or "Variable" and the ARM class those
    that contain "AWS"; a reference that is only in the ARM class gets only
    ARM candidates, and a candidate that is only in the ARM class is returned
    only for an ARM reference. *)
Theorem compatible_candidates_dominate (i : instance)
  (allowedList disallowedList : list string) (C : instanceTypeInformation) :
  C ∈ (Instance.getCompatibleSpotInstanceTypesListSortedAscendingByPrice filepath_Match
         sort_Slice countLaunchConfigEphemeralVolumes i allowedList disallowedList).1 →
  let R := typeInfo i in
  let intelClass := λ cpu : string,
    strings_Contains cpu "Intel" = true
    ∨ strings_Contains cpu "AMD" = true
    ∨ strings_Contains cpu "Variable" = true in
  let armClass := λ cpu : string, strings_Contains cpu "AWS" = true in
  vCPU C >= vCPU R
  ∧ PrimFloat.leb (memory R) (memory C) = true
  ∧ GPU C >= GPU R
  ∧ ((intelClass (PhysicalProcessor R) ∧ intelClass (PhysicalProcessor C))
     ∨ (armClass (PhysicalProcessor R) ∧ armClass (PhysicalProcessor C)))
  ∧ (armClass (PhysicalProcessor R) → ¬ intelClass (PhysicalProcessor R) →
     armClass (PhysicalProcessor C))
  ∧ (armClass (PhysicalProcessor C) → ¬ intelClass (PhysicalProcessor C) →
     armClass (PhysicalProcessor R)).
Proof.
  intros HC R intelClass armClass.
  apply getCompatible_elem in HC as (k & _ & Hcompat).
  apply isCompatible_parts in Hcompat as [ _ Hclass ].
  apply isClassCompatible_spec in Hclass as (Harch & Hcpu & Hmem & Hgpu).
  apply isSameArch_spec in Harch. rewrite !isIntelCompatible_spec in Harch.
  unfold Instance.isARM in Harch. fold R in Hcpu, Hmem, Hgpu, Harch.
  repeat split; try done; subst intelClass armClass; cbv beta; tauto.
Qed.

(** C2, as the code has it. The list returned is non-decreasing in effective
    price and holds exactly the entries of the catalogue that pass the test of
    the loop. Nothing is said about candidates of equal price: their order is
    the one [sort.Slice] leaves, and [sort.Slice] is not stable. *)
Theorem compatible_candidates_sorted_by_price (i : instance)
  (allowedList disallowedList : list string) :
  let result :=
    (Instance.getCompatibleSpotInstanceTypesListSortedAscendingByPrice filepath_Match
       sort_Slice countLaunchConfigEphemeralVolumes i allowedList disallowedList).1 in
  StronglySorted
    (λ C1 C2, PrimFloat.leb (Instance.calculatePrice i C1) (Instance.calculatePrice i C2)
              = true) result
  ∧ (∀ C, C ∈ result ↔
       ∃ k, instanceTypeInformationMap (instRegion i) !! k = Some C
            ∧ Instance.isCompatible filepath_Match i allowedList disallowedList
                (Instance.min (countLaunchConfigEphemeralVolumes (asg i))
                   (instanceStoreDeviceCount (typeInfo i)))
                C (Instance.calculatePrice i C) = true).
Proof.
  intros result. split; [ | intros C; apply getCompatible_elem ].
  subst result. rewrite getCompatible_result.
  destruct (Instance.acceptableOf filepath_Match countLaunchConfigEphemeralVolumes i allowedList disallowedList) as [ | a0 rest ] eqn:Hacc;
    [ constructor | ].
  rewrite <- Hacc. cbn [fst].
  assert (Hordered : ∀ a, a ∈ Instance.acceptableOf filepath_Match countLaunchConfigEphemeralVolumes i allowedList disallowedList →
            FloatOrder.ordered (Instance.acceptablePrice a)
            ∧ Instance.acceptablePrice a = Instance.calculatePrice i (Instance.instanceTI a)).
  { intros a Ha. apply acceptableOf_elem in Ha as (k & _ & Hprice & Hcompat).
    apply isCompatible_parts in Hcompat as [ Hp _ ].
    split; [ by eapply isPriceCompatible_ordered | done ]. }
  assert (Hswo : SortSlice.strictWeakOrderOn Instance.lessByPrice
                   (Instance.acceptableOf filepath_Match countLaunchConfigEphemeralVolumes i allowedList disallowedList)).
  { split.
    - intros a b Ha Hb. apply ltb_asym; by apply Hordered.
    - intros a b c Ha Hb Hc. apply ltb_negtrans; by apply Hordered. }
  apply sort_Slice_sorted in Hswo. unfold SortSlice.sortedBy in Hswo.
  change (map Instance.instanceTI) with (fmap (M:=list) Instance.instanceTI).
  eapply StronglySorted_fmap; [ | eapply StronglySorted_elem_impl; [ | exact Hswo ] ].
  - intros a b Hab. exact Hab.
  - intros a b Ha Hb Hless. cbv beta.
    rewrite sort_Slice_Permutation in Ha, Hb.
    destruct (Hordered a Ha) as [ Hoa <- ], (Hordered b Hb) as [ Hob <- ].
    by apply ltb_false_leb.
Qed.

End FilterProperties.

(** C6 at the catalogue of [Sample]: the seven candidates returned for the
    [m5.large] reference, the first of which, [r5.large], has its 2 vCPUs,
    twice its memory and an Intel processor as it has. *)
Lemma compatible_candidates_dominate_witness :
  (Instance.getCompatibleSpotInstanceTypesListSortedAscendingByPrice Sample.literalMatch
     Sample.sortSlice Sample.noEphemeralVolumes Sample.referenceInstance [] []).1
  = [ Sample.r5_large; Sample.m5_large; Sample.m5a_large; Sample.m5ad_large;
      Sample.m5d_large; Sample.m5n_large; Sample.c5_2xlarge ]
  ∧ vCPU Sample.r5_large >= vCPU Sample.m5_large
  ∧ PrimFloat.leb (memory Sample.m5_large) (memory Sample.r5_large) = true
  ∧ GPU Sample.r5_large >= GPU Sample.m5_large.
Proof.
  assert (Hresult :
    (Instance.getCompatibleSpotInstanceTypesListSortedAscendingByPrice Sample.literalMatch
       Sample.sortSlice Sample.noEphemeralVolumes Sample.referenceInstance [] []).1
    = [ Sample.r5_large; Sample.m5_large; Sample.m5a_large; Sample.m5ad_large;
        Sample.m5d_large; Sample.m5n_large; Sample.c5_2xlarge ])
    by (vm_compute; reflexivity).
  split; [ exact Hresult | ].
  destruct (compatible_candidates_dominate Sample.literalMatch Sample.sortSlice
              Sample.noEphemeralVolumes
              (λ A less data, gapInsertionSort_Permutation less data)
              Sample.referenceInstance [] [] Sample.r5_large)
    as (Hcpu & Hmem & Hgpu & _).
  - rewrite Hresult. apply list_elem_of_here.
  - exact (conj Hcpu (conj Hmem Hgpu)).
Defined.

(** C2 at the catalogue of [Sample]: the list returned for the [m5.large]
    reference is sorted by effective price. *)
Lemma compatible_candidates_sorted_by_price_witness :
  StronglySorted
    (λ C1 C2,
       PrimFloat.leb (Instance.calculatePrice Sample.referenceInstance C1)
         (Instance.calculatePrice Sample.referenceInstance C2) = true)
    (Instance.getCompatibleSpotInstanceTypesListSortedAscendingByPrice Sample.literalMatch
       Sample.sortSlice Sample.noEphemeralVolumes Sample.referenceInstance [] []).1.
Proof.
  exact (proj1 (compatible_candidates_sorted_by_price Sample.literalMatch Sample.sortSlice
                  Sample.noEphemeralVolumes
                  (λ A less data, gapInsertionSort_Permutation less data)
                  (λ A less data, gapInsertionSort_sorted less data)
                  Sample.referenceInstance [] [])).
Defined.

(** C2 as stated fails on the order of equal prices. The sorting procedure of
    [Sample] returns a sorted permutation of every slice, as [sort.Slice]
    promises; with it the filter returns [r5.large] first, before [m5.large],
    although the two have the same effective price and ["m5.large"] precedes
    ["r5.large"] in lexicographic order. *)
Lemma equal_prices_not_in_name_order :
  (∀ (A : Type) (less : A → A → bool) (data : list A),
     Sample.sortSlice A less data ≡ₚ data
     ∧ (SortSlice.strictWeakOrderOn less data →
        SortSlice.sortedBy less (Sample.sortSlice A less data)))
  ∧ map instanceType
      (Instance.getCompatibleSpotInstanceTypesListSortedAscendingByPrice
         Sample.literalMatch Sample.sortSlice Sample.noEphemeralVolumes
         Sample.referenceInstance [] []).1
    = [ "r5.large"; "m5.large"; "m5a.large"; "m5ad.large"; "m5d.large"; "m5n.large";
        "c5.2xlarge" ]
  ∧ Instance.calculatePrice Sample.referenceInstance Sample.r5_large
    = Instance.calculatePrice Sample.referenceInstance Sample.m5_large
  ∧ String.ltb "m5.large" "r5.large" = true.
Proof.
  split; [ | split; [ | split ] ].
  - intros A less data. split.
    + apply gapInsertionSort_Permutation.
    + apply gapInsertionSort_sorted.
  - vm_compute. reflexivity.
  - vm_compute. reflexivity.
  - vm_compute. reflexivity.
Qed.

(** * Further properties of the code *)

(** ** Termination notices: detaching, explicit actions, instances outside a group *)

Lemma bind_ret_snd {S A B : Type} (m : Eff.M S A) (b : B) (s : S) :
  (Eff.bind m (λ _, Eff.ret b) s).2 = (m s).2.
Proof. unfold Eff.bind, Eff.ret. by destruct (m s). Qed.

Lemma detachInstance_result (code : string) (svc : SpotTermination.AutoScalingAPI)
  (ec2 : SpotTermination.EC2API) (mult : Z) (instanceID asgName eventType : string)
  (log : list SpotTermination.request) :
  (SpotTermination.detachInstance code svc ec2 mult instanceID asgName eventType log).1
  = SpotTermination.as_DetachInstances svc asgName instanceID false.
Proof.
  unfold SpotTermination.detachInstance, Eff.bind, SpotTermination.ask, Eff.modify.
  destruct (SpotTermination.as_DetachInstances svc asgName instanceID false) as [ e | ];
    simpl; [ reflexivity | ].
  destruct (String.eqb eventType code); reflexivity.
Qed.

(** X1. [detachInstance] returns the error of [DetachInstances] and no other:
    when the detach request fails nothing more is sent (the tag stays and the
    instance is not terminated); when it succeeds on an event that is not a
    rebalance recommendation, the tag is deleted, the responder sleeps 14
    minutes and asks for the termination, and the result is [nil] whatever
    [DeleteTags] and [TerminateInstances] answer. *)
Theorem detachInstance_stops_on_failure_and_drops_later_errors
  (code : string) (svc : SpotTermination.AutoScalingAPI)
  (ec2 : SpotTermination.EC2API) (mult : Z) (instanceID asgName eventType : string)
  (log : list SpotTermination.request) :
  let run := SpotTermination.detachInstance code svc ec2 mult instanceID asgName eventType log in
  (∀ detachErr,
     SpotTermination.as_DetachInstances svc asgName instanceID false = Some detachErr →
     run = (Some detachErr, log ++ [ SpotTermination.DetachInstances asgName instanceID false ]))
  ∧ (SpotTermination.as_DetachInstances svc asgName instanceID false = None →
     eventType ≠ code →
     run = (None,
            log ++ [ SpotTermination.DetachInstances asgName instanceID false;
                     SpotTermination.DeleteTags instanceID "launched-for-asg";
                     SpotTermination.Sleep 14 mult;
                     SpotTermination.TerminateInstances instanceID ])).
Proof.
  intros run. subst run. split.
  - intros detachErr Herr. apply injective_projections.
    + by rewrite detachInstance_result.
    + rewrite detachInstance_sent, Herr. reflexivity.
  - intros Hok Hevent. apply injective_projections.
    + by rewrite detachInstance_result.
    + rewrite detachInstance_sent, Hok.
      destruct (String.eqb_spec eventType code); [ done | reflexivity ].
Qed.

Lemma detachInstance_keeps (code : string) (svc : SpotTermination.AutoScalingAPI)
  (ec2 : SpotTermination.EC2API) (mult : Z) (instanceID asgName eventType : string)
  (log : list SpotTermination.request) :
  Forall SpotTermination.keepsDesiredCapacity log →
  Forall SpotTermination.keepsDesiredCapacity
    (SpotTermination.detachInstance code svc ec2 mult instanceID asgName eventType log).2.
Proof.
  intros Hlog. rewrite detachInstance_sent. apply Forall_app. split; [ done | ].
  apply Forall_cons. split; [ reflexivity | ].
  destruct (_ && _); repeat constructor.
Qed.

Lemma chooseAction_keeps (code : string) (svc : SpotTermination.AutoScalingAPI)
  (ec2 : SpotTermination.EC2API) (mult : Z) (instanceID asgName action eventType : string)
  (log : list SpotTermination.request) :
  Forall SpotTermination.keepsDesiredCapacity log →
  Forall SpotTermination.keepsDesiredCapacity
    (SpotTermination.chooseAction code svc ec2 mult instanceID asgName action eventType log).2.
Proof.
  intros Hlog.
  destruct (String.eqb_spec action "detach") as [ -> | Hd ].
  { unfold SpotTermination.chooseAction. cbn [String.eqb Ascii.eqb Bool.eqb].
    rewrite bind_ret_snd. by apply detachInstance_keeps. }
  destruct (String.eqb_spec action "terminate") as [ -> | Ht ].
  { unfold SpotTermination.chooseAction. cbn [String.eqb Ascii.eqb Bool.eqb].
    rewrite bind_ret_snd, terminateInstance_sent.
    apply Forall_app. split; [ done | ]. by repeat constructor. }
  rewrite chooseAction_sent_default by done.
  destruct (_ && _).
  - rewrite !Forall_app. split; [ split; [ done | ] | ]; by repeat constructor.
  - rewrite !Forall_app. split; [ split; [ done | by repeat constructor ] | ].
    apply Forall_cons. split; [ reflexivity | ]. destruct (_ && _); repeat constructor.
Qed.

(** X2. Whatever the action, the event and the answers of the services,
    [executeAction] never asks for the desired capacity of the group to be
    decremented: every [DetachInstances] and every
    [TerminateInstanceInAutoScalingGroup] it sends carries
    [ShouldDecrementDesiredCapacity] false, so the group launches a
    replacement. *)
Theorem executeAction_keeps_desired_capacity (code : string)
  (s : SpotTermination.SpotTermination) (instanceID action eventType : string) :
  Forall SpotTermination.keepsDesiredCapacity
    (SpotTermination.executeAction code s instanceID action eventType []).2.
Proof.
  unfold SpotTermination.executeAction.
  destruct (SpotTermination.asSvc s) as [ svc | ]; [ | constructor ].
  unfold Eff.bind at 1. unfold SpotTermination.getAsgName.
  unfold Eff.bind at 1. unfold SpotTermination.ask, Eff.modify. cbn [app].
  destruct (SpotTermination.as_DescribeAutoScalingInstances svc instanceID)
    as [ groups [ e | ] ]; cbn [Eff.ret snd].
  { by repeat constructor. }
  destruct groups as [ | asgName rest ]; cbn [Eff.ret snd String.eqb].
  { by repeat constructor. }
  destruct (String.eqb asgName ""); cbn [Eff.ret snd].
  { by repeat constructor. }
  rewrite bind_ret_snd. apply chooseAction_keeps. by repeat constructor.
Qed.

(** X3. The [switch] of [executeAction] has the cases ["detach"] and
    ["terminate"] and a default: every other action string, a misspelt one
    included, is handled exactly as ["auto"] is. *)
Theorem executeAction_unknown_action_is_auto (code : string)
  (s : SpotTermination.SpotTermination) (instanceID action eventType : string)
  (log : list SpotTermination.request) :
  action ≠ SpotTermination.DetachTerminationNotificationAction →
  action ≠ SpotTermination.TerminateTerminationNotificationAction →
  SpotTermination.executeAction code s instanceID action eventType log
  = SpotTermination.executeAction code s instanceID
      SpotTermination.AutoTerminationNotificationAction eventType log.
Proof.
  intros Hd Ht. unfold SpotTermination.executeAction.
  destruct (SpotTermination.asSvc s) as [ svc | ]; [ | reflexivity ].
  unfold Eff.bind at 1 3.
  destruct (SpotTermination.getAsgName svc instanceID log) as [ [ asgName [ e | ] ] log' ];
    [ reflexivity | ].
  destruct (String.eqb asgName ""); [ reflexivity | ].
  unfold SpotTermination.chooseAction.
  destruct (String.eqb_spec action "detach"); [ done | ].
  destruct (String.eqb_spec action "terminate"); [ done | ].
  reflexivity.
Qed.

(** X3 at the action ["Terminate"], written with a capital: the group has a
    termination hook and the hook is looked up, as under ["auto"]. *)
Lemma executeAction_unknown_action_is_auto_witness :
  SpotTermination.executeAction Sample.rebalanceCode
    (Sample.responderOf (Sample.cloudWith [ Sample.terminatingHook ] Sample.nothingFails))
    "i-spot" "Terminate" Sample.interruptionCode []
  = (None,
     [ SpotTermination.DescribeAutoScalingInstances "i-spot";
       SpotTermination.DescribeLifecycleHooks "g1";
       SpotTermination.TerminateInstanceInAutoScalingGroup "i-spot" false ]).
Proof.
  rewrite (executeAction_unknown_action_is_auto Sample.rebalanceCode
             (Sample.responderOf
                (Sample.cloudWith [ Sample.terminatingHook ] Sample.nothingFails))
             "i-spot" "Terminate" Sample.interruptionCode []
             ltac:(discriminate) ltac:(discriminate)).
  reflexivity.
Defined.

(** X4. [executeAction] changes nothing for an instance it cannot place in a
    group: without a service handle it sends no request at all; when
    [DescribeAutoScalingInstances] fails, lists no instance, or gives an
    empty group name, that lookup is the only request sent. *)
Theorem executeAction_outside_a_group (code : string)
  (s : SpotTermination.SpotTermination) (instanceID action eventType : string)
  (log : list SpotTermination.request) :
  (SpotTermination.asSvc s = None →
   (SpotTermination.executeAction code s instanceID action eventType log).2 = log)
  ∧ (∀ svc groups err,
       SpotTermination.asSvc s = Some svc →
       SpotTermination.as_DescribeAutoScalingInstances svc instanceID = (groups, err) →
       err ≠ None ∨ hd "" groups = "" →
       (SpotTermination.executeAction code s instanceID action eventType log).2
       = log ++ [ SpotTermination.DescribeAutoScalingInstances instanceID ]).
Proof.
  split.
  - intros Hnil. unfold SpotTermination.executeAction. by rewrite Hnil.
  - intros svc groups err Hsvc Hdescribe Hnone.
    unfold SpotTermination.executeAction. rewrite Hsvc.
    unfold Eff.bind at 1. unfold SpotTermination.getAsgName.
    unfold Eff.bind at 1. unfold SpotTermination.ask, Eff.modify. rewrite Hdescribe.
    destruct err as [ e | ]; cbn [Eff.ret snd]; [ reflexivity | ].
    destruct Hnone as [ ? | Hhd ]; [ done | ].
    destruct groups as [ | asgName rest ]; cbn [Eff.ret snd String.eqb]; [ reflexivity | ].
    cbn [hd] in Hhd. subst asgName. reflexivity.
Qed.

(** X5. Under the explicit actions the lifecycle hooks are not looked up. For
    an instance of a group, ["terminate"] sends the lookup of the group and
    one [TerminateInstanceInAutoScalingGroup]; ["detach"] sends the lookup of
    the group and [DetachInstances], followed by the deletion of the tag, the
    pause and the termination when the detach succeeded on an event that is
    not a rebalance recommendation. *)
Theorem executeAction_explicit_actions (code : string)
  (s : SpotTermination.SpotTermination) (svc : SpotTermination.AutoScalingAPI)
  (instanceID asgName eventType : string) (rest : list string) :
  SpotTermination.asSvc s = Some svc →
  SpotTermination.as_DescribeAutoScalingInstances svc instanceID = (asgName :: rest, None) →
  asgName ≠ "" →
  (SpotTermination.executeAction code s instanceID
     SpotTermination.TerminateTerminationNotificationAction eventType []).2
  = [ SpotTermination.DescribeAutoScalingInstances instanceID;
      SpotTermination.TerminateInstanceInAutoScalingGroup instanceID false ]
  ∧ (SpotTermination.executeAction code s instanceID
       SpotTermination.DetachTerminationNotificationAction eventType []).2
    = SpotTermination.DescribeAutoScalingInstances instanceID
      :: SpotTermination.DetachInstances asgName instanceID false
      :: (if bool_decide
               (SpotTermination.as_DetachInstances svc asgName instanceID false = None)
             && negb (String.eqb eventType code)
          then [ SpotTermination.DeleteTags instanceID "launched-for-asg";
                 SpotTermination.Sleep 14 (SpotTermination.SleepMultiplier s);
                 SpotTermination.TerminateInstances instanceID ]
          else []).
Proof.
  intros Hsvc Hdescribe Hname. split.
  - rewrite (executeAction_sent_in_group _ _ _ _ _ _ _ _ _ Hsvc Hdescribe Hname).
    unfold SpotTermination.chooseAction,
      SpotTermination.TerminateTerminationNotificationAction.
    cbn [String.eqb Ascii.eqb Bool.eqb]. rewrite bind_ret_snd. reflexivity.
  - rewrite (executeAction_sent_in_group _ _ _ _ _ _ _ _ _ Hsvc Hdescribe Hname).
    unfold SpotTermination.chooseAction,
      SpotTermination.DetachTerminationNotificationAction.
    cbn [String.eqb Ascii.eqb Bool.eqb]. rewrite bind_ret_snd, detachInstance_sent.
    reflexivity.
Qed.

(** X5 at a group without a hook under ["terminate"], and at a group with a
    hook under ["detach"] on a rebalance recommendation. *)
Lemma executeAction_explicit_actions_witness :
  (SpotTermination.executeAction Sample.rebalanceCode
     (Sample.responderOf (Sample.cloudWith [] Sample.nothingFails))
     "i-spot" "terminate" Sample.interruptionCode []).2
  = [ SpotTermination.DescribeAutoScalingInstances "i-spot";
      SpotTermination.TerminateInstanceInAutoScalingGroup "i-spot" false ]
  ∧ (SpotTermination.executeAction Sample.rebalanceCode
       (Sample.responderOf (Sample.cloudWith [ Sample.terminatingHook ] Sample.nothingFails))
       "i-spot" "detach" Sample.rebalanceCode []).2
    = [ SpotTermination.DescribeAutoScalingInstances "i-spot";
        SpotTermination.DetachInstances "g1" "i-spot" false ].
Proof.
  split.
  - exact (proj1 (executeAction_explicit_actions Sample.rebalanceCode
             (Sample.responderOf (Sample.cloudWith [] Sample.nothingFails))
             (SpotTermination.serviceOf (Sample.cloudWith [] Sample.nothingFails))
             "i-spot" "g1" Sample.interruptionCode [] eq_refl eq_refl ltac:(discriminate))).
  - exact (proj2 (executeAction_explicit_actions Sample.rebalanceCode
             (Sample.responderOf
                (Sample.cloudWith [ Sample.terminatingHook ] Sample.nothingFails))
             (SpotTermination.serviceOf
                (Sample.cloudWith [ Sample.terminatingHook ] Sample.nothingFails))
             "i-spot" "g1" Sample.rebalanceCode [] eq_refl eq_refl ltac:(discriminate))).
Defined.

(** ** The compatibility filter: price, errors, lists, processors *)

Lemma omap_all_None {A B : Type} (f : A → option B) (l : list A) :
  (∀ x, x ∈ l → f x = None) → omap f l = [].
Proof.
  induction l as [ | x l IH ]; intros Hnone; [ reflexivity | ].
  cbn [omap list_omap]. rewrite (Hnone x) by apply list_elem_of_here.
  apply IH. intros y Hy. apply Hnone. by apply list_elem_of_further.
Qed.

Section FilterBounds.

Variable filepath_Match : string → string → bool.
Variable sort_Slice : ∀ A : Type, (A → A → bool) → list A → list A.
Variable countLaunchConfigEphemeralVolumes : autoScalingGroup → Z.

(** [sort.Slice] returns the elements it was given. *)
Hypothesis sort_Slice_Permutation :
  ∀ (A : Type) (less : A → A → bool) (data : list A), sort_Slice A less data ≡ₚ data.

(** X6. No candidate the filter returns costs more than the reference
    instance: its effective price (the spot price in the zone of the
    instance, plus the EBS surcharge for an EBS-optimized instance) is not
    zero and is at most [i.price]. *)
Theorem compatible_candidates_within_price (i : instance)
  (allowedList disallowedList : list string) (C : instanceTypeInformation) :
  C ∈ (Instance.getCompatibleSpotInstanceTypesListSortedAscendingByPrice filepath_Match
         sort_Slice countLaunchConfigEphemeralVolumes i allowedList disallowedList).1 →
  PrimFloat.eqb (Instance.calculatePrice i C) 0%float = false
  ∧ PrimFloat.leb (Instance.calculatePrice i C) (price i) = true.
Proof.
  intros HC.
  apply (getCompatible_elem _ _ _ sort_Slice_Permutation) in HC as (k & _ & Hcompat).
  apply isCompatible_parts in Hcompat as [ Hprice _ ].
  unfold Instance.isPriceCompatible in Hprice.
  destruct (PrimFloat.eqb (Instance.calculatePrice i C) 0%float); [ done | ].
  by destruct (PrimFloat.leb (Instance.calculatePrice i C) (price i)).
Qed.

(** X7. The filter returns the error "No cheaper spot instance types could be
    found", with an empty list, exactly when no entry of the catalogue passes
    the test of the loop; otherwise the list is not empty and the error is
    [nil]. An empty list never comes without the error. *)
Theorem compatible_candidates_error_iff_none (i : instance)
  (allowedList disallowedList : list string) :
  let r :=
    Instance.getCompatibleSpotInstanceTypesListSortedAscendingByPrice filepath_Match
      sort_Slice countLaunchConfigEphemeralVolumes i allowedList disallowedList in
  let noneCompatible :=
    ∀ k C, instanceTypeInformationMap (instRegion i) !! k = Some C →
           Instance.isCompatible filepath_Match i allowedList disallowedList
             (Instance.min (countLaunchConfigEphemeralVolumes (asg i))
                (instanceStoreDeviceCount (typeInfo i)))
             C (Instance.calculatePrice i C) = false in
  (noneCompatible → r = ([], Some "No cheaper spot instance types could be found"))
  ∧ (¬ noneCompatible → r.1 ≠ [] ∧ r.2 = None).
Proof.
  intros r noneCompatible.
  assert (Helem := getCompatible_elem filepath_Match sort_Slice
                     countLaunchConfigEphemeralVolumes sort_Slice_Permutation i
                     allowedList disallowedList).
  fold r in Helem. subst r. rewrite getCompatible_result in *.
  destruct (Instance.acceptableOf filepath_Match countLaunchConfigEphemeralVolumes i
              allowedList disallowedList) as [ | a rest ] eqn:Hacc; cbn [fst snd] in *.
  - split; [ done | ]. intros Hsome. exfalso. apply Hsome. intros k C Hk.
    destruct (Instance.isCompatible _ _ _ _ _ _ _) eqn:Hc; [ | done ].
    assert (C ∈ @nil instanceTypeInformation) as Hin by (apply Helem; eauto).
    by apply elem_of_nil in Hin.
  - split.
    + intros Hnone. exfalso.
      assert (Instance.instanceTI a ∈ map Instance.instanceTI (a :: rest)) as Hin
        by (apply list_elem_of_In, in_map, list_elem_of_In, list_elem_of_here).
      change (map Instance.instanceTI) with (fmap (M:=list) Instance.instanceTI) in Hin.
      rewrite <- (sort_Slice_Permutation _ Instance.lessByPrice (a :: rest)) in Hin.
      apply Helem in Hin as (k & Hk & Hc). rewrite (Hnone k _ Hk) in Hc. done.
    + intros _. split; [ | done ]. intros Hnil.
      apply (f_equal length) in Hnil. rewrite length_map in Hnil.
      rewrite (Permutation_length (sort_Slice_Permutation _ _ _)) in Hnil. done.
Qed.

(** X8. The two lists can only take candidates away. When the allowed list
    is not empty the disallowed list is not read at all; and every candidate
    returned under some lists is also returned when both lists are empty. *)
Theorem compatible_candidates_lists_restrict (i : instance) :
  let result := λ allowedList disallowedList,
    Instance.getCompatibleSpotInstanceTypesListSortedAscendingByPrice filepath_Match
      sort_Slice countLaunchConfigEphemeralVolumes i allowedList disallowedList in
  (∀ a allowedList disallowedList,
     result (a :: allowedList) disallowedList = result (a :: allowedList) [])
  ∧ (∀ allowedList disallowedList C,
       C ∈ (result allowedList disallowedList).1 → C ∈ (result [] []).1).
Proof.
  intros result. split.
  { intros a allowedList disallowedList. subst result. cbv beta.
    rewrite !getCompatible_result. reflexivity. }
  intros allowedList disallowedList C HC. subst result. cbv beta in *.
  apply (getCompatible_elem _ _ _ sort_Slice_Permutation) in HC as (k & Hk & Hcompat).
  apply (getCompatible_elem _ _ _ sort_Slice_Permutation). exists k. split; [ done | ].
  unfold Instance.isCompatible in *. rewrite !andb_true_iff in *.
  destruct Hcompat as [ [ [ [ [ _ ? ] ? ] ? ] ? ] ? ]. done.
Qed.

End FilterBounds.

(** X6 at the catalogue of [Sample]: [c5.2xlarge], at 0.05 in the zone, is
    returned for the [m5.large] reference, whose price is 0.10. *)
Lemma compatible_candidates_within_price_witness :
  PrimFloat.eqb (Instance.calculatePrice Sample.referenceInstance Sample.c5_2xlarge) 0%float
  = false
  ∧ PrimFloat.leb (Instance.calculatePrice Sample.referenceInstance Sample.c5_2xlarge)
      (price Sample.referenceInstance) = true.
Proof.
  apply (compatible_candidates_within_price Sample.literalMatch Sample.sortSlice
           Sample.noEphemeralVolumes
           (λ A less data, gapInsertionSort_Permutation less data)
           Sample.referenceInstance [] [] Sample.c5_2xlarge).
  apply (getCompatible_elem _ _ _ (λ A less data, gapInsertionSort_Permutation less data)).
  exists "c5.2xlarge". split; vm_compute; reflexivity.
Defined.

(** X7 at a region without a catalogue: the error. *)
Lemma compatible_candidates_error_iff_none_witness :
  Instance.getCompatibleSpotInstanceTypesListSortedAscendingByPrice Sample.literalMatch
    Sample.sortSlice Sample.noEphemeralVolumes Sample.targetInstance [] []
  = ([], Some "No cheaper spot instance types could be found").
Proof.
  apply (compatible_candidates_error_iff_none Sample.literalMatch Sample.sortSlice
           Sample.noEphemeralVolumes
           (λ A less data, gapInsertionSort_Permutation less data)
           Sample.targetInstance [] []).
  intros k C Hk.
  change ((∅ : gmap string instanceTypeInformation) !! k = Some C) in Hk.
  by rewrite lookup_empty in Hk.
Defined.

(** X8 at the catalogue of [Sample]: [c5.2xlarge] is returned when it is
    alone on the allowed list (the disallowed list naming it too), and so
    also without lists. *)
Lemma compatible_candidates_lists_restrict_witness :
  Sample.c5_2xlarge
  ∈ (Instance.getCompatibleSpotInstanceTypesListSortedAscendingByPrice Sample.literalMatch
       Sample.sortSlice Sample.noEphemeralVolumes Sample.referenceInstance [] []).1.
Proof.
  apply (proj2 (compatible_candidates_lists_restrict Sample.literalMatch Sample.sortSlice
                  Sample.noEphemeralVolumes
                  (λ A less data, gapInsertionSort_Permutation less data)
                  Sample.referenceInstance) [ "c5.2xlarge" ] [ "c5.2xlarge" ]).
  apply (getCompatible_elem _ _ _ (λ A less data, gapInsertionSort_Permutation less data)).
  exists "c5.2xlarge". split; vm_compute; reflexivity.
Defined.

(** X9. A reference instance whose processor string contains none of
    "Intel", "Variable", "AMD" and "AWS" is in neither processor class, so
    [isSameArch] fails for every candidate, the type of the instance itself
    included: the filter returns the error for every catalogue and every
    pair of lists. *)
Theorem unrecognised_processor_has_no_candidate
  (filepath_Match : string → string → bool)
  (sort_Slice : ∀ A : Type, (A → A → bool) → list A → list A)
  (countLaunchConfigEphemeralVolumes : autoScalingGroup → Z)
  (i : instance) (allowedList disallowedList : list string) :
  strings_Contains (PhysicalProcessor (typeInfo i)) "Intel" = false →
  strings_Contains (PhysicalProcessor (typeInfo i)) "Variable" = false →
  strings_Contains (PhysicalProcessor (typeInfo i)) "AMD" = false →
  strings_Contains (PhysicalProcessor (typeInfo i)) "AWS" = false →
  Instance.getCompatibleSpotInstanceTypesListSortedAscendingByPrice filepath_Match
    sort_Slice countLaunchConfigEphemeralVolumes i allowedList disallowedList
  = ([], Some "No cheaper spot instance types could be found").
Proof.
  intros Hintel Hvariable Hamd Haws. rewrite getCompatible_result.
  unfold Instance.acceptableOf. rewrite omap_all_None; [ reflexivity | ].
  intros k _. unfold Instance.acceptableAt, Instance.isCompatible,
    Instance.isClassCompatible, Instance.isSameArch, Instance.isIntelCompatible,
    Instance.isIntel, Instance.isAMD, Instance.isARM.
  rewrite Hintel, Hvariable, Hamd, Haws. cbn [orb andb].
  by rewrite !andb_false_r.
Qed.

(** X9 at an instance of type [mac2.metal] ("Apple M1 chip") with the
    catalogue of [Sample], which holds cheaper types of every class. *)
Lemma unrecognised_processor_has_no_candidate_witness :
  Instance.getCompatibleSpotInstanceTypesListSortedAscendingByPrice Sample.literalMatch
    Sample.sortSlice Sample.noEphemeralVolumes Sample.macInstance [] []
  = ([], Some "No cheaper spot instance types could be found").
Proof.
  exact (unrecognised_processor_has_no_candidate Sample.literalMatch Sample.sortSlice
           Sample.noEphemeralVolumes Sample.macInstance [] []
           eq_refl eq_refl eq_refl eq_refl).
Defined.

(** ** Tags: reserved keys, and reading the target back *)

Lemma filter_reserved_nil (k : string) (tags : list Tag) :
  k ∈ InstanceConversion.tagsToSkip →
  filter (λ tag, Key tag = k)
    (filter (λ tag, String.prefix "aws:" (Key tag) = false
                    ∧ Key tag ∉ [ "launched-by-autospotting"; "launched-for-asg";
                                  "launched-for-replacing-instance"; "LaunchTemplateID";
                                  "LaunchTemplateVersion"; "LaunchConfigurationName" ]) tags)
  = [].
Proof.
  intros Hk. induction tags as [ | tag rest IH ]; [ reflexivity | ].
  rewrite filter_cons. case_decide as Hkeep; [ | exact IH ].
  rewrite filter_cons. case_decide as Hkey; [ | exact IH ].
  destruct Hkeep as [ _ Hnot ]. exfalso. apply Hnot. by rewrite Hkey.
Qed.

(** X10. In the tag specification that [generateTagsList] of
    [instance_conversion.go] makes, no key starts with "aws:", none of the
    six reserved keys stands more than once, and the three identifying keys
    stand exactly once, with the values the code gives them, whatever tags
    the reference instance carries. *)
Theorem generateTagsList_reserved_keys_once (i : instance) :
  Forall (λ spec,
      (∀ tag, tag ∈ InstanceConversion.specTags spec →
              strings_HasPrefix (Key tag) "aws:" = false)
      ∧ (∀ k, k ∈ InstanceConversion.tagsToSkip →
              (length (filter (λ tag, Key tag = k) (InstanceConversion.specTags spec)) ≤ 1)%nat)
      ∧ filter (λ tag, Key tag = "launched-by-autospotting") (InstanceConversion.specTags spec)
        = [ mkTag "launched-by-autospotting" (Some "true") ]
      ∧ filter (λ tag, Key tag = "launched-for-asg") (InstanceConversion.specTags spec)
        = [ mkTag "launched-for-asg" (Some (name (asg i))) ]
      ∧ filter (λ tag, Key tag = "launched-for-replacing-instance")
          (InstanceConversion.specTags spec)
        = [ mkTag "launched-for-replacing-instance" (Some (InstanceId i)) ])
    (InstanceConversion.generateTagsList i).
Proof.
  rewrite generateTagsList_tag_closure. apply Forall_singleton.
  cbn [InstanceConversion.specTags].
  set (own := filter _ (Tags i)).
  assert (Hown : ∀ k, k ∈ InstanceConversion.tagsToSkip → filter (λ tag, Key tag = k) own = [])
    by (intros k Hk; by apply filter_reserved_nil).
  split; [ | split; [ | split; [ | split ] ] ].
  - intros tag Htag. unfold strings_HasPrefix.
    rewrite !elem_of_app in Htag. destruct Htag as [ Hfixed | [ Hlaunch | Hown' ] ].
    + rewrite !elem_of_cons, elem_of_nil in Hfixed.
      destruct Hfixed as [ -> | [ -> | [ -> | [] ] ] ]; reflexivity.
    + destruct (LaunchTemplate (asg i)) as [ lt | ],
        (LaunchConfigurationName (asg i)) as [ lcn | ];
        rewrite ?elem_of_cons, ?elem_of_nil in Hlaunch;
        intuition (subst; reflexivity).
    + subst own. apply list_elem_of_filter in Hown' as [ [ Hp _ ] _ ]. exact Hp.
  - intros k Hk. rewrite !filter_app, !length_app, (Hown k Hk).
    unfold InstanceConversion.tagsToSkip in Hk.
    rewrite !elem_of_cons, elem_of_nil in Hk.
    destruct (LaunchTemplate (asg i)) as [ lt | ],
      (LaunchConfigurationName (asg i)) as [ lcn | ];
      intuition (subst; cbn [app];
                 repeat (rewrite filter_cons; cbn [Key]); rewrite ?filter_nil;
                 repeat case_decide; try discriminate; cbn [length Nat.add]; lia).
  - rewrite !filter_app, Hown by set_solver.
    destruct (LaunchTemplate (asg i)) as [ lt | ],
      (LaunchConfigurationName (asg i)) as [ lcn | ]; reflexivity.
  - rewrite !filter_app, Hown by set_solver.
    destruct (LaunchTemplate (asg i)) as [ lt | ],
      (LaunchConfigurationName (asg i)) as [ lcn | ]; reflexivity.
  - rewrite !filter_app, Hown by set_solver.
    destruct (LaunchTemplate (asg i)) as [ lt | ],
      (LaunchConfigurationName (asg i)) as [ lcn | ]; reflexivity.
Qed.

Lemma generateTagsList_legacy_prefix (i : instance) :
  ∃ rest,
    map Instance.specTags (Instance.generateTagsList i)
    = [ mkTag "launched-by-autospotting" (Some "true")
        :: mkTag "launched-for-asg" (Some (name (asg i)))
        :: mkTag "launched-for-replacing-instance" (Some (InstanceId i)) :: rest ].
Proof.
  unfold Instance.generateTagsList. cbn [map Instance.specTags].
  set (step := λ (tags : list Tag) (tag : Tag),
                 if Instance.keepTag tag then tags ++ [ tag ] else tags).
  assert (Hfold : ∀ l acc, ∃ more, fold_left step l acc = acc ++ more).
  { induction l as [ | tag l IH ]; intros acc.
    - exists []. by rewrite app_nil_r.
    - cbn [fold_left]. destruct (IH (step acc tag)) as [ more Hmore ]. rewrite Hmore.
      unfold step. destruct (Instance.keepTag tag).
      + exists (tag :: more). by rewrite <- app_assoc.
      + by exists more. }
  match goal with |- context [ fold_left step (Tags i) ?acc ] =>
    destruct (Hfold (Tags i) acc) as [ more Hmore ]; rewrite Hmore end.
  destruct (LaunchTemplate (asg i)) as [ lt | ],
    (LaunchConfigurationName (asg i)) as [ lcn | ]; cbn [app]; eauto.
Qed.

(** X11. What [generateTagsList] writes, [getReplacementTargetInstanceID] and
    [getReplacementTargetASGName] read back: on a spot instance that carries
    the tags made for a reference instance [i], by the [generateTagsList] of
    either file, the two methods return the identifier of [i] and the name of
    its group, also when [i] itself has tags with these keys. *)
Theorem launch_tags_name_the_target (i spotInstance : instance) :
  map InstanceConversion.specTags (InstanceConversion.generateTagsList i)
    = [ Tags spotInstance ]
  ∨ map Instance.specTags (Instance.generateTagsList i) = [ Tags spotInstance ] →
  Instance.getReplacementTargetInstanceID spotInstance = Some (InstanceId i)
  ∧ Instance.getReplacementTargetASGName spotInstance = Some (name (asg i)).
Proof.
  intros [ Hnew | Hlegacy ].
  - rewrite generateTagsList_tag_closure in Hnew.
    cbn [map InstanceConversion.specTags app] in Hnew. injection Hnew as Htags.
    unfold Instance.getReplacementTargetInstanceID, Instance.getReplacementTargetASGName.
    rewrite <- Htags. split; reflexivity.
  - destruct (generateTagsList_legacy_prefix i) as [ rest Hrest ]. rewrite Hrest in Hlegacy.
    injection Hlegacy as Htags.
    unfold Instance.getReplacementTargetInstanceID, Instance.getReplacementTargetASGName.
    rewrite <- Htags. split; reflexivity.
Qed.

(** X11 at the spot instance launched for the target [i-aaa] of group [g1]. *)
Lemma launch_tags_name_the_target_witness :
  Instance.getReplacementTargetInstanceID Sample.launchedSpotInstance = Some "i-aaa"
  ∧ Instance.getReplacementTargetASGName Sample.launchedSpotInstance = Some "g1".
Proof.
  exact (launch_tags_name_the_target Sample.targetInstance Sample.launchedSpotInstance
           (or_introl eq_refl)).
Defined.

(** ** Block devices: when the conversion returns, and what it returns *)

Section BlockDeviceLoop.

Context {N : Type}.
Variable skip : option N → bool.
Variable conv : Ebs → autoScalingGroup → outcome (option string).

Lemma convertLoop_Returns (a : autoScalingGroup) (BDMs : list (BlockDeviceMapping N))
  (bds r : list LaunchTemplateBlockDeviceMappingRequest) :
  InstanceConversion.convertLoop skip conv a BDMs bds = Returns r →
  ∃ reqs, r = bds ++ reqs
          ∧ Forall2 (λ BDM req, InstanceConversion.convertOne conv a BDM = Returns req)
              (filter (λ BDM, skip (NoDevice BDM) = false) BDMs) reqs.
Proof.
  revert bds. induction BDMs as [ | BDM rest IH ]; intros bds Hloop.
  - injection Hloop as <-. exists []. by rewrite app_nil_r.
  - cbn [InstanceConversion.convertLoop] in Hloop.
    destruct (InstanceConversion.convertOne conv a BDM) as [ ec2BDM | msg ] eqn:Hone;
      [ | discriminate ].
    cbn [bind] in Hloop. rewrite filter_cons.
    destruct (skip (NoDevice BDM)) eqn:Hskip.
    + rewrite decide_False by done. by apply IH.
    + rewrite decide_True by done. apply IH in Hloop as (reqs & -> & Hreqs).
      exists (ec2BDM :: reqs). split; [ by rewrite <- app_assoc | ].
      by constructor.
Qed.

Lemma convertLoop_total (a : autoScalingGroup) (BDMs : list (BlockDeviceMapping N))
  (bds : list LaunchTemplateBlockDeviceMappingRequest) :
  (∃ r, InstanceConversion.convertLoop skip conv a BDMs bds = Returns r)
  ↔ Forall (λ BDM, ∀ ebs, bdmEbs BDM = Some ebs → ∃ vt, conv ebs a = Returns vt) BDMs.
Proof.
  revert bds. induction BDMs as [ | BDM rest IH ]; intros bds.
  - split; [ constructor | intros _; by exists bds ].
  - cbn [InstanceConversion.convertLoop]. rewrite Forall_cons.
    unfold InstanceConversion.convertOne.
    destruct (bdmEbs BDM) as [ ebs | ] eqn:Hebs.
    + destruct (conv ebs a) as [ vt | msg ] eqn:Hconv; cbn [bind].
      * destruct (skip (NoDevice BDM)); rewrite IH; split.
        -- intros Hrest. split; [ | done ]. intros ? [= <- ]. eauto.
        -- tauto.
        -- intros Hrest. split; [ | done ]. intros ? [= <- ]. eauto.
        -- tauto.
      * split; [ intros [ r Hr ]; discriminate | ].
        intros [ Hhead _ ]. destruct (Hhead ebs eq_refl) as [ vt Hvt ]. congruence.
    + cbn [bind]. destruct (skip (NoDevice BDM)); rewrite IH; split; try tauto.
      all: intros Hrest; split; [ intros ? [=] | done ].
Qed.

Lemma convertBlockDeviceMappings_total (a : autoScalingGroup)
  (BDMs : list (BlockDeviceMapping N)) :
  (∃ r, InstanceConversion.convertBlockDeviceMappings skip conv a BDMs = Returns r)
  ↔ Forall (λ BDM, ∀ ebs, bdmEbs BDM = Some ebs → ∃ vt, conv ebs a = Returns vt) BDMs.
Proof.
  rewrite <- (convertLoop_total a BDMs []).
  unfold InstanceConversion.convertBlockDeviceMappings.
  destruct (InstanceConversion.convertLoop skip conv a BDMs []) as [ bds | msg ]; cbn [bind].
  - split; [ eauto | ]. intros _. destruct bds; eauto.
  - split; intros [ r Hr ]; discriminate.
Qed.

Lemma convertBlockDeviceMappings_Returns (a : autoScalingGroup)
  (BDMs : list (BlockDeviceMapping N))
  (r : option (list LaunchTemplateBlockDeviceMappingRequest)) :
  InstanceConversion.convertBlockDeviceMappings skip conv a BDMs = Returns r →
  Forall2 (λ BDM req, InstanceConversion.convertOne conv a BDM = Returns req)
    (filter (λ BDM, skip (NoDevice BDM) = false) BDMs) (default [] r)
  ∧ (r = None ↔ filter (λ BDM, skip (NoDevice BDM) = false) BDMs = []).
Proof.
  unfold InstanceConversion.convertBlockDeviceMappings.
  destruct (InstanceConversion.convertLoop skip conv a BDMs []) as [ bds | msg ] eqn:Hloop;
    cbn [bind]; [ | discriminate ].
  apply convertLoop_Returns in Hloop as (reqs & -> & Hreqs). cbn [app].
  destruct reqs as [ | req reqs ]; intros [= <- ]; cbn [default id].
  - split; [ done | ]. apply Forall2_nil_inv_r in Hreqs. by rewrite Hreqs.
  - split; [ done | ]. split; [ done | ]. intros Hnil. rewrite Hnil in Hreqs.
    by apply Forall2_nil_inv_l in Hreqs.
Qed.

End BlockDeviceLoop.

Lemma convertKnownVolumeType_Returns (vt : string) (ebs : Ebs) (a : autoScalingGroup) :
  (∃ r, InstanceConversion.convertKnownVolumeType vt ebs a = Returns r)
  ↔ (vt = "gp2" → is_Some (VolumeSize ebs)).
Proof.
  unfold InstanceConversion.convertKnownVolumeType.
  destruct (String.eqb_spec vt "io1") as [ -> | Hio1 ]; cbn [andb].
  - destruct (InstanceConversion.supportedIO2region (regionName a)).
    + split; [ discriminate | eauto ].
    + cbn [String.eqb Ascii.eqb Bool.eqb]. split; [ discriminate | eauto ].
  - destruct (String.eqb_spec vt "gp2") as [ -> | Hgp2 ].
    + destruct (VolumeSize ebs) as [ size | ]; cbn [deref bind].
      * split; [ eauto | ]. intros _. destruct (size <=? _); eauto.
      * split; [ intros [ r Hr ]; discriminate | ].
        intros Hsome. destruct (Hsome eq_refl) as [ ? [=] ].
    + split; [ done | eauto ].
Qed.

(** X12. When the conversions of block device mappings return rather than
    panic. The launch-configuration conversion returns exactly when every
    EBS specification of type [gp2] has a volume size; the launch-template
    and the image conversions return exactly when every EBS specification has
    a volume type and, if that is [gp2], a volume size. The entries marked
    [NoDevice] count as well: their request is built before they are
    skipped. *)
Theorem convertBlockDeviceMappings_returns_iff (a : autoScalingGroup) :
  (∀ BDMs : list (BlockDeviceMapping bool),
     (∃ r, InstanceConversion.convertLaunchConfigurationBlockDeviceMappings a BDMs = Returns r)
     ↔ Forall (λ BDM, ∀ ebs, bdmEbs BDM = Some ebs →
                        VolumeType ebs = Some "gp2" → is_Some (VolumeSize ebs)) BDMs)
  ∧ (∀ BDMs : list (BlockDeviceMapping string),
       (∃ r, InstanceConversion.convertLaunchTemplateBlockDeviceMappings a BDMs = Returns r)
       ↔ Forall (λ BDM, ∀ ebs, bdmEbs BDM = Some ebs →
                          is_Some (VolumeType ebs)
                          ∧ (VolumeType ebs = Some "gp2" → is_Some (VolumeSize ebs))) BDMs)
  ∧ (∀ BDMs : list (BlockDeviceMapping string),
       (∃ r, InstanceConversion.convertImageBlockDeviceMappings a BDMs = Returns r)
       ↔ Forall (λ BDM, ∀ ebs, bdmEbs BDM = Some ebs →
                          is_Some (VolumeType ebs)
                          ∧ (VolumeType ebs = Some "gp2" → is_Some (VolumeSize ebs))) BDMs).
Proof.
  assert (Hderef : ∀ ebs,
    (∃ vt, bind (deref (VolumeType ebs))
             (λ vt, InstanceConversion.convertKnownVolumeType vt ebs a) = Returns vt)
    ↔ is_Some (VolumeType ebs) ∧ (VolumeType ebs = Some "gp2" → is_Some (VolumeSize ebs))).
  { intros ebs. destruct (VolumeType ebs) as [ vt | ]; cbn [deref bind].
    - rewrite convertKnownVolumeType_Returns. split.
      + intros Hsize. split; [ eauto | ]. intros [= -> ]. by apply Hsize.
      + intros [ _ Hsize ] ->. by apply Hsize.
    - split; [ intros [ ? [=] ] | intros [ [ ? [=] ] _ ] ]. }
  split; [ | split ]; intros BDMs.
  - unfold InstanceConversion.convertLaunchConfigurationBlockDeviceMappings.
    rewrite convertBlockDeviceMappings_total. apply Forall_iff. intros BDM.
    split; intros Hall ebs Hebs.
    + intros Hgp2. destruct (Hall ebs Hebs) as [ vt Hvt ].
      unfold InstanceConversion.convertLaunchConfigurationEBSVolumeType in Hvt.
      rewrite Hgp2 in Hvt. by eapply convertKnownVolumeType_Returns; eauto.
    + unfold InstanceConversion.convertLaunchConfigurationEBSVolumeType.
      destruct (VolumeType ebs) as [ vt | ] eqn:Hvt; [ | eauto ].
      apply convertKnownVolumeType_Returns. intros ->. by eapply Hall.
  - unfold InstanceConversion.convertLaunchTemplateBlockDeviceMappings.
    rewrite convertBlockDeviceMappings_total. apply Forall_iff. intros BDM.
    unfold InstanceConversion.convertLaunchTemplateEBSVolumeType.
    split; intros Hall ebs Hebs; by apply Hderef, Hall.
  - unfold InstanceConversion.convertImageBlockDeviceMappings.
    rewrite convertBlockDeviceMappings_total. apply Forall_iff. intros BDM.
    unfold InstanceConversion.convertImageEBSVolumeType.
    split; intros Hall ebs Hebs; by apply Hderef, Hall.
Qed.

(** X13. What the launch-configuration conversion returns. The requests are,
    in order, those of the mappings not marked [NoDevice]; each carries the
    device and virtual names of its mapping and, when the mapping has an EBS
    specification, that specification with every field unchanged but the
    volume type, which is the converted one. The result is [nil] exactly
    when no mapping is kept. *)
Theorem convertBlockDeviceMappings_keeps_devices (a : autoScalingGroup)
  (BDMs : list (BlockDeviceMapping bool))
  (r : option (list LaunchTemplateBlockDeviceMappingRequest)) :
  InstanceConversion.convertLaunchConfigurationBlockDeviceMappings a BDMs = Returns r →
  let kept := filter (λ BDM, NoDevice BDM ≠ Some true) BDMs in
  (r = None ↔ kept = [])
  ∧ Forall2 (λ BDM req,
       reqDeviceName req = DeviceName BDM
       ∧ reqVirtualName req = VirtualName BDM
       ∧ match bdmEbs BDM, reqEbs req with
         | None, None => True
         | Some ebs, Some q =>
             reqDeleteOnTermination q = DeleteOnTermination ebs
             ∧ reqEncrypted q = Encrypted ebs
             ∧ reqIops q = Iops ebs
             ∧ reqSnapshotId q = SnapshotId ebs
             ∧ reqVolumeSize q = VolumeSize ebs
             ∧ InstanceConversion.convertLaunchConfigurationEBSVolumeType ebs a
               = Returns (reqVolumeType q)
         | _, _ => False
         end) kept (default [] r).
Proof.
  intros Hr kept.
  assert (Hkept : kept = filter (λ BDM, InstanceConversion.noDeviceBool (NoDevice BDM) = false) BDMs).
  { subst kept. apply list_filter_iff. intros BDM.
    destruct (NoDevice BDM) as [ [ | ] | ]; cbn; split; congruence. }
  apply convertBlockDeviceMappings_Returns in Hr as [ Hall Hnone ].
  rewrite Hkept. split; [ exact Hnone | ].
  eapply Forall2_impl; [ exact Hall | ].
  intros BDM req Hone. unfold InstanceConversion.convertOne in Hone.
  destruct (bdmEbs BDM) as [ ebs | ].
  - destruct (InstanceConversion.convertLaunchConfigurationEBSVolumeType ebs a) as [ vt | msg ];
      cbn [bind] in Hone; [ | discriminate ].
    injection Hone as <-. cbn. tauto.
  - injection Hone as <-. cbn. tauto.
Qed.

(** X13 at a root volume of 100 GiB [gp2] and an ephemeral device marked
    [NoDevice]: one request, for the root volume, as [gp3]. *)
Lemma convertBlockDeviceMappings_keeps_devices_witness :
  let BDMs :=
    [ mkBDM (Some "/dev/xvda") None (Some (Sample.volume (Some "gp2") (Some 100))) None;
      mkBDM (Some "/dev/sdb") (Some "ephemeral0") None (Some true) ] in
  InstanceConversion.convertLaunchConfigurationBlockDeviceMappings Sample.groupUsEast1 BDMs
  = Returns (Some [ mkBDMRequest (Some "/dev/xvda") None
                      (Some (mkEbsRequest (Some true) None None None (Some 100)
                               (Some "gp3"))) ])
  ∧ filter (λ BDM, NoDevice BDM ≠ Some true) BDMs
    = [ mkBDM (Some "/dev/xvda") None (Some (Sample.volume (Some "gp2") (Some 100))) None ].
Proof.
  intros BDMs. split; [ reflexivity | ].
  destruct (convertBlockDeviceMappings_keeps_devices Sample.groupUsEast1 BDMs _ eq_refl)
    as [ _ Hall ].
  apply Forall2_length in Hall.
  destruct (filter (λ BDM : BlockDeviceMapping bool, NoDevice BDM ≠ Some true) BDMs)
    as [ | BDM [ | ] ] eqn:Hkept; try discriminate.
  rewrite <- Hkept. reflexivity.
Defined.

(** X14. The conversion of the volume type is idempotent: the type it returns
    for a volume is the type it returns for the same volume carrying the
    returned type, so converting an already converted configuration changes
    nothing. *)
Theorem convertEBSVolumeType_idempotent (ebs : Ebs) (a : autoScalingGroup)
  (vt : option string) :
  InstanceConversion.convertLaunchConfigurationEBSVolumeType ebs a = Returns vt →
  InstanceConversion.convertLaunchConfigurationEBSVolumeType
    (InstanceConversion.withVolumeType ebs vt) a
  = Returns vt.
Proof.
  unfold InstanceConversion.convertLaunchConfigurationEBSVolumeType.
  destruct (VolumeType ebs) as [ vt0 | ] eqn:Hvt0; [ | by intros [= <- ] ].
  unfold InstanceConversion.convertKnownVolumeType.
  destruct (String.eqb_spec vt0 "io1") as [ -> | Hio1 ]; cbn [andb].
  - destruct (InstanceConversion.supportedIO2region (regionName a)) eqn:Hregion.
    + intros [= <- ]. reflexivity.
    + cbn [String.eqb Ascii.eqb Bool.eqb]. rewrite Hvt0. intros [= <- ].
      cbn [InstanceConversion.withVolumeType VolumeType String.eqb Ascii.eqb Bool.eqb andb].
      reflexivity.
  - destruct (String.eqb_spec vt0 "gp2") as [ -> | Hgp2 ].
    + destruct (VolumeSize ebs) as [ size | ] eqn:Hsize; cbn [deref bind]; [ | discriminate ].
      destruct (size <=? GP2ConversionThreshold a) eqn:Hle.
      * intros [= <- ]. reflexivity.
      * rewrite Hvt0. intros [= <- ].
        cbn [InstanceConversion.withVolumeType VolumeType VolumeSize String.eqb Ascii.eqb
             Bool.eqb andb deref bind].
        rewrite ?Hsize. cbn [deref bind]. rewrite ?Hle. reflexivity.
    + rewrite Hvt0. intros [= <- ]. cbn [InstanceConversion.withVolumeType VolumeType].
      destruct (String.eqb_spec vt0 "io1"); [ done | ].
      destruct (String.eqb_spec vt0 "gp2"); [ done | ]. reflexivity.
Qed.

(** X14 at a [gp2] volume of 100 GiB, converted to [gp3]: a [gp3] volume of
    100 GiB stays [gp3]. *)
Lemma convertEBSVolumeType_idempotent_witness :
  InstanceConversion.convertLaunchConfigurationEBSVolumeType
    (InstanceConversion.withVolumeType (Sample.volume (Some "gp2") (Some 100)) (Some "gp3"))
    Sample.groupUsEast1
  = Returns (Some "gp3").
Proof.
  exact (convertEBSVolumeType_idempotent (Sample.volume (Some "gp2") (Some 100))
           Sample.groupUsEast1 (Some "gp3") eq_refl).
Defined.

(** ** Bid price: the ceiling *)

Lemma key_compare_refl (a : Z * Z * Z) : FloatOrder.key_compare a a = Eq.
Proof. destruct a as [ [ a1 a2 ] a3 ]. key_compare_cases. Qed.

Lemma key_compare_Eq_sym (a b : Z * Z * Z) :
  FloatOrder.key_compare a b = Eq → FloatOrder.key_compare b a = Eq.
Proof. destruct a as [ [ a1 a2 ] a3 ], b as [ [ b1 b2 ] b3 ]. key_compare_cases. Qed.

Lemma leb_refl (x : PrimFloat.float) : FloatOrder.ordered x → PrimFloat.leb x x = true.
Proof.
  intros Hx. rewrite (leb_key x x Hx Hx). apply bool_decide_eq_true_2.
  by rewrite key_compare_refl.
Qed.

Lemma eqb_leb (x y : PrimFloat.float) : PrimFloat.eqb x y = true → PrimFloat.leb y x = true.
Proof.
  rewrite FloatAxioms.eqb_spec. unfold SpecFloat.SFeqb. intros Heq.
  assert (FloatOrder.is_nan (Prim2SF x) = false ∧ FloatOrder.is_nan (Prim2SF y) = false)
    as [ Hx Hy ] by (by destruct (Prim2SF x), (Prim2SF y)).
  rewrite (SFcompare_key _ _ Hx Hy) in Heq.
  rewrite leb_key by by apply Prim2SF_ordered.
  apply bool_decide_eq_true_2.
  destruct (FloatOrder.key_compare (FloatOrder.key (Prim2SF x)) (FloatOrder.key (Prim2SF y)))
    eqn:Hc; try discriminate.
  by rewrite (key_compare_Eq_sym _ _ Hc).
Qed.

Lemma neg_infinity_leb (x : PrimFloat.float) :
  FloatOrder.ordered x → PrimFloat.leb PrimFloat.neg_infinity x = true.
Proof.
  intros Hx. rewrite FloatAxioms.leb_spec. apply Prim2SF_ordered in Hx.
  replace (Prim2SF PrimFloat.neg_infinity) with (SpecFloat.S754_infinity true)
    by (vm_compute; reflexivity).
  by destruct (Prim2SF x) as [ [ | ] | [ | ] | | [ | ] m e ].
Qed.

Lemma is_nan_ordered (x : PrimFloat.float) : is_nan x = false ↔ FloatOrder.ordered x.
Proof. unfold is_nan, FloatOrder.ordered. by destruct (PrimFloat.eqb x x). Qed.

(** [math.Min(x, y)] is at most [x], or is a NaN. *)
Lemma math_Min_le (x y : PrimFloat.float) :
  is_nan x = false →
  PrimFloat.leb (math_Min x y) x = true ∨ is_nan (math_Min x y) = true.
Proof.
  intros Hx. pose proof (proj1 (is_nan_ordered x) Hx) as Hox. unfold math_Min.
  destruct (PrimFloat.eqb x PrimFloat.neg_infinity || PrimFloat.eqb y PrimFloat.neg_infinity).
  { left. by apply neg_infinity_leb. }
  rewrite Hx. cbn [orb].
  destruct (is_nan y) eqn:Hy.
  { right. vm_compute. reflexivity. }
  apply is_nan_ordered in Hy. left.
  destruct (PrimFloat.eqb x PrimFloat.zero && PrimFloat.eqb x y) eqn:Hzero.
  { apply andb_true_iff in Hzero as [ _ Heq ].
    destruct (signbit x); [ by apply leb_refl | by apply eqb_leb ]. }
  destruct (PrimFloat.ltb x y) eqn:Hlt; [ by apply leb_refl | ].
  by apply ltb_false_leb.
Qed.

(** X15. The bid never exceeds the on-demand price it is given as the
    ceiling. For a ceiling that is a number, under every bidding policy and
    for every spot price, premium and buffer, the bid of [getPriceToBid]
    ([instance_conversion.go]) and the bid of [getPricetoBid] ([instance.go])
    are less than or equal to the ceiling, or are NaN (which happens only
    when the price computed from the spot price is NaN). *)
Theorem bid_never_above_ceiling (i : instance)
  (baseOnDemandPrice currentSpotPrice spotPremium : float64) :
  is_nan baseOnDemandPrice = false →
  (PrimFloat.leb (InstanceConversion.getPriceToBid i baseOnDemandPrice currentSpotPrice
                    spotPremium) baseOnDemandPrice = true
   ∨ is_nan (InstanceConversion.getPriceToBid i baseOnDemandPrice currentSpotPrice
               spotPremium) = true)
  ∧ (PrimFloat.leb (Instance.getPricetoBid i baseOnDemandPrice currentSpotPrice)
       baseOnDemandPrice = true
     ∨ is_nan (Instance.getPricetoBid i baseOnDemandPrice currentSpotPrice) = true).
Proof.
  intros Hbase. split.
  - unfold InstanceConversion.getPriceToBid.
    destruct (String.eqb _ _); [ | by apply math_Min_le ].
    left. by apply leb_refl, is_nan_ordered.
  - unfold Instance.getPricetoBid.
    destruct (String.eqb _ _); [ | by apply math_Min_le ].
    left. by apply leb_refl, is_nan_ordered.
Qed.

(** X15 under the aggressive policy with a buffer of 10 percent and a ceiling
    of 0.10: at a spot price of 0.05 with a premium of 0.02, and, for the
    legacy bid, at a spot price of 0.095 (where the buffered price is above
    the ceiling). *)
Lemma bid_never_above_ceiling_witness :
  PrimFloat.leb
    (InstanceConversion.getPriceToBid
       (Sample.onDemandInstance (Sample.regionWith "aggressive" 10%float ∅)
          Sample.groupUsEast1 [])
       0.10%float 0.05%float 0.02%float) 0.10%float = true
  ∧ PrimFloat.leb
      (Instance.getPricetoBid
         (Sample.onDemandInstance (Sample.regionWith "aggressive" 10%float ∅)
            Sample.groupUsEast1 [])
         0.10%float 0.095%float) 0.10%float = true.
Proof.
  destruct (bid_never_above_ceiling
              (Sample.onDemandInstance (Sample.regionWith "aggressive" 10%float ∅)
                 Sample.groupUsEast1 [])
              0.10%float 0.05%float 0.02%float eq_refl) as [ [ Hnew | Hnan ] _ ];
    [ | vm_compute in Hnan; discriminate ].
  destruct (bid_never_above_ceiling
              (Sample.onDemandInstance (Sample.regionWith "aggressive" 10%float ∅)
                 Sample.groupUsEast1 [])
              0.10%float 0.095%float 0.02%float eq_refl) as [ _ [ Hold | Hnan ] ];
    [ | vm_compute in Hnan; discriminate ].
  exact (conj Hnew Hold).
Defined.

(** ** The swap: the order of the requests *)

Section SwapOrder.

Context {G : Type} {gv : InstanceActions.GroupView G}.
Variable scanInstance : string → gmap string instance → option error * gmap string instance.
Variable shouldBeReplacedWithSpot : instance → bool.
Variable ec2_TerminateInstances : string → option error.

(** X16. The requests of a swap that has found its target, in the order of
    sending: the suspension of the processes; the raise of the bound when
    the desired capacity equals it; the attachment of the spot instance;
    then, when the attachment succeeded, the termination of the on-demand
    instance in the group, and when it failed, the termination of the spot
    instance (unless it is already terminated or shutting down); the
    lowering of the bound when it was raised; the resumption of the
    processes. The on-demand instance is thus asked to terminate only after
    the spot instance has been attached. *)
Theorem swapWithGroupMember_request_order (i odInstance : instance)
  (w w1 : InstanceActions.world G) :
  InstanceActions.getSwapCandidate scanInstance shouldBeReplacedWithSpot
    ec2_TerminateInstances i w = (inr odInstance, w1) →
  let suspended := InstanceActions.suspendProcesses (InstanceActions.group w) in
  let maxSize := InstanceActions.MaxSize suspended in
  let raised := InstanceActions.DesiredCapacity suspended =? maxSize in
  let armed :=
    if raised then InstanceActions.setAutoScalingMaxSize (int64_add maxSize 1) suspended
    else suspended in
  InstanceActions.calls
    (InstanceActions.swapWithGroupMember scanInstance shouldBeReplacedWithSpot
       ec2_TerminateInstances i w).2
  = InstanceActions.calls w
    ++ [ InstanceActions.SuspendProcesses ]
    ++ (if raised then [ InstanceActions.SetAutoScalingMaxSize (int64_add maxSize 1) ] else [])
    ++ [ InstanceActions.AttachSpotInstance (InstanceId i) true ]
    ++ match (InstanceActions.attachSpotInstance (InstanceId i) true armed).1 with
       | Some _ =>
           if Instance.canTerminate i
           then [ InstanceActions.TerminateInstances (InstanceId i) ] else []
       | None =>
           [ InstanceActions.TerminateInstanceInAutoScalingGroup (InstanceId odInstance)
               true true ]
       end
    ++ (if raised then [ InstanceActions.SetAutoScalingMaxSize maxSize ] else [])
    ++ [ InstanceActions.ResumeProcesses ].
Proof.
  intros Hcandidate suspended maxSize raised armed.
  destruct (getSwapCandidate_found _ _ _ _ _ _ _ Hcandidate) as [ Hgroup Hcalls ].
  unfold InstanceActions.swapWithGroupMember. unfold Eff.bind at 1. rewrite Hcandidate.
  unfold Eff.defer, Eff.bind, Eff.get, Eff.ret, InstanceActions.asg_suspendProcesses,
    InstanceActions.asg_resumeProcesses, InstanceActions.asg_setAutoScalingMaxSize,
    InstanceActions.attachAndTerminate, InstanceActions.asg_attachSpotInstance,
    InstanceActions.asg_terminateInstanceInAutoScalingGroup, InstanceActions.terminate,
    InstanceActions.send, Eff.modify, InstanceActions.onGroup, Eff.bind, Eff.ret.
  cbn [InstanceActions.group InstanceActions.calls InstanceActions.instances].
  rewrite Hgroup, Hcalls. fold suspended. fold maxSize. fold raised.
  destruct raised; cbn [InstanceActions.group InstanceActions.calls InstanceActions.instances];
    subst armed; cbv iota.
  - destruct (InstanceActions.attachSpotInstance (InstanceId i) true _) as [ [ e | ] g3 ];
      cbn [fst snd InstanceActions.group InstanceActions.calls].
    + destruct (Instance.canTerminate i); cbn [negb fst snd InstanceActions.calls];
        cbn [app]; by rewrite <- ?app_assoc.
    + destruct (InstanceActions.terminateInstanceInAutoScalingGroup _ _ _ g3) as [ [ e | ] g4 ];
        cbn [fst snd InstanceActions.calls]; cbn [app]; by rewrite <- ?app_assoc.
  - destruct (InstanceActions.attachSpotInstance (InstanceId i) true _) as [ [ e | ] g3 ];
      cbn [fst snd InstanceActions.group InstanceActions.calls].
    + destruct (Instance.canTerminate i); cbn [negb fst snd InstanceActions.calls];
        cbn [app]; by rewrite <- ?app_assoc.
    + destruct (InstanceActions.terminateInstanceInAutoScalingGroup _ _ _ g3) as [ [ e | ] g4 ];
        cbn [fst snd InstanceActions.calls]; cbn [app]; by rewrite <- ?app_assoc.
Qed.

End SwapOrder.

(** X16 at a group of desired capacity 2 and bound 3 that refuses the
    attachment: the bound is not touched, the spot instance is terminated and
    the on-demand instance is left alone. *)
Lemma swapWithGroupMember_request_order_witness :
  InstanceActions.calls
    (InstanceActions.swapWithGroupMember
       (Sample.describeFinds Sample.targetIndex) (λ _, true) (λ _, None)
       Sample.spotInstance (Sample.swapWorld 3 2 true false)).2
  = [ InstanceActions.SuspendProcesses;
      InstanceActions.AttachSpotInstance "i-spot" true;
      InstanceActions.TerminateInstances "i-spot";
      InstanceActions.ResumeProcesses ].
Proof.
  exact (@swapWithGroupMember_request_order Sample.simpleGroup Sample.simpleGroupView
           (Sample.describeFinds Sample.targetIndex) (λ _, true) (λ _, None)
           Sample.spotInstance Sample.targetInstance
           (Sample.swapWorld 3 2 true false)
           (InstanceActions.mkWorld
              (InstanceActions.group (Sample.swapWorld 3 2 true false))
              Sample.targetIndex [])
           ltac:(vm_compute; reflexivity)).
Defined.

(** ** The index of instances *)

(** X17. [add] and [get] of the instance manager. An instance that was added
    is returned by [get] under its identifier, and no other identifier is
    affected; adding [nil] changes nothing; adding an instance under an
    identifier that is already present replaces the record and leaves the
    count, adding a new one raises the count by one; after [make] the
    manager is empty. *)
Theorem instanceManager_add_get (manager : InstanceManager.instanceManager)
  (inst : instance) (instanceID : string) :
  InstanceManager.get instanceID (InstanceManager.add (Some inst) manager)
  = (if decide (instanceID = InstanceId inst) then Some inst
     else InstanceManager.get instanceID manager)
  ∧ InstanceManager.add None manager = manager
  ∧ InstanceManager.count (InstanceManager.add (Some inst) manager)
    = match InstanceManager.get (InstanceId inst) manager with
      | Some _ => InstanceManager.count manager
      | None => InstanceManager.count manager + 1
      end
  ∧ InstanceManager.get instanceID (InstanceManager.make manager) = None
  ∧ InstanceManager.count (InstanceManager.make manager) = 0.
Proof.
  unfold InstanceManager.get, InstanceManager.add, InstanceManager.count,
    InstanceManager.make. cbn [InstanceManager.catalog].
  split; [ | split; [ | split; [ | split ] ] ].
  - rewrite lookup_insert. by repeat case_decide.
  - reflexivity.
  - rewrite map_size_insert.
    destruct (InstanceManager.catalog manager !! InstanceId inst); cbn [id]; lia.
  - apply lookup_empty.
  - by rewrite map_size_empty.
Qed.

(** ** The launch: the temporary launch template and the fleet request *)

Lemma set_BlockDeviceMappings_same (r : Launch.RequestLaunchTemplateData.t) :
  Launch.RequestLaunchTemplateData.set_BlockDeviceMappings
    (Launch.RequestLaunchTemplateData.BlockDeviceMappings r) r = r.
Proof. by destruct r. Qed.

Lemma appendOtherResourceTypes_Returns
  (specs generated out : list InstanceConversion.LaunchTemplateTagSpecificationRequest) :
  SpotLaunch.appendOtherResourceTypes specs generated = Returns out →
  out = generated
        ++ filter (λ ts, InstanceConversion.ResourceType ts ≠ Some "instance") specs.
Proof.
  revert generated. induction specs as [ | ts rest IH ]; intros generated.
  - intros [= <- ]. by rewrite app_nil_r.
  - cbn [SpotLaunch.appendOtherResourceTypes]. rewrite filter_cons.
    destruct (InstanceConversion.ResourceType ts) as [ resourceType | ]; [ | discriminate ].
    cbn [deref bind]. destruct (String.eqb_spec resourceType "instance") as [ -> | Hne ].
    + cbn [negb]. rewrite decide_False by (intros H; by apply H). apply IH.
    + cbn [negb]. rewrite decide_True by congruence.
      intros Hrest%IH. by rewrite Hrest, <- app_assoc.
Qed.

Lemma map_copy_tag_specs
  (specs : list InstanceConversion.LaunchTemplateTagSpecificationRequest) :
  map (λ ts, InstanceConversion.mkTagSpec (InstanceConversion.ResourceType ts)
               (InstanceConversion.specTags ts)) specs = specs.
Proof.
  induction specs as [ | [ resourceType tags ] rest IH ]; [ reflexivity | ].
  cbn [map]. by rewrite IH.
Qed.

Lemma filter_instance_of_others
  (specs : list InstanceConversion.LaunchTemplateTagSpecificationRequest) :
  filter (λ ts, InstanceConversion.ResourceType ts = Some "instance")
    (filter (λ ts, InstanceConversion.ResourceType ts ≠ Some "instance") specs) = [].
Proof.
  induction specs as [ | ts rest IH ]; [ reflexivity | ].
  rewrite filter_cons. case_decide as Hother; [ | exact IH ].
  rewrite filter_cons. by rewrite decide_False.
Qed.

Section SynthesisProperties.

Variable hasNetworkInterfaces :
  Launch.ResponseLaunchTemplateData.t →
  bool * list Launch.LaunchTemplateInstanceNetworkInterfaceSpecification.t.
Variable patchedUserData : option string → option string.
Variable formatFloat : float64 → string.
Variable compatibleTypes : instance → outcome (list (option string) * option error).
Variable ec2 : Launch.EC2API.

(** The image only gives block device mappings. *)
Lemma processImageBlockDevices_Returns (i : instance) (src : Launch.Source.t)
  (rii r : Launch.RequestLaunchTemplateData.t) (log log' : list Launch.request) :
  SpotLaunch.processImageBlockDevices ec2 i src rii log = (Returns r, log') →
  log' = log ++ [ Launch.DescribeImages [ Launch.Source.ImageId src ] ]
  ∧ r = Launch.RequestLaunchTemplateData.set_BlockDeviceMappings
          (match Launch.ec2_DescribeImages ec2 [ Launch.Source.ImageId src ] with
           | (Some image :: _, None) =>
               match InstanceConversion.convertImageBlockDeviceMappings (asg i)
                       (Launch.Image.BlockDeviceMappings image) with
               | Returns BDMs => BDMs
               | Panics _ => None
               end
           | _ => Launch.RequestLaunchTemplateData.BlockDeviceMappings rii
           end) rii.
Proof.
  unfold SpotLaunch.processImageBlockDevices, Launch.bind, Launch.ask, Launch.lift,
    Launch.ret, Eff.ret.
  destruct (Launch.ec2_DescribeImages ec2 [ Launch.Source.ImageId src ])
    as [ [ | [ image | ] rest ] [ e | ] ]; cbn [deref]; try discriminate;
    try (intros [= <- <- ]; by rewrite set_BlockDeviceMappings_same).
  destruct (InstanceConversion.convertImageBlockDeviceMappings _ _) as [ BDMs | msg ];
    intros [= <- <- ]. done.
Qed.

(** What [processLaunchTemplate] leaves in the data when it returns without
    an error. *)
Lemma processLaunchTemplate_Returns (i : instance) (src : Launch.Source.t)
  (retval r : Launch.RequestLaunchTemplateData.t) (log log' : list Launch.request) :
  SpotLaunch.processLaunchTemplate hasNetworkInterfaces patchedUserData ec2 i src retval log
  = (Returns (r, None), log') →
  ∃ lt ltData,
    LaunchTemplate (asg i) = Some lt
    ∧ Launch.ec2_DescribeLaunchTemplateVersions ec2 (LaunchTemplateId lt) [ Version lt ]
      = ([ Some (Launch.LaunchTemplateVersion.mk (Some ltData)) ], None)
    ∧ log' = log ++ [ Launch.DescribeLaunchTemplateVersions (LaunchTemplateId lt)
                        [ Version lt ] ]
    ∧ InstanceConversion.convertLaunchTemplateBlockDeviceMappings (asg i)
        (Launch.ResponseLaunchTemplateData.BlockDeviceMappings ltData)
      = Returns (Launch.RequestLaunchTemplateData.BlockDeviceMappings r)
    ∧ Launch.RequestLaunchTemplateData.TagSpecifications r
      = Launch.ResponseLaunchTemplateData.TagSpecifications ltData
    ∧ (if (hasNetworkInterfaces ltData).1
       then Launch.RequestLaunchTemplateData.SecurityGroupIds r = []
            ∧ Launch.RequestLaunchTemplateData.NetworkInterfaces r
              = Launch.RequestLaunchTemplateData.NetworkInterfaces retval
                ++ map (λ ni,
                     Launch.LaunchTemplateInstanceNetworkInterfaceSpecificationRequest.mk
                       (Launch.LaunchTemplateInstanceNetworkInterfaceSpecification.AssociatePublicIpAddress ni)
                       (Launch.Source.SubnetId src)
                       (Launch.LaunchTemplateInstanceNetworkInterfaceSpecification.DeviceIndex ni)
                       (SpotLaunch.convertSecurityGroups src))
                    (hasNetworkInterfaces ltData).2
       else Launch.RequestLaunchTemplateData.NetworkInterfaces r = []
            ∧ Launch.RequestLaunchTemplateData.SecurityGroupIds r
              = Launch.RequestLaunchTemplateData.SecurityGroupIds retval
                ++ Launch.ResponseLaunchTemplateData.SecurityGroupIds ltData).
Proof.
  unfold SpotLaunch.processLaunchTemplate.
  unfold Launch.bind at 1. unfold Launch.lift at 1. unfold Eff.ret at 1.
  destruct (LaunchTemplate (asg i)) as [ lt | ]; cbn [deref]; [ | discriminate ].
  unfold Launch.bind at 1. unfold SpotLaunch.getlaunchTemplate.
  unfold Launch.bind at 1. unfold Launch.ask at 1.
  destruct (Launch.ec2_DescribeLaunchTemplateVersions ec2 (LaunchTemplateId lt) [ Version lt ])
    as [ versions [ e | ] ] eqn:Hdescribe.
  { unfold Launch.bind, Launch.lift, Launch.ret, Eff.ret.
    destruct (LaunchTemplateId lt), (Version lt); cbn [deref snd]; discriminate. }
  destruct versions as [ | [ [ [ ltData | ] ] | ] [ | ] ];
    unfold Launch.bind at 1; unfold Launch.lift at 1; unfold Launch.ret at 1;
    unfold Eff.ret at 1; cbn [deref fst snd]; try discriminate;
    unfold Launch.ret at 1; unfold Eff.ret at 1; cbn [fst snd]; try discriminate.
  unfold Launch.bind at 1. unfold Launch.lift at 1. unfold Eff.ret at 1.
  cbn [deref Launch.LaunchTemplateVersion.LaunchTemplateData].
  unfold Launch.bind at 1. unfold Launch.lift at 1. unfold Eff.ret at 1.
  destruct (InstanceConversion.convertLaunchTemplateBlockDeviceMappings _ _)
    as [ BDMs | msg ] eqn:HBDMs; [ | discriminate ].
  destruct (hasNetworkInterfaces ltData) as [ having nis ] eqn:Hhaving.
  unfold Launch.ret, Eff.ret. intros [= <- <- ].
  exists lt, ltData. split; [ done | ]. split; [ done | ]. split; [ done | ].
  rewrite Hhaving. cbn [fst snd].
  destruct having, (Launch.Source.PatchBeanstalkUserdata src),
    (Launch.ResponseLaunchTemplateData.CapacityReservationSpecification ltData);
    cbn; (split; [ done | ]); (split; [ by apply map_copy_tag_specs | done ]).
Qed.

(** What [processLaunchConfiguration] leaves in the data. *)
Lemma processLaunchConfiguration_Returns (i : instance) (src : Launch.Source.t)
  (lc : Launch.LaunchConfiguration.t) (retval r : Launch.RequestLaunchTemplateData.t) :
  SpotLaunch.processLaunchConfiguration patchedUserData i src lc retval = Returns r →
  Launch.RequestLaunchTemplateData.TagSpecifications r
  = Launch.RequestLaunchTemplateData.TagSpecifications retval
  ∧ (∃ BDMs,
       InstanceConversion.convertLaunchConfigurationBlockDeviceMappings (asg i)
         (Launch.LaunchConfiguration.BlockDeviceMappings lc) = Returns BDMs
       ∧ Launch.RequestLaunchTemplateData.BlockDeviceMappings r
         = match BDMs with
           | Some (_ :: _) => BDMs
           | _ => Launch.RequestLaunchTemplateData.BlockDeviceMappings retval
           end)
  ∧ (if bool_decide (Launch.LaunchConfiguration.AssociatePublicIpAddress lc ≠ None)
        || bool_decide (Launch.Source.SubnetId src ≠ None)
     then Launch.RequestLaunchTemplateData.SecurityGroupIds r = []
          ∧ Launch.RequestLaunchTemplateData.NetworkInterfaces r
            = [ Launch.LaunchTemplateInstanceNetworkInterfaceSpecificationRequest.mk
                  (Launch.LaunchConfiguration.AssociatePublicIpAddress lc)
                  (Launch.Source.SubnetId src) (Some 0)
                  (SpotLaunch.convertSecurityGroups src) ]
     else Launch.RequestLaunchTemplateData.SecurityGroupIds r
          = Launch.RequestLaunchTemplateData.SecurityGroupIds retval
          ∧ Launch.RequestLaunchTemplateData.NetworkInterfaces r
            = Launch.RequestLaunchTemplateData.NetworkInterfaces retval).
Proof.
  unfold SpotLaunch.processLaunchConfiguration.
  destruct (InstanceConversion.convertLaunchConfigurationBlockDeviceMappings _ _)
    as [ BDMs | msg ]; cbn [bind]; [ | discriminate ].
  intros [= <- ].
  destruct (bool_decide _ || bool_decide _),
    (Launch.LaunchConfiguration.KeyName lc) as [ keyName | ],
    (Launch.LaunchConfiguration.IamInstanceProfile lc) as [ profile | ],
    (Launch.Source.PatchBeanstalkUserdata src),
    (Launch.LaunchConfiguration.InstanceMonitoring lc) as [ monitoring | ],
    BDMs as [ [ | BDM BDMs ] | ];
    try destruct (String.eqb keyName ""); try destruct (strings_HasPrefix profile _);
    cbn; (split; [ done | ]); (split; [ | done ]); eexists; (split; [ reflexivity | done ]).
Qed.

(** The stages of a run of [createLaunchTemplateData] that returns the data. *)
Lemma createLaunchTemplateData_Returns (i : instance) (src : Launch.Source.t)
  (ltData : Launch.RequestLaunchTemplateData.t) (log log' : list Launch.request) :
  SpotLaunch.createLaunchTemplateData hasNetworkInterfaces patchedUserData formatFloat ec2
    i src log = (Returns (Some ltData, None), log') →
  ∃ placement r0 r1 r2 log0 specs,
    Launch.Source.Placement src = Some placement
    ∧ SpotLaunch.processImageBlockDevices ec2 i src
        (Launch.RequestLaunchTemplateData.set_SecurityGroupIds
           (SpotLaunch.convertSecurityGroups src) Launch.RequestLaunchTemplateData.zero) log
      = (Returns r0, log0)
    ∧ match LaunchTemplate (asg i) with
      | Some _ =>
          SpotLaunch.processLaunchTemplate hasNetworkInterfaces patchedUserData ec2 i src
            r0 log0 = (Returns (r1, None), log')
      | None => r1 = r0 ∧ log' = log0
      end
    ∧ match Launch.Source.launchConfiguration src with
      | Some lc => SpotLaunch.processLaunchConfiguration patchedUserData i src lc r1
                   = Returns r2
      | None => r2 = r1
      end
    ∧ SpotLaunch.appendOtherResourceTypes
        (Launch.RequestLaunchTemplateData.TagSpecifications r2)
        (InstanceConversion.generateTagsList i) = Returns specs
    ∧ ltData
      = Launch.RequestLaunchTemplateData.set_TagSpecifications specs
          (Launch.RequestLaunchTemplateData.set_Placement (Some placement)
             (Launch.RequestLaunchTemplateData.set_InstanceMarketOptions
                (Some (Launch.LaunchTemplateInstanceMarketOptionsRequest.mk (Some "spot")
                         (Some (Launch.LaunchTemplateSpotMarketOptionsRequest.mk
                                  (Some (formatFloat (price i)))))))
                (Launch.RequestLaunchTemplateData.set_EbsOptimized (EbsOptimized i) r2))).
Proof.
  unfold SpotLaunch.createLaunchTemplateData.
  unfold Launch.bind at 1. unfold Launch.lift at 1. unfold Eff.ret at 1.
  destruct (Launch.Source.Placement src) as [ placement | ]; cbn [deref]; [ | discriminate ].
  unfold Launch.bind at 1.
  destruct (SpotLaunch.processImageBlockDevices ec2 i src _ log) as [ [ r0 | msg ] log0 ]
    eqn:Himage; [ | discriminate ].
  unfold Launch.bind at 1.
  match goal with
  | |- context [ match ?m log0 with pair _ _ => _ end ] =>
      destruct (m log0) as [ [ [ r1 e1 ] | msg ] log1 ] eqn:Hlt; [ | discriminate ]
  end.
  cbn [fst snd]. destruct e1 as [ e | ].
  { unfold Launch.ret, Eff.ret. discriminate. }
  unfold Launch.bind at 1. unfold Launch.lift at 1. unfold Eff.ret at 1.
  destruct (match Launch.Source.launchConfiguration src with Some _ => _ | None => _ end)
    as [ r2 | msg ] eqn:Hlc; [ | discriminate ].
  unfold Launch.bind at 1. unfold Launch.lift at 1. unfold Eff.ret at 1.
  destruct (SpotLaunch.appendOtherResourceTypes _ _) as [ specs | msg ] eqn:Hspecs;
    [ | discriminate ].
  unfold Launch.ret, Eff.ret. intros [= <- <- ].
  exists placement, r0, r1, r2, log0, specs.
  split; [ done | ]. split; [ done | ]. split.
  { destruct (LaunchTemplate (asg i)); [ done | ].
    unfold Launch.ret, Eff.ret in Hlt. by injection Hlt as <- <-. }
  split.
  { destruct (Launch.Source.launchConfiguration src); [ done | ]. by injection Hlc as <-. }
  split; [ | done ].
  rewrite <- Hspecs. reflexivity.
Qed.

(** X18. In the data that [createLaunchTemplateData] returns, network
    interfaces and security group identifiers exclude each other: when the
    data carries a network interface, its list of security group identifiers
    is empty. Every network interface it carries, whether it comes from the
    launch template or from the launch configuration, has the subnet and the
    security groups of the instance. *)
Theorem createLaunchTemplateData_network_interfaces (i : instance) (src : Launch.Source.t)
  (ltData : Launch.RequestLaunchTemplateData.t) (log log' : list Launch.request) :
  SpotLaunch.createLaunchTemplateData hasNetworkInterfaces patchedUserData formatFloat ec2
    i src log = (Returns (Some ltData, None), log') →
  (Launch.RequestLaunchTemplateData.NetworkInterfaces ltData ≠ [] →
   Launch.RequestLaunchTemplateData.SecurityGroupIds ltData = [])
  ∧ Forall (λ ni,
       Launch.LaunchTemplateInstanceNetworkInterfaceSpecificationRequest.SubnetId ni
       = Launch.Source.SubnetId src
       ∧ Launch.LaunchTemplateInstanceNetworkInterfaceSpecificationRequest.Groups ni
         = map Launch.GroupIdentifier.GroupId (Launch.Source.SecurityGroups src))
      (Launch.RequestLaunchTemplateData.NetworkInterfaces ltData).
Proof.
  intros Hrun.
  apply createLaunchTemplateData_Returns in Hrun
    as (placement & r0 & r1 & r2 & log0 & specs & _ & Himage & Hlt & Hlc & _ & ->).
  cbn [Launch.RequestLaunchTemplateData.NetworkInterfaces
       Launch.RequestLaunchTemplateData.SecurityGroupIds
       Launch.RequestLaunchTemplateData.set_TagSpecifications
       Launch.RequestLaunchTemplateData.set_Placement
       Launch.RequestLaunchTemplateData.set_InstanceMarketOptions
       Launch.RequestLaunchTemplateData.set_EbsOptimized].
  apply processImageBlockDevices_Returns in Himage as [ _ Hr0 ].
  assert (H0 : Launch.RequestLaunchTemplateData.NetworkInterfaces r0 = [])
    by (by rewrite Hr0).
  set (inSubnet := λ ni,
         Launch.LaunchTemplateInstanceNetworkInterfaceSpecificationRequest.SubnetId ni
         = Launch.Source.SubnetId src
         ∧ Launch.LaunchTemplateInstanceNetworkInterfaceSpecificationRequest.Groups ni
           = map Launch.GroupIdentifier.GroupId (Launch.Source.SecurityGroups src)).
  assert (H1 : (Launch.RequestLaunchTemplateData.NetworkInterfaces r1 ≠ [] →
                Launch.RequestLaunchTemplateData.SecurityGroupIds r1 = [])
               ∧ Forall inSubnet (Launch.RequestLaunchTemplateData.NetworkInterfaces r1)).
  { destruct (LaunchTemplate (asg i)) as [ lt | ].
    - apply processLaunchTemplate_Returns in Hlt
        as (lt' & data & _ & _ & _ & _ & _ & Hni).
      destruct (hasNetworkInterfaces data).1.
      + destruct Hni as [ Hsg Hni ]. split; [ done | ]. rewrite Hni, H0. cbn [app].
        apply Forall_forall. intros ni Hin. apply list_elem_of_In, in_map_iff in Hin
          as (ni0 & <- & _). by split.
      + destruct Hni as [ Hni _ ]. rewrite Hni. split; [ done | constructor ].
    - destruct Hlt as [ -> _ ]. rewrite H0. split; [ done | constructor ]. }
  destruct (Launch.Source.launchConfiguration src) as [ lc | ]; [ | by subst r2 ].
  apply processLaunchConfiguration_Returns in Hlc as (_ & _ & Hni).
  destruct (bool_decide _ || bool_decide _).
  - destruct Hni as [ Hsg Hni ]. split; [ done | ]. rewrite Hni.
    repeat constructor.
  - destruct Hni as [ Hsg Hni ]. by rewrite Hsg, Hni.
Qed.

(** X19. The tag specifications of the data. Its specifications for the
    resource type [instance] are the generated ones and no other: what a
    launch template says about the tags of instances is dropped. Without a
    launch template the data carries the generated specification only; with
    one, the generated specification is followed by the specifications of the
    template for the other resource types, in their order. *)
Theorem createLaunchTemplateData_tag_specifications (i : instance) (src : Launch.Source.t)
  (ltData : Launch.RequestLaunchTemplateData.t) (log log' : list Launch.request) :
  SpotLaunch.createLaunchTemplateData hasNetworkInterfaces patchedUserData formatFloat ec2
    i src log = (Returns (Some ltData, None), log') →
  filter (λ ts, InstanceConversion.ResourceType ts = Some "instance")
    (Launch.RequestLaunchTemplateData.TagSpecifications ltData)
  = InstanceConversion.generateTagsList i
  ∧ (LaunchTemplate (asg i) = None →
     Launch.RequestLaunchTemplateData.TagSpecifications ltData
     = InstanceConversion.generateTagsList i)
  ∧ (∀ lt templateData,
       LaunchTemplate (asg i) = Some lt →
       Launch.ec2_DescribeLaunchTemplateVersions ec2 (LaunchTemplateId lt) [ Version lt ]
       = ([ Some (Launch.LaunchTemplateVersion.mk (Some templateData)) ], None) →
       Launch.RequestLaunchTemplateData.TagSpecifications ltData
       = InstanceConversion.generateTagsList i
         ++ filter (λ ts, InstanceConversion.ResourceType ts ≠ Some "instance")
              (Launch.ResponseLaunchTemplateData.TagSpecifications templateData)).
Proof.
  intros Hrun.
  apply createLaunchTemplateData_Returns in Hrun
    as (placement & r0 & r1 & r2 & log0 & specs & _ & Himage & Hlt & Hlc & Hspecs & ->).
  cbn [Launch.RequestLaunchTemplateData.TagSpecifications
       Launch.RequestLaunchTemplateData.set_TagSpecifications].
  apply appendOtherResourceTypes_Returns in Hspecs.
  apply processImageBlockDevices_Returns in Himage as [ _ Hr0 ].
  assert (H0 : Launch.RequestLaunchTemplateData.TagSpecifications r0 = [])
    by (by rewrite Hr0).
  assert (H2 : Launch.RequestLaunchTemplateData.TagSpecifications r2
               = Launch.RequestLaunchTemplateData.TagSpecifications r1).
  { destruct (Launch.Source.launchConfiguration src) as [ lc | ]; [ | by subst r2 ].
    by apply processLaunchConfiguration_Returns in Hlc as (Htags & _). }
  rewrite H2 in Hspecs. clear H2 Hlc. subst specs.
  split; [ | split ].
  - rewrite filter_app.
    rewrite filter_instance_of_others, app_nil_r. unfold InstanceConversion.generateTagsList.
    rewrite filter_cons, decide_True by reflexivity. reflexivity.
  - intros HLT. rewrite HLT in Hlt. destruct Hlt as [ -> _ ]. rewrite H0.
    by rewrite filter_nil, app_nil_r.
  - intros lt templateData HLT Hdescribe. rewrite HLT in Hlt.
    apply processLaunchTemplate_Returns in Hlt
      as (lt' & data & HLT' & Hdescribe' & _ & _ & Htags & _).
    rewrite HLT in HLT'. injection HLT' as <-.
    rewrite Hdescribe in Hdescribe'. injection Hdescribe' as <-.
    by rewrite Htags.
Qed.

(** X20. Where the block devices of the data come from. The devices of the
    launch configuration win when its conversion gives at least one; if not,
    and the group has a launch template, they are the conversion of the
    devices of the template, also when that gives none; if there is neither,
    they are the conversion of the devices of the image, and [nil] when EC2
    does not describe the image. *)
Theorem createLaunchTemplateData_block_devices (i : instance) (src : Launch.Source.t)
  (ltData : Launch.RequestLaunchTemplateData.t) (log log' : list Launch.request) :
  SpotLaunch.createLaunchTemplateData hasNetworkInterfaces patchedUserData formatFloat ec2
    i src log = (Returns (Some ltData, None), log') →
  let fromLaunchConfiguration :=
    match Launch.Source.launchConfiguration src with
    | Some lc =>
        match InstanceConversion.convertLaunchConfigurationBlockDeviceMappings (asg i)
                (Launch.LaunchConfiguration.BlockDeviceMappings lc) with
        | Returns (Some (BDM :: BDMs)) => Some (BDM :: BDMs)
        | _ => None
        end
    | None => None
    end in
  (∀ BDMs, fromLaunchConfiguration = Some BDMs →
           Launch.RequestLaunchTemplateData.BlockDeviceMappings ltData = Some BDMs)
  ∧ (∀ lt templateData,
       fromLaunchConfiguration = None →
       LaunchTemplate (asg i) = Some lt →
       Launch.ec2_DescribeLaunchTemplateVersions ec2 (LaunchTemplateId lt) [ Version lt ]
       = ([ Some (Launch.LaunchTemplateVersion.mk (Some templateData)) ], None) →
       InstanceConversion.convertLaunchTemplateBlockDeviceMappings (asg i)
         (Launch.ResponseLaunchTemplateData.BlockDeviceMappings templateData)
       = Returns (Launch.RequestLaunchTemplateData.BlockDeviceMappings ltData))
  ∧ (fromLaunchConfiguration = None → LaunchTemplate (asg i) = None →
     match Launch.ec2_DescribeImages ec2 [ Launch.Source.ImageId src ] with
     | (Some image :: _, None) =>
         InstanceConversion.convertImageBlockDeviceMappings (asg i)
           (Launch.Image.BlockDeviceMappings image)
         = Returns (Launch.RequestLaunchTemplateData.BlockDeviceMappings ltData)
     | _ => Launch.RequestLaunchTemplateData.BlockDeviceMappings ltData = None
     end).
Proof.
  intros Hrun fromLaunchConfiguration.
  apply createLaunchTemplateData_Returns in Hrun
    as (placement & r0 & r1 & r2 & log0 & specs & _ & Himage & Hlt & Hlc & _ & ->).
  cbn [Launch.RequestLaunchTemplateData.BlockDeviceMappings
       Launch.RequestLaunchTemplateData.set_TagSpecifications
       Launch.RequestLaunchTemplateData.set_Placement
       Launch.RequestLaunchTemplateData.set_InstanceMarketOptions
       Launch.RequestLaunchTemplateData.set_EbsOptimized].
  assert (H2 : Launch.RequestLaunchTemplateData.BlockDeviceMappings r2
               = match fromLaunchConfiguration with
                 | Some BDMs => Some BDMs
                 | None => Launch.RequestLaunchTemplateData.BlockDeviceMappings r1
                 end).
  { subst fromLaunchConfiguration.
    destruct (Launch.Source.launchConfiguration src) as [ lc | ]; [ | by subst r2 ].
    apply processLaunchConfiguration_Returns in Hlc as (_ & (BDMs & -> & ->) & _).
    by destruct BDMs as [ [ | ] | ]. }
  rewrite H2. clear H2 Hlc.
  split; [ | split ].
  - by intros BDMs ->.
  - intros lt templateData -> HLT Hdescribe. rewrite HLT in Hlt.
    apply processLaunchTemplate_Returns in Hlt
      as (lt' & data & HLT' & Hdescribe' & _ & HBDMs & _).
    rewrite HLT in HLT'. injection HLT' as <-.
    rewrite Hdescribe in Hdescribe'. by injection Hdescribe' as <-.
  - intros -> HLT. rewrite HLT in Hlt. destruct Hlt as [ -> _ ].
    pose proof Himage as Himage'.
    apply processImageBlockDevices_Returns in Himage as [ _ -> ].
    cbn [Launch.RequestLaunchTemplateData.BlockDeviceMappings
         Launch.RequestLaunchTemplateData.set_BlockDeviceMappings
         Launch.RequestLaunchTemplateData.set_SecurityGroupIds
         Launch.RequestLaunchTemplateData.zero].
    unfold SpotLaunch.processImageBlockDevices, Launch.bind, Launch.ask, Launch.lift,
      Launch.ret, Eff.ret in Himage'.
    destruct (Launch.ec2_DescribeImages ec2 [ Launch.Source.ImageId src ])
      as [ [ | [ image | ] rest ] [ e | ] ]; cbn [deref] in Himage'; try done.
    by destruct (InstanceConversion.convertImageBlockDeviceMappings _ _).
Qed.

(** The stages of [launchSpotReplacement] after the data has been built. *)
Lemma launchSpotReplacement_with_data (i : instance) (src : Launch.Source.t)
  (ltData : Launch.RequestLaunchTemplateData.t) (log log1 : list Launch.request) :
  SpotLaunch.createLaunchTemplateData hasNetworkInterfaces patchedUserData formatFloat ec2
    i src log = (Returns (Some ltData, None), log1) →
  let ltName := Some ("AutoSpotting-Temporary-LaunchTemplate-for-" +:+ InstanceId i) in
  let created := Launch.ec2_CreateLaunchTemplate ec2 ltName ltData in
  SpotLaunch.launchSpotReplacement hasNetworkInterfaces patchedUserData formatFloat
    compatibleTypes ec2 i src log
  = if match created with
       | Some err => strings_Contains err "AlreadyExistsException"
       | None => true
       end
    then
      match compatibleTypes i with
      | Returns (types, None) =>
          let cfi := SpotLaunch.createFleetInput src ltName types in
          (Returns match (Launch.ec2_CreateFleet ec2 cfi).2 with
                   | Some err => (None, Some err)
                   | None => SpotLaunch.launchedInstance (Launch.ec2_CreateFleet ec2 cfi).1
                   end,
           log1 ++ [ Launch.CreateLaunchTemplate ltName ltData;
                     Launch.CreateFleet cfi;
                     Launch.DeleteLaunchTemplate ltName ])
      | Returns (_, Some err) =>
          (Returns (None, Some err),
           log1 ++ [ Launch.CreateLaunchTemplate ltName ltData;
                     Launch.DeleteLaunchTemplate ltName ])
      | Panics msg =>
          (Panics msg,
           log1 ++ [ Launch.CreateLaunchTemplate ltName ltData;
                     Launch.DeleteLaunchTemplate ltName ])
      end
    else (Returns (None, created), log1 ++ [ Launch.CreateLaunchTemplate ltName ltData ]).
Proof.
  intros Hdata ltName created. unfold SpotLaunch.launchSpotReplacement.
  unfold Launch.bind at 1. rewrite Hdata. cbn [fst snd].
  unfold Launch.bind at 1. unfold Launch.lift at 1. unfold Eff.ret at 1. cbn [deref].
  unfold Launch.bind at 1. unfold SpotLaunch.createFleetLaunchTemplate.
  unfold Launch.bind at 1. unfold Launch.ask at 1. fold ltName. fold created.
  unfold Launch.defer, SpotLaunch.deleteLaunchTemplate, Launch.ask, Launch.bind,
    Launch.lift, Launch.ret, Eff.ret.
  assert (Hcreated : ∀ A (x y : A),
            (if match created with
                | Some err => strings_Contains err "AlreadyExistsException"
                | None => true
                end then x else y)
            = match created with
              | Some err => if strings_Contains err "AlreadyExistsException" then x else y
              | None => x
              end).
  { intros A x y. by destruct created. }
  rewrite Hcreated. clear Hcreated.
  destruct created as [ err | ];
    [ destruct (strings_Contains err "AlreadyExistsException") | ];
    cbn [negb fst snd]; try reflexivity;
    (destruct (compatibleTypes i) as [ [ types [ err' | ] ] | msg ]; cbn [fst snd];
     [ by rewrite <- app_assoc
     | cbn zeta;
       destruct (Launch.ec2_CreateFleet ec2 _) as [ resp [ err' | ] ]; cbn [fst snd];
       by rewrite <- !app_assoc
     | by rewrite <- app_assoc ]).
Qed.

(** X22. The temporary launch template does not outlive the launch. Once the
    data is built, [CreateLaunchTemplate] is sent. If it succeeds, or fails
    because the template exists already, the last request is the
    [DeleteLaunchTemplate] of that template, whether the selection of the
    types fails, panics, or [CreateFleet] is sent in between; if it fails in
    another way nothing more is sent. When the data is not built, no request
    follows those of the synthesis. *)
Theorem launchSpotReplacement_deletes_the_template (i : instance) (src : Launch.Source.t)
  (log : list Launch.request) :
  let data :=
    SpotLaunch.createLaunchTemplateData hasNetworkInterfaces patchedUserData formatFloat ec2
      i src log in
  let sent :=
    (SpotLaunch.launchSpotReplacement hasNetworkInterfaces patchedUserData formatFloat
       compatibleTypes ec2 i src log).2 in
  let ltName := Some ("AutoSpotting-Temporary-LaunchTemplate-for-" +:+ InstanceId i) in
  (∀ ltData, data.1 = Returns (Some ltData, None) →
     let usable :=
       match Launch.ec2_CreateLaunchTemplate ec2 ltName ltData with
       | Some err => strings_Contains err "AlreadyExistsException"
       | None => true
       end in
     sent = data.2
            ++ Launch.CreateLaunchTemplate ltName ltData
               :: (if usable
                   then match compatibleTypes i with
                        | Returns (types, None) =>
                            [ Launch.CreateFleet
                                (SpotLaunch.createFleetInput src ltName types) ]
                        | _ => []
                        end ++ [ Launch.DeleteLaunchTemplate ltName ]
                   else []))
  ∧ ((∀ ltData, data.1 ≠ Returns (Some ltData, None)) → sent = data.2).
Proof.
  intros data sent ltName. split.
  - intros ltData Hdata usable. subst sent usable.
    assert (Hrun : SpotLaunch.createLaunchTemplateData hasNetworkInterfaces patchedUserData
                     formatFloat ec2 i src log = (Returns (Some ltData, None), data.2)).
    { rewrite <- Hdata. subst data.
      by destruct (SpotLaunch.createLaunchTemplateData _ _ _ _ _ _ _). }
    rewrite (launchSpotReplacement_with_data i src ltData log data.2 Hrun).
    fold ltName.
    destruct (match Launch.ec2_CreateLaunchTemplate ec2 ltName ltData with
              | Some err => strings_Contains err "AlreadyExistsException"
              | None => true
              end); [ | reflexivity ].
    by destruct (compatibleTypes i) as [ [ types [ err' | ] ] | msg ].
  - intros Hnone. subst sent. unfold SpotLaunch.launchSpotReplacement.
    unfold Launch.bind at 1. fold data.
    destruct data as [ [ [ [ ltData | ] [ err | ] ] | msg ] log1 ]; cbn [fst snd] in *;
      try reflexivity.
    by destruct (Hnone ltData).
Qed.

(** X23. [launchSpotReplacement] returns an instance identifier and no error
    only when the selection of the types returned a list without an error,
    [CreateFleet] was sent with the input made of that list and was answered,
    without an error, with at least one instance: the identifier returned is
    the first identifier of the first instance of the answer. *)
Theorem launchSpotReplacement_instance_from_the_fleet (i : instance)
  (src : Launch.Source.t) (log : list Launch.request) (instanceId : option string) :
  (SpotLaunch.launchSpotReplacement hasNetworkInterfaces patchedUserData formatFloat
     compatibleTypes ec2 i src log).1 = Returns (instanceId, None) →
  let ltName := Some ("AutoSpotting-Temporary-LaunchTemplate-for-" +:+ InstanceId i) in
  ∃ types output fleetInstance others ids,
    compatibleTypes i = Returns (types, None)
    ∧ Launch.ec2_CreateFleet ec2 (SpotLaunch.createFleetInput src ltName types)
      = (Some output, None)
    ∧ Launch.CreateFleetOutput.Instances output = Some fleetInstance :: others
    ∧ Launch.CreateFleetInstance.InstanceIds fleetInstance = instanceId :: ids
    ∧ Launch.CreateFleet (SpotLaunch.createFleetInput src ltName types)
      ∈ (SpotLaunch.launchSpotReplacement hasNetworkInterfaces patchedUserData formatFloat
           compatibleTypes ec2 i src log).2.
Proof.
  intros Hrun ltName.
  destruct (SpotLaunch.createLaunchTemplateData hasNetworkInterfaces patchedUserData
              formatFloat ec2 i src log) as [ data log1 ] eqn:Hdata.
  assert (Hsome : ∃ ltData, data = Returns (Some ltData, None)).
  { revert Hrun. unfold SpotLaunch.launchSpotReplacement. unfold Launch.bind at 1.
    rewrite Hdata. destruct data as [ [ [ ltData | ] [ err | ] ] | msg ]; cbn; try done.
    eauto. }
  destruct Hsome as [ ltData -> ].
  revert Hrun. rewrite (launchSpotReplacement_with_data i src ltData log log1 Hdata).
  fold ltName.
  destruct (match Launch.ec2_CreateLaunchTemplate ec2 ltName ltData with
            | Some err => strings_Contains err "AlreadyExistsException"
            | None => true
            end) eqn:Husable.
  2:{ destruct (Launch.ec2_CreateLaunchTemplate ec2 ltName ltData); discriminate. }
  destruct (compatibleTypes i) as [ [ types [ err' | ] ] | msg ]; try discriminate.
  cbn zeta. cbn [fst snd].
  destruct (Launch.ec2_CreateFleet ec2 _) as [ resp [ err' | ] ] eqn:Hfleet; cbn [fst snd];
    [ discriminate | ].
  unfold SpotLaunch.launchedInstance.
  destruct resp as [ [ [ | [ [ [ | instanceId' ids ] ] | ] others ] ] | ];
    cbn; try discriminate.
  intros [= -> ]. exists types. eexists _, _, others, ids.
  split; [ done | ]. split; [ done | ]. split; [ done | ]. split; [ done | ].
  set_solver.
Qed.

End SynthesisProperties.

(** X18 at a group with a launch template that declares one network
    interface. *)
Lemma createLaunchTemplateData_network_interfaces_witness :
  ∃ ltData log',
    SpotLaunch.createLaunchTemplateData Sample.declaredNetworkInterfaces
      Sample.unpatchedUserData Sample.printedPrice (Sample.launchEC2 None (Sample.fleetLaunches "i-new"))
      Sample.templateInstance (Sample.launchSource None) []
    = (Returns (Some ltData, None), log')
    ∧ length (Launch.RequestLaunchTemplateData.NetworkInterfaces ltData) = 1%nat
    ∧ (Launch.RequestLaunchTemplateData.NetworkInterfaces ltData ≠ [] →
       Launch.RequestLaunchTemplateData.SecurityGroupIds ltData = [])
    ∧ Forall (λ ni,
         Launch.LaunchTemplateInstanceNetworkInterfaceSpecificationRequest.SubnetId ni
         = Some "subnet-1"
         ∧ Launch.LaunchTemplateInstanceNetworkInterfaceSpecificationRequest.Groups ni
           = [ Some "sg-1" ])
        (Launch.RequestLaunchTemplateData.NetworkInterfaces ltData).
Proof.
  eexists _, _. split; [ vm_compute; reflexivity | ]. split; [ reflexivity | ].
  exact (createLaunchTemplateData_network_interfaces Sample.declaredNetworkInterfaces
           Sample.unpatchedUserData Sample.printedPrice (Sample.launchEC2 None (Sample.fleetLaunches "i-new"))
           Sample.templateInstance (Sample.launchSource None) _ [] _ ltac:(vm_compute; reflexivity)).
Defined.

(** X19 at the same group: the tags of the template for volumes follow the
    generated tags, its tags for instances are gone. *)
Lemma createLaunchTemplateData_tag_specifications_witness :
  ∃ ltData log',
    SpotLaunch.createLaunchTemplateData Sample.declaredNetworkInterfaces
      Sample.unpatchedUserData Sample.printedPrice (Sample.launchEC2 None (Sample.fleetLaunches "i-new"))
      Sample.templateInstance (Sample.launchSource None) []
    = (Returns (Some ltData, None), log')
    ∧ Launch.RequestLaunchTemplateData.TagSpecifications ltData
      = InstanceConversion.generateTagsList Sample.templateInstance
        ++ [ InstanceConversion.mkTagSpec (Some "volume") [ mkTag "team" (Some "a") ] ].
Proof.
  eexists _, _. split; [ vm_compute; reflexivity | ].
  exact (proj2 (proj2
           (createLaunchTemplateData_tag_specifications Sample.declaredNetworkInterfaces
              Sample.unpatchedUserData Sample.printedPrice (Sample.launchEC2 None (Sample.fleetLaunches "i-new"))
              Sample.templateInstance (Sample.launchSource None) _ [] _ ltac:(vm_compute; reflexivity)))
           (mkLTSpec (Some "lt-1") (Some "3")) Sample.templateData eq_refl eq_refl).
Defined.

(** X20 at a group that has a launch template and a launch configuration
    with one device. *)
Lemma createLaunchTemplateData_block_devices_witness :
  ∃ ltData log',
    SpotLaunch.createLaunchTemplateData Sample.declaredNetworkInterfaces
      Sample.unpatchedUserData Sample.printedPrice (Sample.launchEC2 None (Sample.fleetLaunches "i-new"))
      Sample.templateInstance (Sample.launchSource (Some Sample.launchConfigurationWithDevice)) []
    = (Returns (Some ltData, None), log')
    ∧ Launch.RequestLaunchTemplateData.BlockDeviceMappings ltData
      = Some [ mkBDMRequest (Some "/dev/sdf") None
                 (Some (mkEbsRequest (Some true) None None None (Some 500)
                          (Some "io2"))) ].
Proof.
  eexists _, _. split; [ vm_compute; reflexivity | ].
  exact (proj1
           (createLaunchTemplateData_block_devices Sample.declaredNetworkInterfaces
              Sample.unpatchedUserData Sample.printedPrice (Sample.launchEC2 None (Sample.fleetLaunches "i-new"))
              Sample.templateInstance (Sample.launchSource (Some Sample.launchConfigurationWithDevice)) _ [] _
              ltac:(vm_compute; reflexivity))
           _ eq_refl).
Defined.

(** X22 at a launch that succeeds: the five requests. *)
Lemma launchSpotReplacement_deletes_the_template_witness :
  ∃ ltData,
    (SpotLaunch.launchSpotReplacement Sample.declaredNetworkInterfaces Sample.unpatchedUserData
       Sample.printedPrice Sample.twoCompatibleTypes (Sample.launchEC2 None (Sample.fleetLaunches "i-new"))
       Sample.templateInstance (Sample.launchSource None) []).2
    = [ Launch.DescribeImages [ Some "ami-1" ];
        Launch.DescribeLaunchTemplateVersions (Some "lt-1") [ Some "3" ];
        Launch.CreateLaunchTemplate
          (Some "AutoSpotting-Temporary-LaunchTemplate-for-i-aaa") ltData;
        Launch.CreateFleet
          (SpotLaunch.createFleetInput (Sample.launchSource None)
             (Some "AutoSpotting-Temporary-LaunchTemplate-for-i-aaa")
             [ Some "m5a.large"; Some "m5d.large" ]);
        Launch.DeleteLaunchTemplate
          (Some "AutoSpotting-Temporary-LaunchTemplate-for-i-aaa") ].
Proof.
  eexists.
  exact (proj1
           (launchSpotReplacement_deletes_the_template Sample.declaredNetworkInterfaces
              Sample.unpatchedUserData Sample.printedPrice Sample.twoCompatibleTypes
              (Sample.launchEC2 None (Sample.fleetLaunches "i-new")) Sample.templateInstance
              (Sample.launchSource None) [])
           _ ltac:(vm_compute; reflexivity)).
Defined.

(** X23 at the same launch, which returns [i-new]. *)
Lemma launchSpotReplacement_instance_from_the_fleet_witness :
  ∃ types output fleetInstance others ids,
    Sample.twoCompatibleTypes Sample.templateInstance = Returns (types, None)
    ∧ Launch.ec2_CreateFleet (Sample.launchEC2 None (Sample.fleetLaunches "i-new"))
        (SpotLaunch.createFleetInput (Sample.launchSource None)
           (Some ("AutoSpotting-Temporary-LaunchTemplate-for-"
                  +:+ InstanceId Sample.templateInstance)) types)
      = (Some output, None)
    ∧ Launch.CreateFleetOutput.Instances output = Some fleetInstance :: others
    ∧ Launch.CreateFleetInstance.InstanceIds fleetInstance = Some "i-new" :: ids
    ∧ Launch.CreateFleet
        (SpotLaunch.createFleetInput (Sample.launchSource None)
           (Some ("AutoSpotting-Temporary-LaunchTemplate-for-"
                  +:+ InstanceId Sample.templateInstance)) types)
      ∈ (SpotLaunch.launchSpotReplacement Sample.declaredNetworkInterfaces Sample.unpatchedUserData
           Sample.printedPrice Sample.twoCompatibleTypes (Sample.launchEC2 None (Sample.fleetLaunches "i-new"))
           Sample.templateInstance (Sample.launchSource None) []).2.
Proof.
  exact (launchSpotReplacement_instance_from_the_fleet Sample.declaredNetworkInterfaces
           Sample.unpatchedUserData Sample.printedPrice Sample.twoCompatibleTypes
           (Sample.launchEC2 None (Sample.fleetLaunches "i-new")) Sample.templateInstance (Sample.launchSource None) []
           (Some "i-new") ltac:(vm_compute; reflexivity)).
Defined.

Lemma overridesFrom_imap (src : Launch.Source.t) (p : nat)
  (instanceTypes : list (option string))
  (overrides : list Launch.FleetLaunchTemplateOverridesRequest.t) :
  SpotLaunch.overridesFrom src (Z.of_nat p) instanceTypes overrides
  = overrides
    ++ imap (λ k inst,
         Launch.FleetLaunchTemplateOverridesRequest.mk inst (Launch.Source.SubnetId src)
           (if String.eqb (Launch.Source.SpotAllocationStrategy src)
                 "capacity-optimized-prioritized"
            then Some (SpotLaunch.float64_of_int (Z.of_nat (p + k))) else None))
        instanceTypes.
Proof.
  revert p overrides. induction instanceTypes as [ | inst rest IH ]; intros p overrides.
  - by rewrite app_nil_r.
  - cbn [SpotLaunch.overridesFrom imap].
    replace (Z.of_nat p + 1) with (Z.of_nat (S p)) by lia.
    rewrite IH, <- app_assoc. cbn [app]. rewrite Nat.add_0_r. do 2 f_equal.
    apply imap_ext. intros k inst' _. cbn. by rewrite Nat.add_succ_r.
Qed.

(** X21. [createFleetInput] asks for one launch template configuration: the
    template under its name in the version [$Latest], with one override for
    each instance type, in the order of the types. The override at position
    [k] names the type at position [k] and the subnet of the instance, and it
    carries the priority [k] exactly when the allocation strategy of the group
    is [capacity-optimized-prioritized]. *)
Theorem createFleetInput_overrides (src : Launch.Source.t) (ltName : option string)
  (instanceTypes : list (option string)) :
  ∃ config,
    Launch.CreateFleetInput.LaunchTemplateConfigs
      (SpotLaunch.createFleetInput src ltName instanceTypes) = [ config ]
    ∧ Launch.FleetLaunchTemplateConfigRequest.LaunchTemplateSpecification config
      = Some (Launch.FleetLaunchTemplateSpecificationRequest.mk ltName (Some "$Latest"))
    ∧ length (Launch.FleetLaunchTemplateConfigRequest.Overrides config)
      = length instanceTypes
    ∧ ∀ (k : nat) (inst : option string),
        instanceTypes !! k = Some inst →
        Launch.FleetLaunchTemplateConfigRequest.Overrides config !! k
        = Some (Launch.FleetLaunchTemplateOverridesRequest.mk inst
                  (Launch.Source.SubnetId src)
                  (if String.eqb (Launch.Source.SpotAllocationStrategy src)
                        "capacity-optimized-prioritized"
                   then Some (SpotLaunch.float64_of_int (Z.of_nat k)) else None)).
Proof.
  eexists. split; [ reflexivity | ]. split; [ reflexivity | ].
  cbn [Launch.FleetLaunchTemplateConfigRequest.Overrides].
  change 0 with (Z.of_nat 0). rewrite overridesFrom_imap. cbn [app].
  split; [ by rewrite length_imap | ].
  intros k inst Hk. rewrite list_lookup_imap, Hk. reflexivity.
Qed.

(** ** The legacy launch *)

Lemma convertBlockDeviceMappings_loop_filter (BDMs : list (BlockDeviceMapping bool))
  (bds : list (BlockDeviceMapping string)) :
  LegacyLaunch.convertBlockDeviceMappings_loop BDMs bds
  = bds ++ map (λ lcBDM, mkBDM (DeviceName lcBDM) (VirtualName lcBDM) (bdmEbs lcBDM) None)
             (filter (λ lcBDM, NoDevice lcBDM ≠ Some true) BDMs).
Proof.
  revert bds. induction BDMs as [ | lcBDM rest IH ]; intros bds.
  - by rewrite app_nil_r.
  - cbn [LegacyLaunch.convertBlockDeviceMappings_loop]. rewrite filter_cons.
    destruct (NoDevice lcBDM) as [ [ | ] | ] eqn:HNoDevice.
    + rewrite decide_False by (intros H; by apply H). apply IH.
    + rewrite decide_True by discriminate. rewrite IH, <- app_assoc. cbn [map app].
      by destruct (bdmEbs lcBDM) as [ [ ] | ].
    + rewrite decide_True by discriminate. rewrite IH, <- app_assoc. cbn [map app].
      by destruct (bdmEbs lcBDM) as [ [ ] | ].
Qed.

(** X26. The legacy conversion of the block devices of a launch
    configuration keeps every device whose [NoDevice] is not [true], in the
    order of the configuration, with its names and its volume unchanged: the
    volume type is not converted on this path. Without a launch configuration
    there is no device. *)
Theorem legacy_convertBlockDeviceMappings_keeps_volumes
  (lc : option Launch.LaunchConfiguration.t) :
  LegacyLaunch.convertBlockDeviceMappings lc
  = map (λ lcBDM, mkBDM (DeviceName lcBDM) (VirtualName lcBDM) (bdmEbs lcBDM) None)
      (filter (λ lcBDM, NoDevice lcBDM ≠ Some true)
         (from_option Launch.LaunchConfiguration.BlockDeviceMappings [] lc)).
Proof.
  destruct lc as [ lc | ]; [ | reflexivity ].
  unfold LegacyLaunch.convertBlockDeviceMappings. cbn [from_option].
  destruct (Launch.LaunchConfiguration.BlockDeviceMappings lc) as [ | lcBDM rest ];
    [ reflexivity | ].
  by rewrite convertBlockDeviceMappings_loop_filter.
Qed.

Section LegacyProperties.

Variable filepath_Match : string → string → bool.
Variable sort_Slice : ∀ A : Type, (A → A → bool) → list A → list A.
Variable ephemeralVolumes : autoScalingGroup → Z.
Variable allowed disallowed : instance → list string.
Variable patchedUserData : option string → option string.
Variable toLower : string → string.
Variable formatFloat : float64 → string.
Variable ec2 : Launch.EC2API.

(** The template is reported to have network interfaces only with a list
    that is not empty; the call sends one request, which is no launch. *)
Lemma launchTemplateHasNetworkInterfaces_Returns (id ver : option string)
  (having : bool) (nis : list Launch.LaunchTemplateInstanceNetworkInterfaceSpecification.t)
  (log log' : list Launch.request) :
  LegacyLaunch.launchTemplateHasNetworkInterfaces ec2 id ver log
  = (Returns (having, nis), log') →
  if having then nis ≠ [] else nis = [].
Proof.
  unfold LegacyLaunch.launchTemplateHasNetworkInterfaces, Launch.bind, Launch.ask,
    Launch.lift, Launch.ret, Eff.ret.
  destruct (Launch.ec2_DescribeLaunchTemplateVersions ec2 id [ ver ])
    as [ versions [ err | ] ].
  - destruct id, ver; cbn; try discriminate; intros [= <- <- <- ]; done.
  - destruct versions as [ | [ [ [ ltData | ] ] | ] [ | ] ]; cbn;
      try discriminate; try (intros [= <- <- <- ]; done).
    destruct (Launch.ResponseLaunchTemplateData.NetworkInterfaces ltData) as [ | ni nis' ];
      cbn; intros [= <- <- <- ]; done.
Qed.

Lemma launchTemplateHasNetworkInterfaces_sent (id ver : option string)
  (log : list Launch.request) :
  LegacyLaunch.runInstancesSent
    (LegacyLaunch.launchTemplateHasNetworkInterfaces ec2 id ver log).2
  = LegacyLaunch.runInstancesSent log.
Proof.
  unfold LegacyLaunch.launchTemplateHasNetworkInterfaces, Launch.bind, Launch.ask,
    Launch.lift, Launch.ret, Eff.ret, LegacyLaunch.runInstancesSent.
  assert (Hlog : omap (λ r, match r with
                            | Launch.RunInstances input => Some input
                            | _ => None
                            end)
                   (log ++ [ Launch.DescribeLaunchTemplateVersions id [ ver ] ])
                 = omap (λ r, match r with
                              | Launch.RunInstances input => Some input
                              | _ => None
                              end) log).
  { rewrite omap_app. cbn. by rewrite app_nil_r. }
  destruct (Launch.ec2_DescribeLaunchTemplateVersions ec2 id [ ver ])
    as [ versions [ err | ] ].
  - destruct id, ver; cbn [deref snd]; exact Hlog.
  - destruct versions as [ | [ [ [ ltData | ] ] | ] [ | ] ]; cbn [deref snd]; try exact Hlog.
    cbn [deref Launch.LaunchTemplateVersion.LaunchTemplateData].
    match goal with |- context [ if ?b then _ else _ ] => destruct b end; exact Hlog.
Qed.

(** What the part for the launch configuration leaves of the input. *)
Lemma withLaunchConfiguration_fields (src : Launch.LegacySource.t)
  (lc : Launch.LaunchConfiguration.t) (retval : Launch.RunInstancesInput.t) :
  let r := LegacyLaunch.withLaunchConfiguration patchedUserData toLower src lc retval in
  Launch.RunInstancesInput.InstanceType r = Launch.RunInstancesInput.InstanceType retval
  ∧ Launch.RunInstancesInput.InstanceMarketOptions r
    = Launch.RunInstancesInput.InstanceMarketOptions retval
  ∧ Launch.RunInstancesInput.MinCount r = Launch.RunInstancesInput.MinCount retval
  ∧ Launch.RunInstancesInput.MaxCount r = Launch.RunInstancesInput.MaxCount retval
  ∧ (if bool_decide (Launch.LaunchConfiguration.AssociatePublicIpAddress lc ≠ None)
        || bool_decide (Launch.LegacySource.SubnetId src ≠ None)
     then Launch.RunInstancesInput.NetworkInterfaces r
          = [ Launch.InstanceNetworkInterfaceSpecification.mk
                (Launch.LaunchConfiguration.AssociatePublicIpAddress lc)
                (Launch.LegacySource.SubnetId src) (Some 0)
                (LegacyLaunch.convertSecurityGroups src) ]
          ∧ Launch.RunInstancesInput.SubnetId r = None
          ∧ Launch.RunInstancesInput.SecurityGroupIds r = []
     else Launch.RunInstancesInput.NetworkInterfaces r
          = Launch.RunInstancesInput.NetworkInterfaces retval
          ∧ Launch.RunInstancesInput.SubnetId r = Launch.RunInstancesInput.SubnetId retval
          ∧ Launch.RunInstancesInput.SecurityGroupIds r
            = Launch.RunInstancesInput.SecurityGroupIds retval).
Proof.
  unfold LegacyLaunch.withLaunchConfiguration.
  destruct (bool_decide _ || bool_decide _),
    (Launch.LaunchConfiguration.KeyName lc) as [ keyName | ],
    (Launch.LaunchConfiguration.IamInstanceProfile lc) as [ profile | ],
    (String.eqb (toLower _) "true"),
    (Launch.LaunchConfiguration.InstanceMonitoring lc) as [ monitoring | ],
    (0 <? Z.of_nat (length (LegacyLaunch.convertBlockDeviceMappings (Some lc))));
    try destruct (String.eqb keyName ""); try destruct (strings_HasPrefix profile _);
    cbn; done.
Qed.

(** What the part for the launch template leaves of the input. *)
Lemma withLaunchTemplate_fields (src : Launch.LegacySource.t)
  (lt : LaunchTemplateSpecification) (retval r : Launch.RunInstancesInput.t)
  (log log' : list Launch.request) :
  LegacyLaunch.withLaunchTemplate ec2 src lt retval log = (Returns r, log') →
  Launch.RunInstancesInput.InstanceType r = Launch.RunInstancesInput.InstanceType retval
  ∧ Launch.RunInstancesInput.InstanceMarketOptions r
    = Launch.RunInstancesInput.InstanceMarketOptions retval
  ∧ Launch.RunInstancesInput.MinCount r = Launch.RunInstancesInput.MinCount retval
  ∧ Launch.RunInstancesInput.MaxCount r = Launch.RunInstancesInput.MaxCount retval
  ∧ ((∃ ni nis,
        Launch.RunInstancesInput.NetworkInterfaces r
        = Launch.RunInstancesInput.NetworkInterfaces retval
          ++ map (λ ni,
               Launch.InstanceNetworkInterfaceSpecification.mk
                 (Launch.LaunchTemplateInstanceNetworkInterfaceSpecification.AssociatePublicIpAddress ni)
                 (Launch.LegacySource.SubnetId src)
                 (Launch.LaunchTemplateInstanceNetworkInterfaceSpecification.DeviceIndex ni)
                 (LegacyLaunch.convertSecurityGroups src)) (ni :: nis)
        ∧ Launch.RunInstancesInput.SubnetId r = None
        ∧ Launch.RunInstancesInput.SecurityGroupIds r = [])
     ∨ (Launch.RunInstancesInput.NetworkInterfaces r
        = Launch.RunInstancesInput.NetworkInterfaces retval
        ∧ Launch.RunInstancesInput.SubnetId r = Launch.RunInstancesInput.SubnetId retval
        ∧ Launch.RunInstancesInput.SecurityGroupIds r
          = Launch.RunInstancesInput.SecurityGroupIds retval)).
Proof.
  unfold LegacyLaunch.withLaunchTemplate. unfold Launch.bind at 1.
  destruct (LegacyLaunch.launchTemplateHasNetworkInterfaces ec2 _ _ log)
    as [ [ [ having nis ] | msg ] log1 ] eqn:Hhaving; [ | discriminate ].
  apply launchTemplateHasNetworkInterfaces_Returns in Hhaving.
  destruct having; unfold Launch.ret, Eff.ret; intros [= <- <- ].
  - destruct nis as [ | ni nis ]; [ done | ].
    repeat (split; [ done | ]). left. by exists ni, nis.
  - repeat (split; [ done | ]). by right.
Qed.

Lemma withLaunchTemplate_sent (src : Launch.LegacySource.t)
  (lt : LaunchTemplateSpecification) (retval : Launch.RunInstancesInput.t)
  (log : list Launch.request) :
  LegacyLaunch.runInstancesSent (LegacyLaunch.withLaunchTemplate ec2 src lt retval log).2
  = LegacyLaunch.runInstancesSent log.
Proof.
  unfold LegacyLaunch.withLaunchTemplate. unfold Launch.bind at 1.
  rewrite <- (launchTemplateHasNetworkInterfaces_sent (LaunchTemplateId lt) (Version lt) log).
  destruct (LegacyLaunch.launchTemplateHasNetworkInterfaces ec2 _ _ log)
    as [ [ [ [ | ] nis ] | msg ] log1 ]; reflexivity.
Qed.

(** [createRunInstancesInput] launches nothing itself. *)
Lemma createRunInstancesInput_sent (i : instance) (src : Launch.LegacySource.t)
  (instanceType : string) (price : float64) (log : list Launch.request) :
  LegacyLaunch.runInstancesSent
    (LegacyLaunch.createRunInstancesInput patchedUserData toLower formatFloat ec2 i src
       instanceType price log).2
  = LegacyLaunch.runInstancesSent log.
Proof.
  unfold LegacyLaunch.createRunInstancesInput. unfold Launch.bind at 1.
  destruct (LaunchTemplate (asg i)) as [ lt | ].
  - match goal with
    | |- context [ LegacyLaunch.withLaunchTemplate ec2 src lt ?r log ] =>
        rewrite <- (withLaunchTemplate_sent src lt r log);
        destruct (LegacyLaunch.withLaunchTemplate ec2 src lt r log) as [ [ r1 | msg ] log1 ]
    end; [ | reflexivity ].
    by destruct (Launch.LegacySource.launchConfiguration src).
  - unfold Launch.ret at 1. unfold Eff.ret at 1.
    by destruct (Launch.LegacySource.launchConfiguration src).
Qed.

(** X24. The input of a legacy [RunInstances] request asks for one spot
    instance of the given type at the given price, and it names the subnet
    and the security groups in one place only: when it carries a network
    interface, its own subnet and security group identifiers are empty and
    every interface has the subnet and the security groups of the instance;
    when it carries none, it has them itself. *)
Theorem createRunInstancesInput_network_interfaces (i : instance)
  (src : Launch.LegacySource.t) (instanceType : string) (price : float64)
  (input : Launch.RunInstancesInput.t) (log log' : list Launch.request) :
  LegacyLaunch.createRunInstancesInput patchedUserData toLower formatFloat ec2 i src
    instanceType price log = (Returns input, log') →
  Launch.RunInstancesInput.InstanceType input = Some instanceType
  ∧ Launch.RunInstancesInput.InstanceMarketOptions input
    = Some (Launch.InstanceMarketOptionsRequest.mk (Some "spot")
              (Some (Launch.SpotMarketOptions.mk (Some (formatFloat price)))))
  ∧ Launch.RunInstancesInput.MinCount input = Some 1
  ∧ Launch.RunInstancesInput.MaxCount input = Some 1
  ∧ match Launch.RunInstancesInput.NetworkInterfaces input with
    | [] =>
        Launch.RunInstancesInput.SubnetId input = Launch.LegacySource.SubnetId src
        ∧ Launch.RunInstancesInput.SecurityGroupIds input
          = map Launch.GroupIdentifier.GroupId (Launch.LegacySource.SecurityGroups src)
    | _ :: _ =>
        Launch.RunInstancesInput.SubnetId input = None
        ∧ Launch.RunInstancesInput.SecurityGroupIds input = []
    end
  ∧ Forall (λ ni,
       Launch.InstanceNetworkInterfaceSpecification.SubnetId ni
       = Launch.LegacySource.SubnetId src
       ∧ Launch.InstanceNetworkInterfaceSpecification.Groups ni
         = map Launch.GroupIdentifier.GroupId (Launch.LegacySource.SecurityGroups src))
      (Launch.RunInstancesInput.NetworkInterfaces input).
Proof.
  unfold LegacyLaunch.createRunInstancesInput. unfold Launch.bind at 1.
  set (retval := Launch.RunInstancesInput.mk _ _ _ _ _ _ _ _ _ _ _ _ _ _ _ _ _).
  set (inSubnet := λ ni,
         Launch.InstanceNetworkInterfaceSpecification.SubnetId ni
         = Launch.LegacySource.SubnetId src
         ∧ Launch.InstanceNetworkInterfaceSpecification.Groups ni
           = map Launch.GroupIdentifier.GroupId (Launch.LegacySource.SecurityGroups src)).
  match goal with
  | |- context [ match ?m log with pair _ _ => _ end ] =>
      destruct (m log) as [ [ r1 | msg ] log1 ] eqn:Hlt; [ | discriminate ]
  end.
  assert (H1 : Launch.RunInstancesInput.InstanceType r1 = Some instanceType
               ∧ Launch.RunInstancesInput.InstanceMarketOptions r1
                 = Launch.RunInstancesInput.InstanceMarketOptions retval
               ∧ Launch.RunInstancesInput.MinCount r1 = Some 1
               ∧ Launch.RunInstancesInput.MaxCount r1 = Some 1
               ∧ match Launch.RunInstancesInput.NetworkInterfaces r1 with
                 | [] =>
                     Launch.RunInstancesInput.SubnetId r1 = Launch.LegacySource.SubnetId src
                     ∧ Launch.RunInstancesInput.SecurityGroupIds r1
                       = map Launch.GroupIdentifier.GroupId
                           (Launch.LegacySource.SecurityGroups src)
                 | _ :: _ =>
                     Launch.RunInstancesInput.SubnetId r1 = None
                     ∧ Launch.RunInstancesInput.SecurityGroupIds r1 = []
                 end
               ∧ Forall inSubnet (Launch.RunInstancesInput.NetworkInterfaces r1)).
  { destruct (LaunchTemplate (asg i)) as [ lt | ].
    - apply withLaunchTemplate_fields in Hlt as (-> & -> & -> & -> & Hni).
      repeat (split; [ done | ]).
      destruct Hni as [ (ni & nis & -> & -> & ->) | (-> & -> & ->) ].
      + split; [ done | ]. cbn [Launch.RunInstancesInput.NetworkInterfaces retval app].
        apply Forall_forall. intros ni' Hin. apply list_elem_of_In, in_map_iff in Hin
          as (ni0 & <- & _). by split.
      + split; [ done | constructor ].
    - unfold Launch.ret, Eff.ret in Hlt. injection Hlt as <- <-.
      repeat (split; [ done | ]). constructor. }
  clear Hlt. destruct H1 as (Htype & Hmarket & Hmin & Hmax & Hni & Hall).
  destruct (Launch.LegacySource.launchConfiguration src) as [ lc | ];
    unfold Launch.ret, Eff.ret; intros [= <- <- ]; [ | done ].
  destruct (withLaunchConfiguration_fields src lc r1) as (-> & -> & -> & -> & Hlc).
  repeat (split; [ done | ]).
  destruct (bool_decide _ || bool_decide _).
  - destruct Hlc as (-> & -> & ->). split; [ done | ]. repeat constructor.
  - destruct Hlc as (-> & -> & ->). done.
Qed.

Lemma createRunInstancesInput_InstanceType (i : instance) (src : Launch.LegacySource.t)
  (instanceType : string) (price : float64) (input : Launch.RunInstancesInput.t)
  (log log' : list Launch.request) :
  LegacyLaunch.createRunInstancesInput patchedUserData toLower formatFloat ec2 i src
    instanceType price log = (Returns input, log') →
  Launch.RunInstancesInput.InstanceType input = Some instanceType.
Proof.
  unfold LegacyLaunch.createRunInstancesInput. unfold Launch.bind at 1.
  match goal with
  | |- context [ match ?m log with pair _ _ => _ end ] =>
      destruct (m log) as [ [ r1 | msg ] log1 ] eqn:Hlt; [ | discriminate ]
  end.
  assert (H1 : Launch.RunInstancesInput.InstanceType r1 = Some instanceType).
  { destruct (LaunchTemplate (asg i)) as [ lt | ].
    - by apply withLaunchTemplate_fields in Hlt as (-> & _).
    - unfold Launch.ret, Eff.ret in Hlt. by injection Hlt as <- <-. }
  destruct (Launch.LegacySource.launchConfiguration src) as [ lc | ];
    unfold Launch.ret, Eff.ret; intros [= <- <- ]; [ | done ].
  by destruct (withLaunchConfiguration_fields src lc r1) as (-> & _).
Qed.

(** One turn of the loop. *)
Lemma launchLoop_cons (i : instance) (src : Launch.LegacySource.t)
  (candidate : instanceTypeInformation) (rest : list instanceTypeInformation)
  (log : list Launch.request) :
  LegacyLaunch.launchLoop patchedUserData toLower formatFloat ec2 i src (candidate :: rest)
    log
  = match LegacyLaunch.createRunInstancesInput patchedUserData toLower formatFloat ec2 i
            src (instanceType candidate)
            (Instance.getPricetoBid i (price i)
               (default 0%float (spot (pricing candidate) !! AvailabilityZone i))) log with
    | (Returns input, log1) =>
        match Launch.ec2_RunInstances ec2 input with
        | (_, Some _) =>
            LegacyLaunch.launchLoop patchedUserData toLower formatFloat ec2 i src rest
              (log1 ++ [ Launch.RunInstances input ])
        | (resp, None) =>
            (LegacyLaunch.launchedInstance resp, log1 ++ [ Launch.RunInstances input ])
        end
    | (Panics msg, log1) => (Panics msg, log1)
    end.
Proof.
  cbn [LegacyLaunch.launchLoop]. unfold Launch.bind at 1.
  destruct (LegacyLaunch.createRunInstancesInput _ _ _ _ _ _ _ _ log)
    as [ [ input | msg ] log1 ]; [ | reflexivity ].
  unfold Launch.bind, Launch.ask, Launch.lift, Eff.ret.
  by destruct (Launch.ec2_RunInstances ec2 input) as [ resp [ err | ] ].
Qed.

Lemma runInstancesSent_snoc (log : list Launch.request)
  (input : Launch.RunInstancesInput.t) :
  LegacyLaunch.runInstancesSent (log ++ [ Launch.RunInstances input ])
  = LegacyLaunch.runInstancesSent log ++ [ input ].
Proof. unfold LegacyLaunch.runInstancesSent. by rewrite omap_app. Qed.

(** The loop tries the types in their order and stops at the first that is
    accepted. *)
Lemma launchLoop_first_accepted (i : instance) (src : Launch.LegacySource.t)
  (types : list instanceTypeInformation) (log : list Launch.request) :
  let run :=
    LegacyLaunch.launchLoop patchedUserData toLower formatFloat ec2 i src types log in
  ∃ inputs,
    LegacyLaunch.runInstancesSent run.2 = LegacyLaunch.runInstancesSent log ++ inputs
    ∧ map Launch.RunInstancesInput.InstanceType inputs
      = map (λ candidate, Some (instanceType candidate)) (take (length inputs) types)
    ∧ (∀ k input, inputs !! k = Some input → (S k < length inputs)%nat →
                  (Launch.ec2_RunInstances ec2 input).2 ≠ None)
    ∧ (∀ instanceId, run.1 = Returns (instanceId, None) →
         ∃ input resp,
           last inputs = Some input
           ∧ Launch.ec2_RunInstances ec2 input = (resp, None)
           ∧ LegacyLaunch.launchedInstance resp = Returns (instanceId, None))
    ∧ (∀ instanceId err, run.1 = Returns (instanceId, Some err) →
         instanceId = None
         ∧ err = "exhausted all compatible instance types"
         ∧ length inputs = length types
         ∧ ∀ input, input ∈ inputs → (Launch.ec2_RunInstances ec2 input).2 ≠ None).
Proof.
  revert log. induction types as [ | candidate rest IH ]; intros log run.
  - exists []. subst run. cbn. rewrite app_nil_r.
    split; [ done | ]. split; [ done | ]. split; [ by intros k input [=] | ].
    split; [ by intros instanceId [=] | ].
    intros instanceId err [= <- <- ]. repeat (split; [ done | ]). by intros input ?%elem_of_nil.
  - subst run. rewrite launchLoop_cons.
    pose proof (createRunInstancesInput_sent i src (instanceType candidate)
                  (Instance.getPricetoBid i (price i)
                     (default 0%float (spot (pricing candidate) !! AvailabilityZone i)))
                  log) as Hsent.
    destruct (LegacyLaunch.createRunInstancesInput _ _ _ _ _ _ _ _ log)
      as [ [ input | msg ] log1 ] eqn:Hinput; cbn [snd] in Hsent.
    2:{ exists []. cbn [fst snd]. rewrite Hsent, app_nil_r.
        split; [ done | ]. split; [ done | ]. split; [ by intros k input [=] | ].
        split; [ by intros instanceId [=] | by intros instanceId err [=] ]. }
    apply createRunInstancesInput_InstanceType in Hinput.
    destruct (Launch.ec2_RunInstances ec2 input) as [ resp [ err | ] ] eqn:Hanswer.
    + destruct (IH (log1 ++ [ Launch.RunInstances input ]))
        as (inputs & Hlog & Htypes & Hrejected & Hid & Herr).
      exists (input :: inputs). split.
      { rewrite Hlog, runInstancesSent_snoc, Hsent, <- app_assoc. done. }
      split; [ cbn; by rewrite Hinput, Htypes | ].
      split.
      { intros [ | k ] input' Hk Hlen; cbn in Hk, Hlen.
        - injection Hk as <-. by rewrite Hanswer.
        - apply (Hrejected k input' Hk). lia. }
      split.
      { intros instanceId Hrun. destruct (Hid instanceId Hrun) as (input' & resp' & Hlast & H').
        exists input', resp'. split; [ | done ].
        destruct inputs as [ | input0 inputs ]; [ done | ]. exact Hlast. }
      intros instanceId err' Hrun.
      destruct (Herr instanceId err' Hrun) as (-> & -> & Hlen & Hall).
      repeat (split; [ done | ]). split; [ cbn; by rewrite Hlen | ].
      intros input' [ -> | Hin ]%elem_of_cons; [ by rewrite Hanswer | by apply Hall ].
    + exists [ input ]. cbn [fst snd]. split.
      { by rewrite runInstancesSent_snoc, Hsent. }
      split; [ cbn; by rewrite Hinput | ].
      split; [ intros [ | k ] input' Hk Hlen; cbn in Hlen; lia | ].
      split.
      { intros instanceId Hrun. by exists input, resp. }
      intros instanceId err Hrun. exfalso. revert Hrun.
      unfold LegacyLaunch.launchedInstance.
      destruct resp as [ [ [ | [ [ [ instanceId' | ] [ type | ] ] | ] others ] ] | ];
        cbn; discriminate.
Qed.

(** X25. The legacy launch tries the compatible types in the order of their
    list, the cheapest first, and stops at the first that EC2 accepts. The
    [RunInstances] requests it sends are for a prefix of the list, one for
    each type; all but the last were refused, whatever the error. An
    identifier is returned only from the answer to the last request; an error
    is returned only when every request was refused: the error of the
    filter, with no request at all, when there is no compatible type, and
    [exhausted all compatible instance types] after a request for every
    type. *)
Theorem legacy_launch_first_accepted_type (i : instance) (src : Launch.LegacySource.t)
  (log : list Launch.request) :
  let priced :=
    LegacyLaunch.withPrice i
      (PrimFloat.mul
         (PrimFloat.div (onDemand (pricing (typeInfo i)))
            (Launch.LegacySource.regionOnDemandPriceMultiplier src))
         (Launch.LegacySource.groupOnDemandPriceMultiplier src)) in
  let types :=
    Instance.getCompatibleSpotInstanceTypesListSortedAscendingByPrice filepath_Match
      sort_Slice ephemeralVolumes priced (allowed priced) (disallowed priced) in
  let run :=
    LegacyLaunch.launchSpotReplacement filepath_Match sort_Slice ephemeralVolumes allowed
      disallowed patchedUserData toLower formatFloat ec2 i src log in
  ∃ inputs,
    LegacyLaunch.runInstancesSent run.2 = LegacyLaunch.runInstancesSent log ++ inputs
    ∧ map Launch.RunInstancesInput.InstanceType inputs
      = map (λ candidate, Some (instanceType candidate)) (take (length inputs) types.1)
    ∧ (∀ k input, inputs !! k = Some input → (S k < length inputs)%nat →
                  (Launch.ec2_RunInstances ec2 input).2 ≠ None)
    ∧ (∀ instanceId, run.1 = Returns (instanceId, None) →
         ∃ input resp,
           last inputs = Some input
           ∧ Launch.ec2_RunInstances ec2 input = (resp, None)
           ∧ LegacyLaunch.launchedInstance resp = Returns (instanceId, None))
    ∧ (∀ instanceId err, run.1 = Returns (instanceId, Some err) →
         instanceId = None
         ∧ length inputs = length types.1
         ∧ (∀ input, input ∈ inputs → (Launch.ec2_RunInstances ec2 input).2 ≠ None)
         ∧ match types.2 with
           | Some err' => err = err' ∧ run.2 = log
           | None => err = "exhausted all compatible instance types"
           end).
Proof.
  intros priced types run. subst run. unfold LegacyLaunch.launchSpotReplacement.
  fold priced. fold types.
  destruct types as [ instanceTypes [ err' | ] ] eqn:Htypes; cbn [fst snd].
  - assert (instanceTypes = []) as ->.
    { revert Htypes. subst types.
      unfold Instance.getCompatibleSpotInstanceTypesListSortedAscendingByPrice.
      destruct (Instance.findCompatible _ _ _ _ _ _ _); by intros [= <- ]. }
    exists []. unfold Launch.ret, Eff.ret. cbn [fst snd]. rewrite app_nil_r.
    split; [ done | ]. split; [ done | ]. split; [ by intros k input [=] | ].
    split; [ by intros instanceId [=] | ].
    intros instanceId err [= <- <- ]. repeat (split; [ done | ]).
    split; [ by intros input ?%elem_of_nil | done ].
  - destruct (launchLoop_first_accepted priced src instanceTypes log)
      as (inputs & Hlog & Hinputs & Hrejected & Hid & Herr).
    exists inputs. repeat (split; [ done | ]).
    intros instanceId err Hrun. destruct (Herr instanceId err Hrun) as (-> & -> & Hlen & Hall).
    done.
Qed.

End LegacyProperties.

(** X24 at a group whose launch template declares one network interface. *)
Lemma createRunInstancesInput_network_interfaces_witness :
  ∃ input log',
    LegacyLaunch.createRunInstancesInput Sample.unpatchedUserData Sample.lowerCased Sample.printedPrice
      (Sample.legacyEC2 []) Sample.templateInstance (Sample.legacySource None) "m5a.large" 0.1%float []
    = (Returns input, log')
    ∧ length (Launch.RunInstancesInput.NetworkInterfaces input) = 1%nat
    ∧ Launch.RunInstancesInput.SubnetId input = None
    ∧ Launch.RunInstancesInput.SecurityGroupIds input = [].
Proof.
  eexists _, _. split; [ vm_compute; reflexivity | ]. split; [ reflexivity | ].
  exact (proj1 (proj2 (proj2 (proj2 (proj2
           (createRunInstancesInput_network_interfaces Sample.unpatchedUserData Sample.lowerCased
              Sample.printedPrice (Sample.legacyEC2 []) Sample.templateInstance (Sample.legacySource None)
              "m5a.large" 0.1%float _ [] _ ltac:(vm_compute; reflexivity))))))).
Defined.

(** X25 at a region of seven compatible types where EC2 has no capacity for
    the two cheapest: the third is launched after three requests. *)
Lemma legacy_launch_first_accepted_type_witness :
  let run :=
    LegacyLaunch.launchSpotReplacement Sample.literalMatch Sample.sortSlice Sample.noEphemeralVolumes Sample.noTypes
      Sample.noTypes Sample.unpatchedUserData Sample.lowerCased Sample.printedPrice
      (Sample.legacyEC2 [ "r5.large"; "m5.large" ]) Sample.referenceInstance
      (Sample.legacySource (Some Sample.launchConfigurationWithDevice)) [] in
  run.1 = Returns (Some "i-m5a.large", None)
  ∧ map Launch.RunInstancesInput.InstanceType (LegacyLaunch.runInstancesSent run.2)
    = [ Some "r5.large"; Some "m5.large"; Some "m5a.large" ]
  ∧ ∃ inputs,
      LegacyLaunch.runInstancesSent run.2 = inputs
      ∧ ∀ k input, inputs !! k = Some input → (S k < length inputs)%nat →
                   (Launch.ec2_RunInstances (Sample.legacyEC2 [ "r5.large"; "m5.large" ]) input).2
                   ≠ None.
Proof.
  intros run. split; [ vm_compute; reflexivity | ]. split; [ vm_compute; reflexivity | ].
  destruct (legacy_launch_first_accepted_type Sample.literalMatch Sample.sortSlice Sample.noEphemeralVolumes
              Sample.noTypes Sample.noTypes Sample.unpatchedUserData Sample.lowerCased Sample.printedPrice
              (Sample.legacyEC2 [ "r5.large"; "m5.large" ]) Sample.referenceInstance
              (Sample.legacySource (Some Sample.launchConfigurationWithDevice)) [])
    as (inputs & Hsent & _ & Hrejected & _).
  exists inputs. split; [ exact Hsent | exact Hrejected ].
Defined.

(** ** The temporary launch template: requests and errors of the synthesis *)

Section SynthesisRequests.

Variable hasNetworkInterfaces :
  Launch.ResponseLaunchTemplateData.t →
  bool * list Launch.LaunchTemplateInstanceNetworkInterfaceSpecification.t.
Variable patchedUserData : option string → option string.
Variable formatFloat : float64 → string.
Variable ec2 : Launch.EC2API.

(** [processImageBlockDevices] sends its one request, whatever comes of it. *)
Lemma processImageBlockDevices_sent (i : instance) (src : Launch.Source.t)
  (rii : Launch.RequestLaunchTemplateData.t) (log : list Launch.request) :
  (SpotLaunch.processImageBlockDevices ec2 i src rii log).2
  = log ++ [ Launch.DescribeImages [ Launch.Source.ImageId src ] ].
Proof.
  unfold SpotLaunch.processImageBlockDevices, Launch.bind, Launch.ask, Launch.lift,
    Launch.ret, Eff.ret.
  destruct (Launch.ec2_DescribeImages ec2 [ Launch.Source.ImageId src ])
    as [ [ | [ image | ] rest ] [ e | ] ]; cbn [deref snd]; try reflexivity.
  by destruct (InstanceConversion.convertImageBlockDeviceMappings _ _).
Qed.

(** The outcome of [getlaunchTemplate] and its one request. *)
Lemma getlaunchTemplate_result (id ver : option string) (log : list Launch.request) :
  let answer := Launch.ec2_DescribeLaunchTemplateVersions ec2 id [ ver ] in
  (SpotLaunch.getlaunchTemplate ec2 id ver log).2
  = log ++ [ Launch.DescribeLaunchTemplateVersions id [ ver ] ]
  ∧ ∀ r, (SpotLaunch.getlaunchTemplate ec2 id ver log).1 = Returns r →
         r.2 = match answer with
               | (_, Some e) => Some e
               | ([ _ ], None) => None
               | (_, None) => Some "missing launch template version information"
               end
         ∧ (r.2 ≠ None → r.1 = None).
Proof.
  intros answer. subst answer.
  destruct (SpotLaunch.getlaunchTemplate ec2 id ver log) as [ out log' ] eqn:Hrun.
  cbn [fst snd]. revert Hrun.
  unfold SpotLaunch.getlaunchTemplate, Launch.bind, Launch.ask, Launch.lift,
    Launch.ret, Eff.ret.
  destruct (Launch.ec2_DescribeLaunchTemplateVersions ec2 id [ ver ])
    as [ versions [ e | ] ].
  - destruct id, ver; cbn [deref]; intros [= <- <- ]; (split; [ reflexivity | ]);
      intros r [= <- ]; by destruct versions as [ | version [ | ] ].
  - destruct versions as [ | [ version | ] [ | ] ]; cbn [deref]; intros [= <- <- ];
      (split; [ reflexivity | ]); intros r [= <- ]; done.
Qed.

(** The same for [processLaunchTemplate], for a group that has a launch
    template. *)
Lemma processLaunchTemplate_result (i : instance) (src : Launch.Source.t)
  (lt : LaunchTemplateSpecification) (retval : Launch.RequestLaunchTemplateData.t)
  (log : list Launch.request) :
  LaunchTemplate (asg i) = Some lt →
  let answer :=
    Launch.ec2_DescribeLaunchTemplateVersions ec2 (LaunchTemplateId lt) [ Version lt ] in
  let run :=
    SpotLaunch.processLaunchTemplate hasNetworkInterfaces patchedUserData ec2 i src retval
      log in
  run.2 = log ++ [ Launch.DescribeLaunchTemplateVersions (LaunchTemplateId lt)
                     [ Version lt ] ]
  ∧ ∀ r, run.1 = Returns r →
         r.2 = match answer with
               | (_, Some e) => Some e
               | ([ _ ], None) => None
               | (_, None) => Some "missing launch template version information"
               end.
Proof.
  intros HLT answer. cbv zeta.
  destruct (SpotLaunch.processLaunchTemplate _ _ _ _ _ _ _) as [ out log' ] eqn:Hrun.
  cbn [fst snd]. revert Hrun. unfold SpotLaunch.processLaunchTemplate.
  unfold Launch.bind at 1. unfold Launch.lift at 1. unfold Eff.ret at 1.
  rewrite HLT. cbn [deref]. unfold Launch.bind at 1.
  destruct (getlaunchTemplate_result (LaunchTemplateId lt) (Version lt) log)
    as [ Hlog Hresult ].
  destruct (SpotLaunch.getlaunchTemplate ec2 (LaunchTemplateId lt) (Version lt) log)
    as [ [ [ data err ] | msg ] log1 ]; cbn [fst snd] in *; subst log1;
    [ | by intros [= <- <- ] ].
  destruct (Hresult _ eq_refl) as [ Herr Hdata ]. cbn [fst snd] in Herr, Hdata.
  destruct err as [ err | ].
  { unfold Launch.ret, Eff.ret. intros [= <- <- ]. split; [ done | ].
    by intros r [= <- ]. }
  unfold Launch.bind at 1. unfold Launch.lift at 1. unfold Eff.ret at 1.
  destruct data as [ ltData | ]; cbn [deref]; [ | by intros [= <- <- ] ].
  unfold Launch.bind at 1. unfold Launch.lift at 1. unfold Eff.ret at 1.
  destruct (InstanceConversion.convertLaunchTemplateBlockDeviceMappings _ _)
    as [ BDMs | msg ]; [ | by intros [= <- <- ] ].
  destruct (hasNetworkInterfaces ltData) as [ having nis ].
  unfold Launch.ret, Eff.ret. intros [= <- <- ]. split; [ done | ].
  by intros r [= <- ].
Qed.

(** X27. Building the data of the launch template only reads from EC2. The
    requests [createLaunchTemplateData] sends are [DescribeImages] for the
    image of the instance and then, for a group with a launch template,
    [DescribeLaunchTemplateVersions] for its template and version: a run that
    returns has sent exactly these, and a run that panics a prefix of
    them. *)
Theorem createLaunchTemplateData_only_describes (i : instance) (src : Launch.Source.t)
  (log : list Launch.request) :
  let run :=
    SpotLaunch.createLaunchTemplateData hasNetworkInterfaces patchedUserData formatFloat
      ec2 i src log in
  let describes :=
    Launch.DescribeImages [ Launch.Source.ImageId src ]
    :: match LaunchTemplate (asg i) with
       | Some lt =>
           [ Launch.DescribeLaunchTemplateVersions (LaunchTemplateId lt) [ Version lt ] ]
       | None => []
       end in
  ∃ sent,
    run.2 = log ++ sent
    ∧ sent `prefix_of` describes
    ∧ ∀ r, run.1 = Returns r → sent = describes.
Proof.
  intros run describes. subst run.
  destruct (SpotLaunch.createLaunchTemplateData _ _ _ _ _ _ _) as [ out log' ] eqn:Hrun.
  cbn [fst snd]. revert Hrun. unfold SpotLaunch.createLaunchTemplateData.
  unfold Launch.bind at 1. unfold Launch.lift at 1. unfold Eff.ret at 1.
  destruct (Launch.Source.Placement src) as [ placement | ]; cbn [deref].
  2:{ intros [= <- <- ]. exists []. rewrite app_nil_r. split; [ done | ].
      split; [ apply prefix_nil | done ]. }
  unfold Launch.bind at 1.
  match goal with
  | |- context [ SpotLaunch.processImageBlockDevices ec2 i src ?r log ] =>
      pose proof (processImageBlockDevices_sent i src r log) as Himage;
      destruct (SpotLaunch.processImageBlockDevices ec2 i src r log)
        as [ [ r0 | msg ] log0 ]
  end; cbn [snd] in Himage; subst log0.
  2:{ intros [= <- <- ]. exists [ Launch.DescribeImages [ Launch.Source.ImageId src ] ].
      split; [ done | ]. split; [ | done ]. by eexists. }
  unfold Launch.bind at 1. subst describes.
  destruct (LaunchTemplate (asg i)) as [ lt | ] eqn:HLT.
  - destruct (processLaunchTemplate_result i src lt r0
                (log ++ [ Launch.DescribeImages [ Launch.Source.ImageId src ] ]) HLT)
      as [ Hlog _ ].
    intros Hrun.
    exists [ Launch.DescribeImages [ Launch.Source.ImageId src ];
             Launch.DescribeLaunchTemplateVersions (LaunchTemplateId lt) [ Version lt ] ].
    split; [ | done ]. revert Hrun.
    destruct (SpotLaunch.processLaunchTemplate _ _ _ _ _ _ _)
      as [ [ [ r1 [ err | ] ] | msg ] log1 ]; cbn [fst snd] in *; subst log1;
      unfold Launch.ret, Eff.ret; rewrite <- ?app_assoc;
      try (by intros [= <- <- ]).
    unfold Launch.bind at 1. unfold Launch.lift at 1. unfold Eff.ret at 1.
    destruct (match Launch.Source.launchConfiguration src with Some _ => _ | None => _ end)
      as [ r2 | msg ]; [ | by intros [= <- <- ] ].
    unfold Launch.bind at 1. unfold Launch.lift at 1. unfold Eff.ret at 1.
    destruct (SpotLaunch.appendOtherResourceTypes _ _); by intros [= <- <- ].
  - intros Hrun. exists [ Launch.DescribeImages [ Launch.Source.ImageId src ] ].
    split; [ | done ]. revert Hrun.
    unfold Launch.ret at 1. unfold Eff.ret at 1. cbn [fst snd].
    unfold Launch.bind at 1. unfold Launch.lift at 1. unfold Eff.ret at 1.
    destruct (match Launch.Source.launchConfiguration src with Some _ => _ | None => _ end)
      as [ r2 | msg ]; [ | by intros [= <- <- ] ].
    unfold Launch.bind at 1. unfold Launch.lift at 1. unfold Eff.ret at 1.
    destruct (SpotLaunch.appendOtherResourceTypes _ _); by intros [= <- <- ].
Qed.

(** The end of [createLaunchTemplateData], after the launch template: it
    returns the data and no error, or it panics. *)
Ltac synthesis_returns_data :=
  unfold Launch.bind at 1; unfold Launch.lift at 1; unfold Eff.ret at 1;
  match goal with
  | |- context [ match ?o with Returns _ => _ | Panics _ => _ end ] =>
      destruct o; [ | discriminate ]
  end;
  unfold Launch.bind, Launch.lift, Launch.ret, Eff.ret;
  destruct (SpotLaunch.appendOtherResourceTypes _ _); cbn [fst]; [ | discriminate ];
  intros [= <- <- ]; split; [ done | ]; split; [ done | by intros [] ].

(** X28. [createLaunchTemplateData] returns an error exactly when the group
    has a launch template whose lookup fails: the error of
    [DescribeLaunchTemplateVersions], or [missing launch template version
    information] when the answer does not hold exactly one version. A
    failure to describe the image is no error. The data is [nil] exactly
    when there is an error. *)
Theorem createLaunchTemplateData_error_iff_template_lookup (i : instance)
  (src : Launch.Source.t) (log : list Launch.request)
  (ltData : option Launch.RequestLaunchTemplateData.t) (err : option error) :
  (SpotLaunch.createLaunchTemplateData hasNetworkInterfaces patchedUserData formatFloat
     ec2 i src log).1 = Returns (ltData, err) →
  err = match LaunchTemplate (asg i) with
        | Some lt =>
            match Launch.ec2_DescribeLaunchTemplateVersions ec2 (LaunchTemplateId lt)
                    [ Version lt ] with
            | (_, Some e) => Some e
            | ([ _ ], None) => None
            | (_, None) => Some "missing launch template version information"
            end
        | None => None
        end
  ∧ (ltData = None ↔ err ≠ None).
Proof.
  unfold SpotLaunch.createLaunchTemplateData.
  unfold Launch.bind at 1. unfold Launch.lift at 1. unfold Eff.ret at 1.
  destruct (Launch.Source.Placement src) as [ placement | ]; cbn [deref fst];
    [ | discriminate ].
  unfold Launch.bind at 1.
  destruct (SpotLaunch.processImageBlockDevices ec2 i src _ log) as [ [ r0 | msg ] log0 ];
    [ | discriminate ].
  unfold Launch.bind at 1.
  destruct (LaunchTemplate (asg i)) as [ lt | ] eqn:HLT.
  - destruct (processLaunchTemplate_result i src lt r0 log0 HLT) as [ _ Hresult ].
    destruct (SpotLaunch.processLaunchTemplate _ _ _ _ _ _ _)
      as [ [ [ r1 [ e | ] ] | msg ] log1 ]; cbn [fst snd] in *; [ | | discriminate ].
    + unfold Launch.ret, Eff.ret. cbn [fst]. intros [= <- <- ].
      rewrite <- (Hresult _ eq_refl). cbn [snd]. by split.
    + rewrite <- (Hresult _ eq_refl). cbn [snd]. synthesis_returns_data.
  - unfold Launch.ret at 1. unfold Eff.ret at 1. cbn [fst snd]. synthesis_returns_data.
Qed.

End SynthesisRequests.

(** X27 at a group with a launch template: the two describe requests. *)
Lemma createLaunchTemplateData_only_describes_witness :
  ∃ sent,
    (SpotLaunch.createLaunchTemplateData Sample.declaredNetworkInterfaces
       Sample.unpatchedUserData Sample.printedPrice
       (Sample.launchEC2 None (Sample.fleetLaunches "i-new")) Sample.templateInstance
       (Sample.launchSource None) []).2 = [] ++ sent
    ∧ sent `prefix_of` [ Launch.DescribeImages [ Some "ami-1" ];
                         Launch.DescribeLaunchTemplateVersions (Some "lt-1") [ Some "3" ] ]
    ∧ ∀ r,
        (SpotLaunch.createLaunchTemplateData Sample.declaredNetworkInterfaces
           Sample.unpatchedUserData Sample.printedPrice
           (Sample.launchEC2 None (Sample.fleetLaunches "i-new")) Sample.templateInstance
           (Sample.launchSource None) []).1 = Returns r →
        sent = [ Launch.DescribeImages [ Some "ami-1" ];
                 Launch.DescribeLaunchTemplateVersions (Some "lt-1") [ Some "3" ] ].
Proof.
  exact (createLaunchTemplateData_only_describes Sample.declaredNetworkInterfaces
           Sample.unpatchedUserData Sample.printedPrice
           (Sample.launchEC2 None (Sample.fleetLaunches "i-new")) Sample.templateInstance
           (Sample.launchSource None) []).
Defined.

(** X28 at a launch template of which EC2 describes no version. *)
Lemma createLaunchTemplateData_error_iff_template_lookup_witness :
  (SpotLaunch.createLaunchTemplateData Sample.declaredNetworkInterfaces
     Sample.unpatchedUserData Sample.printedPrice Sample.emptyEC2 Sample.templateInstance
     (Sample.launchSource None) []).1
  = Returns (None, Some "missing launch template version information")
  ∧ ((None : option Launch.RequestLaunchTemplateData.t) = None
     ↔ Some "missing launch template version information" ≠ (None : option error)).
Proof.
  split; [ vm_compute; reflexivity | ].
  exact (proj2
           (createLaunchTemplateData_error_iff_template_lookup
              Sample.declaredNetworkInterfaces Sample.unpatchedUserData Sample.printedPrice
              Sample.emptyEC2 Sample.templateInstance (Sample.launchSource None) []
              None (Some "missing launch template version information")
              ltac:(vm_compute; reflexivity))).
Defined.
